(** * EVE Overview: a shallow embedding of the core and of the panel logic

    The development follows the layout of the Python package. First
    the definitions, one module per source file:
    - [Py], [PyStr], [PyDict]  the fragment of Python the sources rely on
                        (exceptions, [min]/[max], binary64 floats, [str]
                        methods, insertion-ordered dicts);
    - [PreviewFrame]    eve_overview/ui/preview_frame.py;
    - [WindowCapture]   eve_overview/core/window_capture.py;
    - [HotkeyManager]   eve_overview/core/hotkey_manager.py;
    - [MainWindow]      eve_overview/ui/main_window.py (panel registry);
    - [ConfigManager]   eve_overview/core/config_manager.py;
    - [MainWindowProfile] eve_overview/ui/main_window.py (saving and
                        restoring the panels of a profile).
    Then the properties, one section per component. *)

From Stdlib Require Import ZArith String Ascii List Bool Lia.
From Stdlib Require Import Floats.SpecFloat.
From stdpp Require Import base option list strings gmap sorting.

Local Open Scope Z_scope.

(* ===================================================================== *)
(** * Python primitives *)
(* ===================================================================== *)

Module Py.

(** ** Exceptions

    The exception classes that the modelled code can meet. All of them
    derive from [Exception]; [BaseException]-only conditions
    (KeyboardInterrupt, SystemExit) are not part of the model. *)
Inductive exn : Type :=
| TimeoutExpired
| FileNotFoundError
| ValueError
| OverflowError
| TypeError
| AttributeError
| JSONDecodeError
| UnidentifiedImageError
| OSError.

(** The classes that occur in [except] clauses of the sources. *)
Inductive exc_class : Type :=
| C_TimeoutExpired
| C_FileNotFoundError
| C_Exception.

Definition isinstance (e : exn) (c : exc_class) : bool :=
  match c, e with
  | C_Exception, _ => true
  | C_TimeoutExpired, TimeoutExpired => true
  | C_FileNotFoundError, FileNotFoundError => true
  | _, _ => false
  end.

(** A computation either returns a value or raises. *)
Inductive result (A : Type) : Type :=
| Return (a : A)
| Raise (e : exn).
Arguments Return {A} a.
Arguments Raise {A} e.

Definition bind {A B} (m : result A) (k : A -> result B) : result B :=
  match m with
  | Return a => k a
  | Raise e => Raise e
  end.

(** [try: body except classes: handler] *)
Definition try_except {A} (body : result A) (classes : list exc_class)
           (handler : exn -> result A) : result A :=
  match body with
  | Return a => Return a
  | Raise e => if existsb (isinstance e) classes then handler e else Raise e
  end.

(** ** Two-argument [min] and [max]

    CPython keeps the first argument unless a later one compares
    strictly smaller (resp. greater). *)
Definition py_min {A} (lt : A -> A -> bool) (a b : A) : A :=
  if lt b a then b else a.
Definition py_max {A} (lt : A -> A -> bool) (a b : A) : A :=
  if lt a b then b else a.

(** ** Floats: IEEE 754 binary64 *)
Definition float : Type := spec_float.
Definition prec : Z := 53.
Definition emax : Z := 1024.

Definition is_float (f : float) : bool := valid_binary prec emax f.

Definition float_lt : float -> float -> bool := SFltb.
Definition float_le : float -> float -> bool := SFleb.
Definition float_eq : float -> float -> bool := SFeqb.
Definition float_mul : float -> float -> float := SFmul prec emax.

(** The literals of the sources. *)
Definition f0_1 : float := S754_finite false 7205759403792794 (-56).
Definition f0_3 : float := S754_finite false 5404319552844595 (-54).
Definition f0_5 : float := S754_finite false 4503599627370496 (-53).
Definition f1_0 : float := S754_finite false 4503599627370496 (-52).

(** [float(n)] for an [int] operand of a mixed product: exact below
    2^53, rounded to nearest even above, [OverflowError] when the
    integer exceeds the binary64 range. *)
Definition float_of_int (n : Z) : result float :=
  match binary_normalize prec emax n 0 false with
  | S754_infinity _ => Raise OverflowError
  | f => Return f
  end.

(** [n * f] with [n : int] and [f : float]. *)
Definition int_mul_float (n : Z) (f : float) : result float :=
  bind (float_of_int n) (fun nf => Return (float_mul nf f)).

(** [int(f)]: truncation toward zero; NaN and the infinities raise. *)
Definition int_of_float (f : float) : result Z :=
  match f with
  | S754_nan => Raise ValueError
  | S754_infinity _ => Raise OverflowError
  | S754_zero _ => Return 0
  | S754_finite s m e => Return (cond_Zopp s (Z.shiftl (Zpos m) e))
  end.

(** Integer comparison used by [min]/[max] on [int]. *)
Definition int_lt : Z -> Z -> bool := Z.ltb.

End Py.

Import Py.

(** [x ← m; k] sequences computations that may raise. *)
#[global] Instance result_ret : MRet result := @Return.
#[global] Instance result_bind : MBind result := fun A B k m => Py.bind m k.

(* ===================================================================== *)
(** * ui/preview_frame.py *)
(* ===================================================================== *)

Module PreviewFrame.

(** The Python-level state of a panel, with the state of its
    [QTimer] ([update_timer.isActive()], [update_timer.interval()]). *)
Record t : Type := mk {
  window_id : string;
  window_title : string;
  is_dragging : bool;
  scale_factor : float;
  refresh_rate : Z;
  timer_active : bool;
  timer_interval : Z
}.

(** Signals a panel can emit. *)
Inductive signal : Type :=
| closed (wid : string)
| activated (wid : string)
| geometry_changed.

(** [__init__] *)
Definition init (wid title : string) : t :=
  {| window_id := wid; window_title := title;
     is_dragging := false;
     scale_factor := f0_3;
     refresh_rate := 30;
     timer_active := false;
     timer_interval := 0 |}.

(** [set_scale]: [self.scale_factor = max(0.1, min(1.0, scale))] *)
Definition set_scale (scale : float) (p : t) : t :=
  {| window_id := window_id p; window_title := window_title p;
     is_dragging := is_dragging p;
     scale_factor := py_max float_lt f0_1 (py_min float_lt f1_0 scale);
     refresh_rate := refresh_rate p;
     timer_active := timer_active p;
     timer_interval := timer_interval p |}.

(** [set_refresh_rate]: clamps, then re-arms a running timer. *)
Definition set_refresh_rate (fps : Z) (p : t) : t :=
  let r := py_max int_lt 1 (py_min int_lt 60 fps) in
  {| window_id := window_id p; window_title := window_title p;
     is_dragging := is_dragging p;
     scale_factor := scale_factor p;
     refresh_rate := r;
     timer_active := timer_active p;
     timer_interval := if timer_active p then 1000 / r else timer_interval p |}.

(** [start_preview] *)
Definition start_preview (p : t) : t :=
  {| window_id := window_id p; window_title := window_title p;
     is_dragging := is_dragging p;
     scale_factor := scale_factor p;
     refresh_rate := refresh_rate p;
     timer_active := true;
     timer_interval := 1000 / refresh_rate p |}.

(** [stop_preview] *)
Definition stop_preview (p : t) : t :=
  {| window_id := window_id p; window_title := window_title p;
     is_dragging := is_dragging p;
     scale_factor := scale_factor p;
     refresh_rate := refresh_rate p;
     timer_active := false;
     timer_interval := timer_interval p |}.

Definition set_dragging (b : bool) (p : t) : t :=
  {| window_id := window_id p; window_title := window_title p;
     is_dragging := b;
     scale_factor := scale_factor p;
     refresh_rate := refresh_rate p;
     timer_active := timer_active p;
     timer_interval := timer_interval p |}.

(** [closeEvent]: stops the timer, then emits [closed(window_id)]. *)
Definition closeEvent (p : t) : t * list signal :=
  (stop_preview p, [closed (window_id p)]).

Inductive button : Type := LeftButton | RightButton | OtherButton.

(** [mousePressEvent]; [on_title] is
    [self.title_label.geometry().contains(event.pos())]. A right
    click calls [self.close()], which delivers the close event. *)
Definition mousePressEvent (b : button) (on_title : bool) (p : t)
  : t * list signal :=
  match b with
  | LeftButton =>
      if on_title then (set_dragging true p, [])
      else (p, [activated (window_id p)])
  | RightButton => closeEvent p
  | OtherButton => (p, [])
  end.

(** [mouseReleaseEvent] *)
Definition mouseReleaseEvent (b : button) (p : t) : t * list signal :=
  match b with
  | LeftButton => (set_dragging false p, [geometry_changed])
  | _ => (p, [])
  end.

(** The operations of a panel that touch its Python-level state. *)
Inductive op : Type :=
| OpSetScale (scale : float)
| OpSetRefreshRate (fps : Z)
| OpStartPreview
| OpStopPreview
| OpMousePress (b : button) (on_title : bool)
| OpMouseRelease (b : button)
| OpClose.

Definition step (o : op) (p : t) : t :=
  match o with
  | OpSetScale s => set_scale s p
  | OpSetRefreshRate f => set_refresh_rate f p
  | OpStartPreview => start_preview p
  | OpStopPreview => stop_preview p
  | OpMousePress b on_title => fst (mousePressEvent b on_title p)
  | OpMouseRelease b => fst (mouseReleaseEvent b p)
  | OpClose => fst (closeEvent p)
  end.

(** Running a sequence of operations, first one first. *)
Definition run (ops : list op) (p : t) : t :=
  fold_left (fun q o => step o q) ops p.

(** [0.1 <= scale_factor <= 1.0] and [1 <= refresh_rate <= 60],
    with Python's float and int comparisons. *)
Definition scale_in_bounds (p : t) : bool :=
  float_le f0_1 (scale_factor p) && float_le (scale_factor p) f1_0.
Definition rate_in_bounds (p : t) : bool :=
  (1 <=? refresh_rate p) && (refresh_rate p <=? 60).
Definition in_bounds (p : t) : bool :=
  scale_in_bounds p && rate_in_bounds p.

End PreviewFrame.

(* ===================================================================== *)
(** * Python [str] methods and [dict] objects *)
(* ===================================================================== *)

(** A string is a sequence of 8-bit characters. The case conversions
    and the white-space and printability tests below are Python's on
    ASCII text ([isascii] in this module) and are not meant for text
    outside it: every property that depends on them and takes a
    string from the user is stated for ASCII text. Splitting,
    joining, comparing and measuring do not look at what a character
    means. *)
Module PyStr.
Local Open Scope string_scope.

Definition code (c : ascii) : N := N_of_ascii c.

Definition is_upper (c : ascii) : bool := ((65 <=? code c) && (code c <=? 90))%N.
Definition is_lower (c : ascii) : bool := ((97 <=? code c) && (code c <=? 122))%N.
Definition is_digit (c : ascii) : bool := ((48 <=? code c) && (code c <=? 57))%N.

(** [str.isspace] on the ASCII range: TAB, LF, VT, FF, CR, the four
    separators FS, GS, RS, US, and the space. *)
Definition is_space (c : ascii) : bool :=
  (((9 <=? code c) && (code c <=? 13)) ||
   ((28 <=? code c) && (code c <=? 31)) ||
   (code c =? 32))%N.

(** [str.isprintable] on the ASCII range. *)
Definition is_printable (c : ascii) : bool :=
  ((32 <=? code c) && (code c <=? 126))%N.

Definition lower_char (c : ascii) : ascii :=
  if is_upper c then ascii_of_N (code c + 32) else c.
Definition upper_char (c : ascii) : ascii :=
  if is_lower c then ascii_of_N (code c - 32) else c.

Fixpoint map_chars (f : ascii -> ascii) (s : string) : string :=
  match s with
  | EmptyString => EmptyString
  | String c s' => String (f c) (map_chars f s')
  end.

(** [s.lower()], on ASCII text *)
Definition lower : string -> string := map_chars lower_char.

(** [s.capitalize()], on ASCII text *)
Definition capitalize (s : string) : string :=
  match s with
  | EmptyString => EmptyString
  | String c s' => String (upper_char c) (lower s')
  end.

(** [s.split(sep)] for a one-character separator: never empty. *)
Fixpoint split (sep : ascii) (s : string) : list string :=
  match s with
  | EmptyString => [EmptyString]
  | String c s' =>
      if Ascii.eqb c sep then EmptyString :: split sep s'
      else match split sep s' with
           | t :: ts => String c t :: ts
           | [] => [String c EmptyString]
           end
  end.

(** [sep.join(parts)] *)
Definition join (sep : string) (parts : list string) : string :=
  String.concat sep parts.

Fixpoint lstrip_by (drop : ascii -> bool) (s : string) : string :=
  match s with
  | EmptyString => EmptyString
  | String c s' => if drop c then lstrip_by drop s' else s
  end.

Fixpoint rstrip_by (drop : ascii -> bool) (s : string) : string :=
  match s with
  | EmptyString => EmptyString
  | String c s' =>
      match rstrip_by drop s' with
      | EmptyString => if drop c then EmptyString else String c EmptyString
      | r => String c r
      end
  end.

Definition strip_by (drop : ascii -> bool) (s : string) : string :=
  rstrip_by drop (lstrip_by drop s).

(** [s.strip()]; the white space is that of ASCII text *)
Definition strip : string -> string := strip_by is_space.

Fixpoint mem_char (c : ascii) (chars : string) : bool :=
  match chars with
  | EmptyString => false
  | String d chars' => Ascii.eqb c d || mem_char c chars'
  end.

(** [s.strip(chars)] *)
Definition strip_chars (chars : string) : string -> string :=
  strip_by (fun c => mem_char c chars).

(** [s.startswith(prefix)] *)
Definition startswith (pre s : string) : bool := String.prefix pre s.

Fixpoint all_chars (p : ascii -> bool) (s : string) : bool :=
  match s with
  | EmptyString => true
  | String c s' => p c && all_chars p s'
  end.

(** [s.isdigit()]: at least one character, all of them digits. *)
Definition isdigit (s : string) : bool :=
  match s with
  | EmptyString => false
  | _ => all_chars is_digit s
  end.

(** [s[1:]] *)
Definition tail (s : string) : string :=
  match s with
  | EmptyString => EmptyString
  | String _ s' => s'
  end.

(** ** Splitting on white space, and substrings *)

(** The longest prefix without white space, and what follows it. *)
Fixpoint break_ws (s : string) : string * string :=
  match s with
  | EmptyString => (EmptyString, EmptyString)
  | String c s' =>
      if is_space c then (EmptyString, s)
      else let '(w, r) := break_ws s' in (String c w, r)
  end.

(** [s.split(None, maxsplit)]: words separated by runs of white space;
    once [maxsplit] words are out, what is left goes in one piece,
    its leading white space removed and its trailing white space
    kept. *)
Fixpoint split_ws (maxsplit : nat) (s : string) : list string :=
  match lstrip_by is_space s with
  | EmptyString => []
  | s' =>
      match maxsplit with
      | O => [s']
      | S k => let '(w, r) := break_ws s' in w :: split_ws k r
      end
  end.

(** No character of the string is white space. *)
Definition no_ws (s : string) : bool := all_chars (fun c => negb (is_space c)) s.

(** The string is not empty and does not start with white space. *)
Definition starts_visible (s : string) : bool :=
  match s with
  | EmptyString => false
  | String c _ => negb (is_space c)
  end.

(** [sub in s] *)
Fixpoint contains_str (sub s : string) : bool :=
  String.prefix sub s ||
  match s with
  | EmptyString => false
  | String _ s' => contains_str sub s'
  end.

(** [s.isascii()]: every character is below 128. On such text the
    case conversions and the white-space tests of this module are
    Python's. *)
Definition is_ascii_char (c : ascii) : bool := (code c <? 128)%N.
Definition isascii (s : string) : bool := all_chars is_ascii_char s.

(** The line feed. *)
Definition LF : ascii := ascii_of_nat 10.

End PyStr.

(** A [dict] keeps its keys in insertion order; assigning to a key that
    is present replaces the value where it stands. *)
Module PyDict.
Section Dict.
Context {V : Type}.

Definition t : Type := list (string * V).

(** [d.get(k)] / [d[k]] *)
Fixpoint get (k : string) (d : t) : option V :=
  match d with
  | [] => None
  | (k', v) :: d' => if String.eqb k' k then Some v else get k d'
  end.

(** [k in d] *)
Definition contains (k : string) (d : t) : bool :=
  match get k d with Some _ => true | None => false end.

(** [d[k] = v] *)
Fixpoint set (k : string) (v : V) (d : t) : t :=
  match d with
  | [] => [(k, v)]
  | (k', v') :: d' =>
      if String.eqb k' k then (k', v) :: d' else (k', v') :: set k v d'
  end.

(** [del d[k]]. Python raises [KeyError] when the key is absent;
    the sources only delete under a [k in d] guard, and here an
    absent key leaves the dict as it is. *)
Fixpoint del (k : string) (d : t) : t :=
  match d with
  | [] => []
  | (k', v') :: d' =>
      if String.eqb k' k then del k d' else (k', v') :: del k d'
  end.

Definition keys (d : t) : list string := map fst d.

End Dict.
Arguments t V : clear implicits.
End PyDict.

(* ===================================================================== *)
(** * core/window_capture.py *)
(* ===================================================================== *)

Module WindowCapture.

Definition bytes : Type := string.

(** [subprocess.CompletedProcess], as far as the sources read it. *)
Record CompletedProcess : Type := {
  returncode : Z;
  stdout : bytes
}.

(** One call of [subprocess.run]: argv, the [input=] bytes if any,
    and the [timeout=] in seconds. *)
Record call : Type := {
  argv : list string;
  input : option bytes;
  timeout : Z
}.

(** The collaborators outside the repository: the process runner
    and Pillow. What they answer is left to the platform; a raised
    exception is an answer like any other. *)
Class Platform : Type := {
  Image : Type;
  subprocess_run : call -> result CompletedProcess;
  Image_open : bytes -> result Image;
  width : Image -> Z;
  height : Image -> Z;
  Image_resize : Image -> Z * Z -> result Image
}.

(** Pillow's contract for [Image.resize], the only fact about the
    library that the size statements use. *)
Class PillowResize (P : Platform) : Prop := {
  resize_size : forall img sz img',
    Image_resize img sz = Return img' -> (width img', height img') = sz
}.

(** Computations that start processes: the calls made so far, in
    order, and the outcome. *)
Definition proc (A : Type) : Type := list call * result A.

#[global] Instance proc_ret : MRet proc := fun A a => ([], Return a).
#[global] Instance proc_bind : MBind proc := fun A B k m =>
  match m with
  | (l, Return a) => let '(l', r) := k a in (l ++ l', r)
  | (l, Raise e) => (l, Raise e)
  end.

Definition lift {A} (r : result A) : proc A := ([], r).

(** [try: body except classes: handler], keeping the calls already made. *)
Definition proc_try_except {A} (body : proc A) (classes : list exc_class)
           (handler : exn -> proc A) : proc A :=
  match body with
  | (l, Return a) => (l, Return a)
  | (l, Raise e) =>
      if existsb (isinstance e) classes
      then let '(l', r) := handler e in (l ++ l', r)
      else (l, Raise e)
  end.

(** How control leaves a [try] suite: by a [return] statement or by
    running off its end. *)
Inductive flow (A : Type) : Type :=
| Returned (a : A)
| Fallthrough.
Arguments Returned {A} a.
Arguments Fallthrough {A}.

Section WithPlatform.
Context {P : Platform}.

Definition run (c : call) : proc CompletedProcess := ([c], subprocess_run c).

(** Truth value of a [bytes] object. *)
Definition truthy (b : bytes) : bool :=
  match b with EmptyString => false | _ => true end.

(** [(int(img.width * scale), int(img.height * scale))] *)
Definition new_size (img : Image) (scale : float) : result (Z * Z) :=
  fw ← int_mul_float (width img) scale;
  w ← int_of_float fw;
  fh ← int_mul_float (height img) scale;
  h ← int_of_float fh;
  mret (w, h).

(** The three lines shared by both capture paths:
    [if scale != 1.0: new_size = ...; img = img.resize(new_size, LANCZOS)] *)
Definition scale_if_needed (img : Image) (scale : float) : result Image :=
  if negb (float_eq scale f1_0)
  then sz ← new_size img scale; Image_resize img sz
  else mret img.

Definition import_call (window_id : string) : call :=
  {| argv := ["import"; "-window"; window_id; "-silent"; "png:-"]%string;
     input := None; timeout := 1 |}.
Definition xwd_call (window_id : string) : call :=
  {| argv := ["xwd"; "-id"; window_id; "-silent"]%string;
     input := None; timeout := 1 |}.
Definition convert_call (xwd_stdout : bytes) : call :=
  {| argv := ["convert"; "xwd:-"; "png:-"]%string;
     input := Some xwd_stdout; timeout := 1 |}.

(** The [try] suite of [_capture_window_xwd]. *)
Definition xwd_suite (window_id : string) (scale : float)
  : proc (flow (option Image)) :=
  xwd_result ← run (xwd_call window_id);
  if negb (returncode xwd_result =? 0) then mret (Returned None)
  else
    convert_result ← run (convert_call (stdout xwd_result));
    if (returncode convert_result =? 0) && truthy (stdout convert_result) then
      img ← lift (Image_open (stdout convert_result));
      img ← lift (scale_if_needed img scale);
      mret (Returned (Some img))
    else mret Fallthrough.

(** [_capture_window_xwd] *)
Definition _capture_window_xwd (window_id : string) (scale : float)
  : proc (option Image) :=
  r ← proc_try_except (xwd_suite window_id scale)
        [C_TimeoutExpired; C_FileNotFoundError; C_Exception]
        (fun _ => mret Fallthrough);
  match r with
  | Returned v => mret v
  | Fallthrough => mret None
  end.

(** The [try] suite of [capture_window]. *)
Definition import_suite (window_id : string) (scale : float)
  : proc (flow (option Image)) :=
  result ← run (import_call window_id);
  if (returncode result =? 0) && truthy (stdout result) then
    img ← lift (Image_open (stdout result));
    img ← lift (scale_if_needed img scale);
    mret (Returned (Some img))
  else mret Fallthrough.

(** [capture_window] *)
Definition capture_window (window_id : string) (scale : float)
  : proc (option Image) :=
  r ← proc_try_except (import_suite window_id scale)
        [C_TimeoutExpired; C_FileNotFoundError; C_Exception]
        (fun _ => mret Fallthrough);
  match r with
  | Returned v => mret v
  | Fallthrough => _capture_window_xwd window_id scale
  end.

(** The bitmap a capture path decoded before any resampling. *)
Definition decoded_by_import (window_id : string) (orig : Image) : Prop :=
  exists cp, subprocess_run (import_call window_id) = Return cp /\
             returncode cp = 0 /\ truthy (stdout cp) = true /\
             Image_open (stdout cp) = Return orig.

Definition decoded_by_xwd (window_id : string) (orig : Image) : Prop :=
  exists xp cp, subprocess_run (xwd_call window_id) = Return xp /\
                returncode xp = 0 /\
                subprocess_run (convert_call (stdout xp)) = Return cp /\
                returncode cp = 0 /\ truthy (stdout cp) = true /\
                Image_open (stdout cp) = Return orig.

(** A suite yields an image only by returning one. *)
Definition yields_image (s : proc (flow (option Image))) : Prop :=
  exists img, snd s = Return (Returned (Some img)).

End WithPlatform.

(** ** Rounding to the nearest integer

    Arithmetic rounding of a float (halves away from zero), the
    reading of [round] in the specification of the capturer. It is
    not part of the sources; it is here to be compared with
    [int_of_float]. *)
Definition round_of_float (f : float) : result Z :=
  match f with
  | S754_nan => Raise ValueError
  | S754_infinity _ => Raise OverflowError
  | S754_zero _ => Return 0
  | S754_finite s m e =>
      Return (cond_Zopp s
                (if 0 <=? e then Z.shiftl (Zpos m) e
                 else (2 * Zpos m + 2 ^ (- e)) / 2 ^ (- e + 1)))
  end.

(** ** A concrete platform

    A display with one window, [0x3a00007], whose screenshot decodes
    to a 3 x 7 bitmap; every other identifier makes the tools exit
    with status 1. Bitmaps are represented by their size. *)
Definition demo_run (c : call) : result CompletedProcess :=
  match argv c with
  | ["import"; "-window"; wid; "-silent"; "png:-"]%string =>
      if String.eqb wid "0x3a00007"
      then Return {| returncode := 0; stdout := "PNG3x7" |}
      else Return {| returncode := 1; stdout := "" |}
  | ["xwd"; "-id"; wid; "-silent"]%string =>
      if String.eqb wid "0x3a00007"
      then Return {| returncode := 0; stdout := "XWD3x7" |}
      else Return {| returncode := 1; stdout := "" |}
  | ["convert"; "xwd:-"; "png:-"]%string =>
      match input c with
      | Some "XWD3x7"%string => Return {| returncode := 0; stdout := "PNG3x7" |}
      | _ => Return {| returncode := 1; stdout := "" |}
      end
  | _ => Raise FileNotFoundError
  end.

Definition demo_open (b : bytes) : result (Z * Z) :=
  if String.eqb b "PNG3x7" then Return (3, 7) else Raise UnidentifiedImageError.

Definition demo_resize (img sz : Z * Z) : result (Z * Z) :=
  if (1 <=? fst sz) && (1 <=? snd sz) then Return sz else Raise ValueError.

Definition demo_platform : Platform :=
  {| Image := Z * Z;
     subprocess_run := demo_run;
     Image_open := demo_open;
     width := fst;
     height := snd;
     Image_resize := demo_resize |}.

(** ** Enumerating and activating windows *)

Section Windows.
Context {P : Platform}.
Local Open Scope string_scope.

(** The two classes of the narrower [except] clauses. *)
Definition tool_unavailable : list exc_class :=
  [C_TimeoutExpired; C_FileNotFoundError].

(** The runner is called with [text=True] in this part of the file:
    the output is a [str], which the model does not tell from
    [bytes]. *)
Definition wmctrl_list_call : call :=
  {| argv := ["wmctrl"; "-l"]; input := None; timeout := 2 |}.
Definition xdotool_search_call : call :=
  {| argv := ["xdotool"; "search"; "--onlyvisible"; "--name"; ""];
     input := None; timeout := 2 |}.
Definition xdotool_name_call (window_id : string) : call :=
  {| argv := ["xdotool"; "getwindowname"; window_id];
     input := None; timeout := 1 |}.
Definition wmctrl_activate_call (window_id : string) : call :=
  {| argv := ["wmctrl"; "-i"; "-a"; window_id]; input := None; timeout := 1 |}.
Definition xdotool_activate_call (window_id : string) : call :=
  {| argv := ["xdotool"; "windowactivate"; window_id];
     input := None; timeout := 1 |}.

(** [result.stdout.strip().split('\n')] *)
Definition output_lines (out : string) : list string :=
  PyStr.split PyStr.LF (PyStr.strip out).

(** The body of the loop of [get_window_list] over the lines of
    [wmctrl -l]: an empty line, and a line with fewer than four
    fields, gives nothing. *)
Definition parse_wmctrl_line (line : string) : option (string * string) :=
  if truthy line then
    match PyStr.split_ws 3 line with
    | window_id :: _ :: _ :: window_title :: _ => Some (window_id, window_title)
    | _ => None
    end
  else None.

(** [_get_window_title] *)
Definition _get_window_title (window_id : string) : proc string :=
  proc_try_except
    (result ← run (xdotool_name_call window_id);
     mret (if (returncode result =? 0)%Z then PyStr.strip (stdout result)
           else "Unknown"))
    tool_unavailable
    (fun _ => mret "Unknown").

(** [_get_windows_xdotool] *)
Definition _get_windows_xdotool : proc (list (string * string)) :=
  proc_try_except
    (result ← run xdotool_search_call;
     if (returncode result =? 0)%Z then
       mapM (fun window_id =>
               title ← _get_window_title window_id;
               mret (window_id, title))
            (List.filter truthy (output_lines (stdout result)))
     else mret [])
    tool_unavailable
    (fun _ => mret []).

(** [get_window_list] *)
Definition get_window_list : proc (list (string * string)) :=
  proc_try_except
    (result ← run wmctrl_list_call;
     if (returncode result =? 0)%Z then
       mret (omap parse_wmctrl_line (output_lines (stdout result)))
     else mret [])
    tool_unavailable
    (fun _ => _get_windows_xdotool).

(** [activate_window] *)
Definition activate_window (window_id : string) : proc bool :=
  proc_try_except
    (result ← run (wmctrl_activate_call window_id);
     if (returncode result =? 0)%Z then mret true
     else
       result ← run (xdotool_activate_call window_id);
       mret ((returncode result =? 0)%Z))
    tool_unavailable
    (fun _ => mret false).

End Windows.

(** A desktop where [wmctrl] is not installed and [xdotool] is. *)
Definition xdotool_only_run (c : call) : result CompletedProcess :=
  match argv c with
  | ["xdotool"; "search"; "--onlyvisible"; "--name"; ""]%string =>
      Return {| returncode := 0; stdout := "41943047
41943052
" |}
  | ["xdotool"; "getwindowname"; wid]%string =>
      if String.eqb wid "41943047"
      then Return {| returncode := 0; stdout := "EVE - Pilot
" |}
      else Return {| returncode := 1; stdout := "" |}
  | ["xdotool"; "windowactivate"; _]%string =>
      Return {| returncode := 0; stdout := "" |}
  | _ => Raise FileNotFoundError
  end.

Definition xdotool_only : Platform :=
  {| Image := Z * Z;
     subprocess_run := xdotool_only_run;
     Image_open := demo_open;
     width := fst;
     height := snd;
     Image_resize := demo_resize |}.

(** A desktop with none of the tools installed. *)
Definition no_tools_run (c : call) : result CompletedProcess :=
  Raise FileNotFoundError.

Definition no_tools : Platform :=
  {| Image := Z * Z;
     subprocess_run := no_tools_run;
     Image_open := demo_open;
     width := fst;
     height := snd;
     Image_resize := demo_resize |}.

(** A desktop where starting [wmctrl] is refused by the system. *)
Definition refused_run (c : call) : result CompletedProcess := Raise OSError.

Definition refused : Platform :=
  {| Image := Z * Z;
     subprocess_run := refused_run;
     Image_open := demo_open;
     width := fst;
     height := snd;
     Image_resize := demo_resize |}.

(** The display of [demo_platform] on a desktop without [import]. *)
Definition without_import_run (c : call) : result CompletedProcess :=
  match argv c with
  | "import"%string :: _ => Raise FileNotFoundError
  | _ => demo_run c
  end.

Definition without_import : Platform :=
  {| Image := Z * Z;
     subprocess_run := without_import_run;
     Image_open := demo_open;
     width := fst;
     height := snd;
     Image_resize := demo_resize |}.

End WindowCapture.

(* ===================================================================== *)
(** * core/hotkey_manager.py *)
(* ===================================================================== *)

Module HotkeyManager.
Import PyStr.
Local Open Scope string_scope.

(** ** Key combinations *)

(** [key_map] of [parse_key_combo] *)
Definition key_map : PyDict.t string :=
  [ ("ctrl", "<ctrl>");
    ("control", "<ctrl>");
    ("alt", "<alt>");
    ("shift", "<shift>");
    ("super", "<cmd>");
    ("win", "<cmd>");
    ("cmd", "<cmd>") ].

(** The body of the loop of [parse_key_combo]. *)
Definition parse_part (part : string) : string :=
  let part := strip part in
  match PyDict.get part key_map with
  | Some key => key
  | None =>
      if (String.length part =? 1)%nat then part
      else if startswith "f" part && isdigit (tail part)
           then "<" ++ part ++ ">"
           else "<" ++ part ++ ">"
  end.

(** [parse_key_combo] *)
Definition parse_key_combo (combo_string : string) : string :=
  let parts := split "+" (lower combo_string) in
  join "+" (map parse_part parts).

(** The body of the loop of [format_key_combo]. *)
Definition format_part (part : string) : string :=
  let part := capitalize (strip_chars "<>" part) in
  if String.eqb part "Cmd" then "Super" else part.

(** [format_key_combo] *)
Definition format_key_combo (pynput_combo : string) : string :=
  let parts := split "+" pynput_combo in
  join "+" (map format_part parts).

(** ** The canonical form of a combination

    The reading of "canonical capitalized form" in the description of
    the registry: every modifier alias, whatever its casing, stands
    for one of [Ctrl], [Alt], [Shift], [Super], and the key character
    is upper-cased. These two definitions are not part of the
    sources. *)
Definition canonical_modifier (token : string) : option string :=
  let t := lower token in
  if String.eqb t "ctrl" || String.eqb t "control" then Some "Ctrl"
  else if String.eqb t "alt" then Some "Alt"
  else if String.eqb t "shift" then Some "Shift"
  else if String.eqb t "super" || String.eqb t "win" || String.eqb t "cmd"
       then Some "Super"
  else None.

Definition canonical_key (c : ascii) : string := String (upper_char c) "".

(** A string without ['+']: it is one token for [split]. *)
Definition no_plus (s : string) : bool :=
  all_chars (fun c => negb (Ascii.eqb c "+")) s.

(** [token_ok t out]: the token [t] of the combination survives both
    splits and comes out of parse-then-format as [out]. *)
Definition token_ok (t out : string) : Prop :=
  no_plus (lower t) = true /\
  no_plus (parse_part (lower t)) = true /\
  format_part (parse_part (lower t)) = out.

(** ** The registry *)

Section Registry.
(** Callbacks are opaque to the registry. *)
Context {Callback : Type}.

(** [{'combo': key_combo, 'callback': callback}] *)
Record binding : Type := {
  combo : string;
  callback : Callback
}.

(** The closure built by [make_callback(cb=callback, hk_name=name)]:
    it calls [cb] and then emits [hotkey_triggered(hk_name)]. *)
Record wrapper : Type := {
  cb : Callback;
  hk_name : string
}.

(** What a trigger makes observable, in order. *)
Inductive effect : Type :=
| Called (c : Callback)
| Emitted (name : string).

Definition invoke (w : wrapper) : list effect :=
  [Called (cb w); Emitted (hk_name w)].

(** A [keyboard.GlobalHotKeys] object. *)
Record Listener : Type := {
  hotkey_map : PyDict.t wrapper;
  running : bool
}.

(** Calls made on pynput. *)
Inductive pynput_call : Type :=
| Stop
| GlobalHotKeys (m : PyDict.t wrapper)
| Start.

(** The manager, and the calls it has made on pynput so far. *)
Record t : Type := {
  hotkeys : PyDict.t binding;
  listener : option Listener;
  calls : list pynput_call
}.

(** [__init__] *)
Definition init : t := {| hotkeys := []; listener := None; calls := [] |}.

(** Whether pynput accepts to build a listener for a map (it
    refuses combination strings it cannot parse by raising). *)
Variable accepts : PyDict.t wrapper -> bool.

(** The loop of [_restart_listener] that fills [hotkey_map]. *)
Definition build_hotkey_map (hk : PyDict.t binding) : PyDict.t wrapper :=
  fold_left
    (fun m '(name, info) =>
       PyDict.set (combo info) {| cb := callback info; hk_name := name |} m)
    hk [].

Definition stop_listener (l : Listener) : Listener :=
  {| hotkey_map := hotkey_map l; running := false |}.

(** [_restart_listener] *)
Definition _restart_listener (s : t) : t :=
  let s1 :=
    match listener s with
    | Some l => {| hotkeys := hotkeys s;
                   listener := Some (stop_listener l);
                   calls := calls s ++ [Stop] |}
    | None => s
    end in
  match hotkeys s1 with
  | [] => s1
  | _ =>
      let m := build_hotkey_map (hotkeys s1) in
      if accepts m then
        {| hotkeys := hotkeys s1;
           listener := Some {| hotkey_map := m; running := true |};
           calls := calls s1 ++ [GlobalHotKeys m; Start] |}
      else
        {| hotkeys := hotkeys s1;
           listener := listener s1;
           calls := calls s1 ++ [GlobalHotKeys m] |}
  end.

(** [register_hotkey]: no statement of its [try] suite raises in
    this model, so it answers [True]. *)
Definition register_hotkey (name key_combo : string) (c : Callback) (s : t)
  : bool * t :=
  let s1 := {| hotkeys := PyDict.set name
                            {| combo := key_combo; callback := c |}
                            (hotkeys s);
               listener := listener s;
               calls := calls s |} in
  (true, _restart_listener s1).

(** [unregister_hotkey] *)
Definition unregister_hotkey (name : string) (s : t) : bool * t :=
  if PyDict.contains name (hotkeys s) then
    let s1 := {| hotkeys := PyDict.del name (hotkeys s);
                 listener := listener s;
                 calls := calls s |} in
    (true, _restart_listener s1)
  else (false, s).

(** [get_hotkeys] *)
Definition get_hotkeys (s : t) : PyDict.t string :=
  map (fun '(name, info) => (name, combo info)) (hotkeys s).

(** [start] *)
Definition start (s : t) : t := _restart_listener s.

(** [stop] *)
Definition stop (s : t) : t :=
  match listener s with
  | Some _ => {| hotkeys := hotkeys s; listener := None;
                 calls := calls s ++ [Stop] |}
  | None => s
  end.

(** The map the running listener watches; empty when none runs. *)
Definition watched (s : t) : PyDict.t wrapper :=
  match listener s with
  | Some l => if running l then hotkey_map l else []
  | None => []
  end.

(** What pressing a combination makes observable. *)
Definition trigger (key_combo : string) (m : PyDict.t wrapper) : list effect :=
  match PyDict.get key_combo m with
  | Some w => invoke w
  | None => []
  end.

(** The last binding, in iteration order, that carries a combination. *)
Definition last_with_combo (key_combo : string) (hk : PyDict.t binding)
  : option (string * binding) :=
  last (List.filter (fun e => String.eqb (combo (snd e)) key_combo) hk).

(** ** Reading a restart *)

(** The [stop()] call a restart makes on the listener it finds. *)
Definition stops (l : option Listener) : list pynput_call :=
  match l with Some _ => [Stop] | None => [] end.

(** [restarted_from hk s s']: between [s] and [s'] the listener found
    in [s] was stopped and, after that, a listener was requested for
    the map built from the whole of [hk] -- nothing is requested when
    [hk] is empty. What [s'] watches afterwards is that map, or
    nothing when no listener was requested or pynput refused it. *)
Definition restarted_from (hk : PyDict.t binding) (s s' : t) : Prop :=
  match hk with
  | [] =>
      calls s' = (calls s ++ stops (listener s))%list /\ watched s' = []
  | _ =>
      let m := build_hotkey_map hk in
      if accepts m
      then calls s' = (calls s ++ stops (listener s) ++ [GlobalHotKeys m; Start])%list /\
           watched s' = m
      else calls s' = (calls s ++ stops (listener s) ++ [GlobalHotKeys m])%list /\
           watched s' = []
  end.

(** The wrapper a binding gets in the listener map. *)
Definition wrapper_of (e : string * binding) : wrapper :=
  {| cb := callback (snd e); hk_name := fst e |}.

(** A name can be notified when some combination triggers it. *)
Definition notifiable (m : PyDict.t wrapper) (name : string) : Prop :=
  exists key_combo, Emitted name ∈ trigger key_combo m.

End Registry.
Arguments binding Callback : clear implicits.
Arguments wrapper Callback : clear implicits.
Arguments effect Callback : clear implicits.
Arguments Listener Callback : clear implicits.
Arguments pynput_call Callback : clear implicits.
Arguments t Callback : clear implicits.

(** ** Sessions of the registry *)

Section Sessions.
Context {Callback : Type}.
Variable accepts : PyDict.t (wrapper Callback) -> bool.

(** The public operations of the manager. *)
Inductive op : Type :=
| Register (name key_combo : string) (c : Callback)
| Unregister (name : string)
| StartListening
| StopListening.

Definition step (o : op) (s : t Callback) : t Callback :=
  match o with
  | Register name key_combo c => snd (register_hotkey accepts name key_combo c s)
  | Unregister name => snd (unregister_hotkey accepts name s)
  | StartListening => start accepts s
  | StopListening => stop s
  end.

(** A session: operations applied to a fresh manager, first one first. *)
Definition session (ops : list op) : t Callback :=
  fold_left (fun s o => step o s) ops init.

(** How many listeners run once a call is made, [n] running before:
    [start()] adds one, [stop()] ends the one it is called on. *)
Definition after_call (n : nat) (c : pynput_call Callback) : nat :=
  match c with
  | Start => S n
  | Stop => pred n
  | GlobalHotKeys _ => n
  end.

Definition listeners_after (n : nat) (l : list (pynput_call Callback)) : nat :=
  fold_left after_call l n.

(** No [start()] in the log comes while a listener runs. *)
Fixpoint one_at_a_time (n : nat) (l : list (pynput_call Callback)) : bool :=
  match l with
  | [] => true
  | c :: l' =>
      match c with Start => (n =? 0)%nat | _ => true end
      && one_at_a_time (after_call n c) l'
  end.

(** Whether the manager holds a listener that runs. *)
Definition listening (s : t Callback) : bool :=
  match listener s with
  | Some l => running l
  | None => false
  end.

(** The log of calls is in order: no listener was started while one
    ran, and the manager holds the listener that runs, if any. *)
Definition log_in_order (s : t Callback) : Prop :=
  one_at_a_time 0 (calls s) = true /\
  listeners_after 0 (calls s) = (if listening s then 1 else 0)%nat.

(** [delivers hk m]: [m] has one entry per combination, and pressing
    a combination on a listener over [m] calls the callback of the
    last binding of [hk], in iteration order, that carries the
    combination and then emits the name of that binding; a
    combination that no binding of [hk] carries does nothing. *)
Definition delivers (hk : PyDict.t (binding Callback))
           (m : PyDict.t (wrapper Callback)) : Prop :=
  NoDup (PyDict.keys m) /\
  forall key_combo,
    trigger key_combo m =
    match last_with_combo key_combo hk with
    | Some (name, info) => [Called (callback info); Emitted name]
    | None => []
    end.

(** [restarted_with hk s s']: between [s] and [s'] the listener found
    in [s] was stopped and, after that, pynput was asked for a
    listener over a map that delivers the bindings [hk], all of them
    -- nothing is asked when [hk] is empty -- and that listener was
    started. What [s'] watches afterwards is that map, or nothing
    when no listener was asked for or pynput refused the map. *)
Definition restarted_with (hk : PyDict.t (binding Callback))
           (s s' : t Callback) : Prop :=
  exists m,
    delivers hk m /\
    match hk with
    | [] =>
        calls s' = (calls s ++ stops (listener s))%list /\ watched s' = []
    | _ =>
        if accepts m
        then calls s' = (calls s ++ stops (listener s) ++ [GlobalHotKeys m; Start])%list /\
             watched s' = m
        else calls s' = (calls s ++ stops (listener s) ++ [GlobalHotKeys m])%list /\
             watched s' = []
    end.

End Sessions.
Arguments op Callback : clear implicits.

(** ** Tokens of a combination *)

(** An ASCII character that is neither white space nor one of ['+'],
    ['<'], ['>']. *)
Definition plain_char (c : ascii) : bool :=
  is_ascii_char c && negb (is_space c) && negb (mem_char c "+<>").

(** A named key such as [f5] or [page_down]: two plain characters or
    more, and no modifier alias. *)
Definition named_key (token : string) : bool :=
  (2 <=? String.length token)%nat && all_chars plain_char token &&
  match canonical_modifier token with Some _ => false | None => true end.

(** A key character: printable and plain. *)
Definition key_char (c : ascii) : bool := is_printable c && plain_char c.

(** The key of a combination: a named key or one key character. *)
Definition key_token (token : string) : bool :=
  named_key token ||
  match token with
  | String c EmptyString => key_char c
  | _ => false
  end.

(** [s.upper()] on ASCII text *)
Definition upper : string -> string := map_chars upper_char.

End HotkeyManager.

(* ===================================================================== *)
(** * ui/main_window.py: the registry of live panels *)
(* ===================================================================== *)

Module MainWindow.
Local Open Scope string_scope.

(** The callbacks the controller registers: [activate_callback]
    closes over the window identifier it activates. *)
Inductive Callback : Type :=
| activate_callback (window_id : string).

(** An entry of the [previews_list] widget: its text and the window
    identifier stored under [Qt.ItemDataRole.UserRole]. *)
Record QListWidgetItem : Type := {
  text : string;
  data : string
}.

Record t : Type := {
  hotkey_manager : HotkeyManager.t Callback;
  preview_frames : PyDict.t PreviewFrame.t;
  previews_list : list QListWidgetItem
}.

Section Controller.
(** pynput's verdict on a map, as in [HotkeyManager]. *)
Variable accepts : PyDict.t (HotkeyManager.wrapper Callback) -> bool.

(** [f"preview_{window_id}"] *)
Definition hk_name_of (window_id : string) : string := "preview_" ++ window_id.

(** The loop of [_on_preview_closed] over [previews_list]: the first
    item that carries the identifier is taken out, then [break]. *)
Fixpoint take_first_item (window_id : string) (l : list QListWidgetItem)
  : list QListWidgetItem :=
  match l with
  | [] => []
  | item :: l' =>
      if String.eqb (data item) window_id then l'
      else item :: take_first_item window_id l'
  end.

(** [_on_preview_closed] *)
Definition _on_preview_closed (window_id : string) (s : t) : t :=
  if PyDict.contains window_id (preview_frames s) then
    let hm := snd (HotkeyManager.unregister_hotkey accepts
                     (hk_name_of window_id) (hotkey_manager s)) in
    {| hotkey_manager := hm;
       preview_frames := PyDict.del window_id (preview_frames s);
       previews_list := take_first_item window_id (previews_list s) |}
  else s.

(** [_register_preview_hotkey]; the answer of the registry only
    selects between a log line and a message box. *)
Definition _register_preview_hotkey (window_id combo : string) (s : t) : t :=
  let parsed_combo := HotkeyManager.parse_key_combo combo in
  let hm := snd (HotkeyManager.register_hotkey accepts
                   (hk_name_of window_id) parsed_combo
                   (activate_callback window_id) (hotkey_manager s)) in
  {| hotkey_manager := hm;
     preview_frames := preview_frames s;
     previews_list := previews_list s |}.

(** [_create_preview], as far as the registry goes. *)
Definition _create_preview (window_id window_title : string)
           (refresh_rate : Z) (s : t) : t :=
  let frame := PreviewFrame.start_preview
                 (PreviewFrame.set_refresh_rate refresh_rate
                    (PreviewFrame.init window_id window_title)) in
  {| hotkey_manager := hotkey_manager s;
     preview_frames := PyDict.set window_id frame (preview_frames s);
     previews_list := previews_list s ++
       [{| text := window_title ++ " [" ++ window_id ++ "]";
           data := window_id |}] |}.

(** The slots connected to the signals of a panel. *)
Definition on_signal (sig : PreviewFrame.signal) (s : t) : t :=
  match sig with
  | PreviewFrame.closed window_id => _on_preview_closed window_id s
  | PreviewFrame.activated _ => s
  | PreviewFrame.geometry_changed => s
  end.

(** A close event delivered to a panel: the panel stops its timer
    and its [closed] signal reaches the controller. *)
Definition close_panel (frame : PreviewFrame.t) (s : t) : PreviewFrame.t * t :=
  let '(frame', sigs) := PreviewFrame.closeEvent frame in
  (frame', fold_left (fun s sig => on_signal sig s) sigs s).

(** How many items of the list carry an identifier. *)
Definition count_items (window_id : string) (l : list QListWidgetItem) : nat :=
  length (List.filter (fun item => String.eqb (data item) window_id) l).

End Controller.

(** ** Sample states *)

Import HotkeyManager.

(** A pynput that accepts every map. *)
Definition accepts_all (m : PyDict.t (wrapper Callback)) : bool := true.

(** One panel bound to [<ctrl>+1]. *)
Definition one_binding : HotkeyManager.t Callback :=
  snd (register_hotkey accepts_all "preview_0x1" "<ctrl>+1"
         (activate_callback "0x1") init).

(** Two panels bound to the same combination. *)
Definition clashing : PyDict.t (binding Callback) :=
  [ ("preview_0x1", {| combo := "<ctrl>+1"; callback := activate_callback "0x1" |});
    ("preview_0x2", {| combo := "<ctrl>+1"; callback := activate_callback "0x2" |}) ].

(** A controller with one live panel, [0x1], bound to [Ctrl+1]. *)
Definition one_panel : MainWindow.t :=
  _register_preview_hotkey accepts_all "0x1" "Ctrl+1"
    (_create_preview "0x1" "EVE - Pilot" 30
       {| hotkey_manager := init; preview_frames := []; previews_list := [] |}).

Definition pilot_frame : PreviewFrame.t :=
  PreviewFrame.start_preview
    (PreviewFrame.set_refresh_rate 30 (PreviewFrame.init "0x1" "EVE - Pilot")).

(** ** The window list, the previews list and the hotkey dialog *)

Section Panels.
Variable accepts : PyDict.t (HotkeyManager.wrapper Callback) -> bool.

(** The item [_refresh_window_list] and [_create_preview] build for a
    window: [f"{window_title} [{window_id}]"], with the identifier as
    its data. *)
Definition window_item (window_id window_title : string) : QListWidgetItem :=
  {| text := window_title ++ " [" ++ window_id ++ "]"; data := window_id |}.

(** The test of [_refresh_window_list] for the windows of the
    application itself. *)
Definition own_window (window_title : string) : bool :=
  PyStr.contains_str "EVE Overview" window_title ||
  PyStr.contains_str "Preview" window_title.

(** [_refresh_window_list]: the items of [window_list] for the
    windows [get_window_list()] answered. *)
Fixpoint _refresh_window_list (windows : list (string * string))
  : list QListWidgetItem :=
  match windows with
  | [] => []
  | (window_id, window_title) :: windows' =>
      if own_window window_title then _refresh_window_list windows'
      else window_item window_id window_title :: _refresh_window_list windows'
  end.

(** [item.text().split('[')[0].strip()] *)
Definition title_of_item (item : QListWidgetItem) : string :=
  PyStr.strip (hd "" (PyStr.split "[" (text item))).

(** [_add_selected_window]; [current_item] is
    [self.window_list.currentItem()], and [refresh_rate] the value of
    the spin box. *)
Definition _add_selected_window (current_item : option QListWidgetItem)
           (refresh_rate : Z) (s : MainWindow.t) : MainWindow.t :=
  match current_item with
  | None => s
  | Some item =>
      let window_id := data item in
      let window_title := title_of_item item in
      if PyDict.contains window_id (preview_frames s) then s
      else _create_preview window_id window_title refresh_rate s
  end.

(** [_remove_selected_preview]; [current_item] is
    [self.previews_list.currentItem()]. [frame.close()] delivers the
    close event to the panel. *)
Definition _remove_selected_preview (current_item : option QListWidgetItem)
           (s : MainWindow.t) : MainWindow.t :=
  match current_item with
  | None => s
  | Some item =>
      match PyDict.get (data item) (preview_frames s) with
      | Some frame => snd (close_panel accepts frame s)
      | None => s
      end
  end.

(** The loop of [_edit_preview_hotkey] and of [_save_current_profile]
    over [get_hotkeys().items()]: the combination stored under the
    name of the panel, if there is one. *)
Definition current_hotkey (window_id : string) (s : MainWindow.t) : option string :=
  PyDict.get (hk_name_of window_id)
             (HotkeyManager.get_hotkeys (hotkey_manager s)).

(** [HotkeyDialog.get_combo] on the text of the input line. *)
Definition get_combo (typed : string) : string := PyStr.strip typed.

(** [_edit_preview_hotkey]. The dialog is what the user does with
    it: from the text it shows at first, the text of the input line
    when it is accepted, or [None] when it is rejected. *)
Definition _edit_preview_hotkey (current_item : option QListWidgetItem)
           (dialog : string -> option string) (s : MainWindow.t) : MainWindow.t :=
  match current_item with
  | None => s
  | Some item =>
      let window_id := data item in
      let current_combo :=
        match current_hotkey window_id s with
        | Some hk_combo => HotkeyManager.format_key_combo hk_combo
        | None => ""
        end in
      match dialog current_combo with
      | Some typed =>
          let combo := get_combo typed in
          if String.eqb combo "" then s
          else _register_preview_hotkey accepts window_id combo s
      | None => s
      end
  end.

(** What the user does in the main window, as far as the panels go:
    add the selected window, edit the hotkey of the selected preview,
    remove the selected preview, and close a panel by its own
    means. The selected preview is given by its row. *)
Inductive ui_op : Type :=
| AddWindow (item : QListWidgetItem) (refresh_rate : Z)
| EditHotkey (row : nat) (dialog : string -> option string)
| RemovePreview (row : nat)
| ClosePanel (window_id : string).

Definition ui_step (o : ui_op) (s : MainWindow.t) : MainWindow.t :=
  match o with
  | AddWindow item refresh_rate => _add_selected_window (Some item) refresh_rate s
  | EditHotkey row dialog => _edit_preview_hotkey (previews_list s !! row) dialog s
  | RemovePreview row => _remove_selected_preview (previews_list s !! row) s
  | ClosePanel window_id =>
      match PyDict.get window_id (preview_frames s) with
      | Some frame => snd (close_panel accepts frame s)
      | None => s
      end
  end.

(** The main window before any panel exists. *)
Definition empty_window : MainWindow.t :=
  {| hotkey_manager := HotkeyManager.init; preview_frames := []; previews_list := [] |}.

Definition ui_session (ops : list ui_op) : MainWindow.t :=
  fold_left (fun s o => ui_step o s) ops empty_window.

(** The three registries agree: every live panel is stored under its
    own identifier and has exactly one item in the previews list,
    no item is left of a panel that is gone, and every hotkey is the
    one of a live panel. *)
Definition registries_agree (s : MainWindow.t) : Prop :=
  NoDup (PyDict.keys (preview_frames s)) /\
  (forall w frame, PyDict.get w (preview_frames s) = Some frame ->
                   PreviewFrame.window_id frame = w) /\
  (forall w, count_items w (previews_list s) =
             if PyDict.contains w (preview_frames s) then 1%nat else 0%nat) /\
  (forall name, name ∈ PyDict.keys (HotkeyManager.hotkeys (hotkey_manager s)) ->
                exists w, name = hk_name_of w /\
                          PyDict.contains w (preview_frames s) = true).

End Panels.

End MainWindow.

(* ===================================================================== *)
(** * core/config_manager.py *)
(* ===================================================================== *)

Module ConfigManager.
Local Open Scope string_scope.

(** ** Values

    The values a JSON document is made of, which are also the values
    the fields of the two dataclasses hold: Python does not check the
    annotations of a dataclass, so a field holds whatever the
    constructor was given. *)
#[local] Set Warnings "-register-all".
Inductive pyval : Type :=
| PNone
| PBool (b : bool)
| PInt (n : Z)
| PFloat (f : float)
| PStr (s : string)
| PList (l : list pyval)
| PDict (d : PyDict.t pyval).

(** [@dataclass class WindowConfig] *)
Record WindowConfig : Type := {
  window_id : pyval;
  window_title : pyval;
  x : pyval;
  y : pyval;
  width : pyval;
  height : pyval;
  scale : pyval;
  hotkey : pyval;
  enabled : pyval
}.

(** [@dataclass class Profile] *)
Record Profile : Type := {
  name : pyval;
  windows : list WindowConfig;
  refresh_rate : pyval;
  always_on_top : pyval;
  click_through : pyval
}.

(** [dataclasses.asdict(w)]: the fields in declaration order. The
    copies it makes of the field values are equal to the values. *)
Definition asdict (w : WindowConfig) : pyval :=
  PDict [ ("window_id", window_id w);
          ("window_title", window_title w);
          ("x", x w);
          ("y", y w);
          ("width", width w);
          ("height", height w);
          ("scale", scale w);
          ("hotkey", hotkey w);
          ("enabled", enabled w) ].

(** [Profile.to_dict] *)
Definition to_dict (p : Profile) : pyval :=
  PDict [ ("name", name p);
          ("windows", PList (map asdict (windows p)));
          ("refresh_rate", refresh_rate p);
          ("always_on_top", always_on_top p);
          ("click_through", click_through p) ].

(** [d.get(key, default)] *)
Definition get_default (key : string) (default : pyval) (d : PyDict.t pyval) : pyval :=
  match PyDict.get key d with
  | Some v => v
  | None => default
  end.

Definition WindowConfig_fields : list string :=
  [ "window_id"; "window_title"; "x"; "y"; "width"; "height";
    "scale"; "hotkey"; "enabled" ].

(** The constructor of [WindowConfig] called with the items of [w] as
    keyword arguments: [w] has to be a mapping; a key that is no
    field, or a missing field without default, is a [TypeError]. *)
Definition WindowConfig_of_kwargs (w : pyval) : result WindowConfig :=
  match w with
  | PDict kw =>
      if forallb (fun k => existsb (String.eqb k) WindowConfig_fields) (PyDict.keys kw)
      then
        match PyDict.get "window_id" kw, PyDict.get "window_title" kw,
              PyDict.get "x" kw, PyDict.get "y" kw,
              PyDict.get "width" kw, PyDict.get "height" kw with
        | Some wid, Some title, Some vx, Some vy, Some vw, Some vh =>
            Return {| window_id := wid;
                      window_title := title;
                      x := vx; y := vy; width := vw; height := vh;
                      scale := get_default "scale" (PFloat f0_3) kw;
                      hotkey := get_default "hotkey" (PStr "") kw;
                      enabled := get_default "enabled" (PBool true) kw |}
        | _, _, _, _, _, _ => Raise TypeError
        end
      else Raise TypeError
  | _ => Raise TypeError
  end.

(** The values a [for] loop draws from a value: the items of a list,
    the keys of a dict, the characters of a string; nothing else can
    be iterated. *)
Definition py_iter (v : pyval) : result (list pyval) :=
  match v with
  | PList l => Return l
  | PDict d => Return (map PStr (PyDict.keys d))
  | PStr s => Return (map (fun c => PStr (String c "")) (list_ascii_of_string s))
  | _ => Raise TypeError
  end.

(** [Profile.from_dict]; only a dict has a [get] method. *)
Definition from_dict (data : pyval) : result Profile :=
  match data with
  | PDict d =>
      ws ← py_iter (get_default "windows" (PList []) d);
      windows ← mapM WindowConfig_of_kwargs ws;
      mret {| name := get_default "name" (PStr "Default") d;
              windows := windows;
              refresh_rate := get_default "refresh_rate" (PInt 30) d;
              always_on_top := get_default "always_on_top" (PBool true) d;
              click_through := get_default "click_through" (PBool false) d |}
  | _ => Raise AttributeError
  end.

(** ** Paths *)

(** [s.endswith(suffix)] *)
Definition endswith (suffix s : string) : bool :=
  (String.length suffix <=? String.length s)%nat &&
  String.eqb
    (String.substring (String.length s - String.length suffix)
                      (String.length suffix) s)
    suffix.

(** [s.rfind(c)] for a character; [None] stands for -1. *)
Fixpoint rfind (c : ascii) (s : string) : option nat :=
  match s with
  | EmptyString => None
  | String d s' =>
      match rfind c s' with
      | Some i => Some (S i)
      | None => if Ascii.eqb d c then Some 0%nat else None
      end
  end.

(** [PurePath.stem] of a file name: the name without its last
    suffix; a leading dot or a trailing dot starts no suffix. *)
Definition stem (file_name : string) : string :=
  match rfind "." file_name with
  | Some i =>
      if (0 <? i)%nat && (i <? String.length file_name - 1)%nat
      then String.substring 0 i file_name
      else file_name
  | None => file_name
  end.

(** ** The profile store

    The profiles directory is a finite map from file names to file
    contents; a name is read as the bytes of its encoding, which is
    what the file system sees and measures. The directory has no
    sub-directories, and reading, writing and removing a file that
    it can hold does not fail. *)
Section Store.
Context {content : Type}.

(** [json.dump], [json.load], and the formatting of a value inside an
    f-string: library code, kept abstract. Every value of [pyval] is
    a JSON value, so [json.dump] writes a document for it. *)
Variable json_dump : pyval -> content.
Variable json_load : content -> result pyval.
Variable format_value : pyval -> string.

(** [get_profile_path], relative to [profiles_dir] *)
Definition get_profile_path (profile_name : string) : string :=
  profile_name ++ ".json".

(** *** What a name is for the system calls *)

Definition NUL : ascii := ascii_of_nat 0.

(** The longest file name, in bytes (Linux file systems). *)
Definition NAME_MAX : nat := 255.

(** What [profiles_dir / file] is for [stat] and [open]. A name with
    a ['/'] is taken for a path through a sub-directory, which the
    directory does not have. In the code such a name can also reach
    a file of the directory or a file outside it, through ['.'],
    ['..'] or a leading ['/']: that depends on the file system
    around the directory and is not modelled, and the properties of
    the store are stated for profile names that are valid file-name
    stems ([valid_stem] below). *)
Inductive path_kind : Type :=
| NotAPath      (* a NUL inside: Python refuses the path, no system call *)
| NoSuchPath    (* a ['/'] inside: through a sub-directory that is not there *)
| NameTooLong   (* more than [NAME_MAX] bytes: [ENAMETOOLONG] *)
| FileName.     (* the name of a file the directory can hold *)

Definition path_kind_of (file : string) : path_kind :=
  if PyStr.mem_char NUL file then NotAPath
  else if PyStr.mem_char "/" file then NoSuchPath
  else if (NAME_MAX <? String.length file)%nat then NameTooLong
  else FileName.

(** A profile name that is a valid file-name stem: no ['/'], no NUL,
    and short enough for [name.json] to be a file name. *)
Definition valid_stem (profile_name : string) : bool :=
  match path_kind_of (get_profile_path profile_name) with
  | FileName => true
  | _ => false
  end.

(** [path.exists()]: pathlib answers [False] for a path Python
    refuses and for one that leads nowhere, and lets the [OSError] of
    a name that is too long through. *)
Definition path_exists (fs : gmap string content) (file : string) : result bool :=
  match path_kind_of file with
  | NotAPath => Return false
  | NoSuchPath => Return false
  | NameTooLong => Raise OSError
  | FileName => Return (bool_decide (is_Some (fs !! file)))
  end.

(** [open(path, 'r')], up to the content read through it. *)
Definition open_r (fs : gmap string content) (file : string) : result content :=
  match fs !! file with
  | Some c => Return c
  | None => Raise FileNotFoundError
  end.

(** [open(path, 'w')] *)
Definition open_w (file : string) : result unit :=
  match path_kind_of file with
  | NotAPath => Raise ValueError
  | NoSuchPath => Raise FileNotFoundError
  | NameTooLong => Raise OSError
  | FileName => Return tt
  end.

(** [load_profile]: [Return None] is the answer [None]. The test
    [profile_path.exists()] stands before the [try]. *)
Definition load_profile (fs : gmap string content) (profile_name : string)
  : result (option Profile) :=
  let profile_path := get_profile_path profile_name in
  found ← path_exists fs profile_path;
  if negb found then Return None
  else
    try_except
      (c ← open_r fs profile_path;
       data ← json_load c;
       profile ← from_dict data;
       mret (Some profile))
      [C_Exception]
      (fun _ => mret None).

(** [save_profile]: the answer and the directory afterwards. Every
    exception of the model is an [Exception]: what [open] raises is
    caught, the answer is [False] and nothing is written. *)
Definition save_profile (fs : gmap string content) (profile : Profile)
  : bool * gmap string content :=
  let profile_path := get_profile_path (format_value (name profile)) in
  match open_w profile_path with
  | Return _ => (true, <[profile_path := json_dump (to_dict profile)]> fs)
  | Raise _ => (false, fs)
  end.

(** [delete_profile]. For a profile name that is a valid file-name
    stem the test [profile_path.exists()] is the lookup of the file
    name, and a file that is there can be removed. *)
Definition delete_profile (fs : gmap string content) (profile_name : string)
  : bool * gmap string content :=
  if String.eqb profile_name "Default" then (false, fs)
  else
    let profile_path := get_profile_path profile_name in
    match fs !! profile_path with
    | Some _ => (true, delete profile_path fs)
    | None => (false, fs)
    end.

(** The glob of [profiles_dir] for the pattern [*.json]: the names of
    the directory that end in [.json], in the order the directory
    lists them. *)
Definition glob_json (fs : gmap string content) : list string :=
  List.filter (endswith ".json") (map fst (map_to_list fs)).

(** [sorted] on strings *)
Definition sorted (l : list string) : list string := merge_sort String.le l.

(** [list_profiles] *)
Definition list_profiles (fs : gmap string content) : list string :=
  let profiles := map stem (glob_json fs) in
  let profiles :=
    if bool_decide ("Default" ∈ profiles) then profiles
    else "Default" :: profiles in
  sorted profiles.

End Store.

(** ** A sample profile and a sample store

    The profile of the component test of the repository, and a store
    whose files hold the documents themselves. *)
Definition test_window : WindowConfig :=
  {| window_id := PStr "0x123";
     window_title := PStr "Test Window";
     x := PInt 100; y := PInt 100;
     width := PInt 400; height := PInt 300;
     scale := PFloat f0_3;
     hotkey := PStr "";
     enabled := PBool true |}.

Definition test_profile : Profile :=
  {| name := PStr "Test";
     windows := [test_window];
     refresh_rate := PInt 30;
     always_on_top := PBool true;
     click_through := PBool false |}.

Definition store_dump (v : pyval) : pyval := v.
Definition store_load (c : pyval) : result pyval := Return c.
Definition store_format (v : pyval) : string :=
  match v with
  | PStr s => s
  | PNone => "None"
  | PBool true => "True"
  | PBool false => "False"
  | _ => ""
  end.

(** ** The main configuration file and the settings *)

(** The default configuration of [_load_config]. *)
Definition default_config : pyval :=
  PDict [ ("current_profile", PStr "Default");
          ("last_profile", PStr "Default");
          ("window_geometry", PNone);
          ("theme", PStr "dark") ].

(** [Profile(name='Default', windows=[])] *)
Definition new_default_profile : Profile :=
  {| name := PStr "Default";
     windows := [];
     refresh_rate := PInt 30;
     always_on_top := PBool true;
     click_through := PBool false |}.

(** The keys [Profile.from_dict] reads. *)
Definition Profile_keys : list string :=
  [ "name"; "windows"; "refresh_rate"; "always_on_top"; "click_through" ].

Section Settings.
Context {content : Type}.
Variable json_dump : pyval -> content.
Variable json_load : content -> result pyval.
Variable format_value : pyval -> string.

(** The manager: the profiles directory, [config.json] when it
    exists, and the attributes [config] and [current_profile_name].
    [config] holds whatever document [config.json] held. *)
Record manager : Type := {
  profiles_dir : gmap string content;
  config_file : option content;
  config : pyval;
  current_profile_name : string
}.

(** [_load_config] *)
Definition _load_config (file : option content) : pyval :=
  match file with
  | Some c =>
      match try_except (v ← json_load c; mret (Some v))
                       [C_Exception] (fun _ => mret None) with
      | Return (Some v) => v
      | _ => default_config
      end
  | None => default_config
  end.

(** [__init__] on a configuration directory that exists. *)
Definition init (profiles : gmap string content) (file : option content) : manager :=
  {| profiles_dir := profiles;
     config_file := file;
     config := _load_config file;
     current_profile_name := "Default" |}.

(** [_save_config] *)
Definition _save_config (m : manager) : manager :=
  {| profiles_dir := profiles_dir m;
     config_file := Some (json_dump (config m));
     config := config m;
     current_profile_name := current_profile_name m |}.

(** [self.config[key] = value]: item assignment with a string key is
    a [TypeError] on everything but a dict. *)
Definition config_setitem (key : string) (value : pyval) (m : manager)
  : result manager :=
  match config m with
  | PDict d =>
      Return {| profiles_dir := profiles_dir m;
                config_file := config_file m;
                config := PDict (PyDict.set key value d);
                current_profile_name := current_profile_name m |}
  | _ => Raise TypeError
  end.

(** [self.config.get(key, default)]: only a dict has a [get]
    method. *)
Definition config_get (key : string) (default : pyval) (m : manager)
  : result pyval :=
  match config m with
  | PDict d => Return (get_default key default d)
  | _ => Raise AttributeError
  end.

(** [get_setting] *)
Definition get_setting (key : string) (default : pyval) (m : manager)
  : result pyval :=
  config_get key default m.

(** [set_setting] *)
Definition set_setting (key : string) (value : pyval) (m : manager)
  : result manager :=
  m1 ← config_setitem key value m;
  mret (_save_config m1).

(** [set_current_profile] *)
Definition set_current_profile (profile_name : string) (m : manager)
  : result manager :=
  m1 ← config_setitem "current_profile" (PStr profile_name) m;
  mret (_save_config
          {| profiles_dir := profiles_dir m1;
             config_file := config_file m1;
             config := config m1;
             current_profile_name := profile_name |}).

(** [get_current_profile]: the profile and the manager afterwards. *)
Definition get_current_profile (m : manager) : result (Profile * manager) :=
  profile_name ← config_get "current_profile" (PStr "Default") m;
  profile ← load_profile json_load (profiles_dir m) (format_value profile_name);
  match profile with
  | Some p => mret (p, m)
  | None =>
      let p := new_default_profile in
      let '(_, fs) := save_profile json_dump format_value (profiles_dir m) p in
      mret (p, {| profiles_dir := fs;
                  config_file := config_file m;
                  config := config m;
                  current_profile_name := current_profile_name m |})
  end.

End Settings.
Arguments manager content : clear implicits.

End ConfigManager.

(* ===================================================================== *)
(** * ui/main_window.py: saving and restoring the panels of a profile *)
(* ===================================================================== *)

Module MainWindowProfile.
Import MainWindow.
Local Open Scope string_scope.

Section Profiles.
Context {content : Type}.
Variable json_dump : ConfigManager.pyval -> content.
Variable format_value : ConfigManager.pyval -> string.
Variable accepts : PyDict.t (HotkeyManager.wrapper Callback) -> bool.

(** What Qt knows of the panel stored under an identifier:
    [frame.get_geometry_dict()], as [(x, y, width, height)], and
    [frame.isVisible()]. *)
Variable get_geometry_dict : string -> Z * Z * Z * Z.
Variable isVisible : string -> bool.

(** The body of the loop of [_save_current_profile]: the
    [WindowConfig] built for one item of [preview_frames]. *)
Definition saved_window (s : MainWindow.t) (window_id : string)
           (frame : PreviewFrame.t) : ConfigManager.WindowConfig :=
  let '(gx, gy, gwidth, gheight) := get_geometry_dict window_id in
  let hotkey :=
    match current_hotkey window_id s with
    | Some hk_combo => hk_combo
    | None => ""
    end in
  {| ConfigManager.window_id := ConfigManager.PStr window_id;
     ConfigManager.window_title :=
       ConfigManager.PStr (PreviewFrame.window_title frame);
     ConfigManager.x := ConfigManager.PInt gx;
     ConfigManager.y := ConfigManager.PInt gy;
     ConfigManager.width := ConfigManager.PInt gwidth;
     ConfigManager.height := ConfigManager.PInt gheight;
     ConfigManager.scale := ConfigManager.PFloat (PreviewFrame.scale_factor frame);
     ConfigManager.hotkey := ConfigManager.PStr hotkey;
     ConfigManager.enabled := ConfigManager.PBool (isVisible window_id) |}.

(** [_save_current_profile] when a current profile is set: the
    profile afterwards and the profiles directory afterwards. The
    two first arguments are the values of the spin box and of the
    check box. *)
Definition _save_current_profile (refresh_rate : Z) (always_on_top : bool)
           (current_profile : ConfigManager.Profile) (s : MainWindow.t)
           (fs : gmap string content)
  : ConfigManager.Profile * gmap string content :=
  let profile :=
    {| ConfigManager.name := ConfigManager.name current_profile;
       ConfigManager.windows :=
         map (fun '(window_id, frame) => saved_window s window_id frame)
             (preview_frames s);
       ConfigManager.refresh_rate := ConfigManager.PInt refresh_rate;
       ConfigManager.always_on_top := ConfigManager.PBool always_on_top;
       ConfigManager.click_through := ConfigManager.click_through current_profile |} in
  (profile, snd (ConfigManager.save_profile json_dump format_value fs profile)).

(** [_create_preview_from_config], as far as the registries go, for a
    configuration whose fields hold values of the declared types;
    [refresh_rate] is the rate of the current profile. [None]: a
    field holds a value of another type, which is not modelled. *)
Definition _create_preview_from_config (config : ConfigManager.WindowConfig)
           (refresh_rate : Z) (s : MainWindow.t) : option MainWindow.t :=
  match ConfigManager.window_id config, ConfigManager.window_title config,
        ConfigManager.x config, ConfigManager.y config,
        ConfigManager.width config, ConfigManager.height config,
        ConfigManager.scale config, ConfigManager.hotkey config with
  | ConfigManager.PStr window_id, ConfigManager.PStr window_title,
    ConfigManager.PInt _, ConfigManager.PInt _,
    ConfigManager.PInt _, ConfigManager.PInt _,
    ConfigManager.PFloat scale, ConfigManager.PStr hotkey =>
      let frame :=
        PreviewFrame.set_scale scale
          (PreviewFrame.set_refresh_rate refresh_rate
             (PreviewFrame.init window_id window_title)) in
      let s1 :=
        if String.eqb hotkey "" then s
        else _register_preview_hotkey accepts window_id hotkey s in
      let frame := PreviewFrame.start_preview frame in
      Some {| hotkey_manager := hotkey_manager s1;
              preview_frames := PyDict.set window_id frame (preview_frames s1);
              previews_list := previews_list s1 ++ [window_item window_id window_title] |}
  | _, _, _, _, _, _, _, _ => None
  end.

End Profiles.

End MainWindowProfile.

(* ===================================================================== *)
(** * Properties of the preview panel *)
(* ===================================================================== *)

Section PreviewFrameFacts.
Import PreviewFrame.

(** The float literals of the sources are the binary64 values nearest
    to 1/10, 3/10, 1/2 and 1. *)
Example float_literals :
  let q (a b : Z) := SFdiv prec emax (binary_normalize prec emax a 0 false)
                                     (binary_normalize prec emax b 0 false) in
  q 1 10 = f0_1 /\ q 3 10 = f0_3 /\ q 1 2 = f0_5 /\ q 1 1 = f1_0 /\
  forallb is_float [f0_1; f0_3; f0_5; f1_0] = true.
Proof. repeat split. Qed.

(** [max(0.1, min(1.0, x))] at NaN, at the infinities and below 0.1. *)
Example set_scale_special_values :
  let stored x := scale_factor (set_scale x (init "0x1" "w")) in
  stored S754_nan = f1_0 /\
  stored (S754_infinity false) = f1_0 /\
  stored (S754_infinity true) = f0_1 /\
  stored (S754_zero false) = f0_1 /\
  stored f0_5 = f0_5.
Proof. repeat split. Qed.

Example set_refresh_rate_clamps :
  refresh_rate (set_refresh_rate 0 (init "0x1" "w")) = 1 /\
  refresh_rate (set_refresh_rate 144 (init "0x1" "w")) = 60 /\
  timer_interval (set_refresh_rate 144 (start_preview (init "0x1" "w"))) = 16.
Proof. repeat split. Qed.

Lemma float_lt_le (a b : float) : float_lt a b = true -> float_le a b = true.
Proof.
  unfold float_lt, float_le, SFltb, SFleb.
  destruct (SFcompare a b) as [[]|]; congruence.
Qed.

Lemma clamp_scale_bounds (s : float) :
  let r := py_max float_lt f0_1 (py_min float_lt f1_0 s) in
  float_le f0_1 r = true /\ float_le r f1_0 = true.
Proof.
  unfold py_max, py_min.
  destruct (float_lt s f1_0) eqn:Hs1.
  - destruct (float_lt f0_1 s) eqn:Hs0.
    + split; apply float_lt_le; assumption.
    + split; reflexivity.
  - change (float_lt f0_1 f1_0) with true. cbn iota.
    split; reflexivity.
Qed.

Lemma clamp_rate_bounds (f : Z) :
  1 <= py_max int_lt 1 (py_min int_lt 60 f) <= 60.
Proof.
  unfold py_max, py_min, int_lt.
  destruct (f <? 60) eqn:H1.
  - destruct (1 <? f) eqn:H2; lia.
  - change (1 <? 60) with true. cbn iota. lia.
Qed.

Lemma init_in_bounds wid title : in_bounds (init wid title) = true.
Proof. reflexivity. Qed.

Lemma step_in_bounds o p : in_bounds p = true -> in_bounds (step o p) = true.
Proof.
  unfold in_bounds, scale_in_bounds, rate_in_bounds.
  intros H. destruct o as [s|f| | |b on_title|b| ]; cbn [step]; try exact H.
  - cbn [set_scale scale_factor refresh_rate].
    destruct (clamp_scale_bounds s) as [-> ->].
    apply andb_prop in H. destruct H as [_ ->]. reflexivity.
  - cbn [set_refresh_rate scale_factor refresh_rate].
    apply andb_prop in H. destruct H as [-> _].
    pose proof (clamp_rate_bounds f).
    apply andb_true_intro; split; [reflexivity|].
    apply andb_true_intro; split; apply Z.leb_le; lia.
  - destruct b; [destruct on_title|..]; exact H.
  - destruct b; exact H.
Qed.

(** C8. Whatever float [s] is passed to [set_scale] (NaN and the
    infinities included) the stored scale factor satisfies
    [0.1 <= scale_factor <= 1.0]; whatever integer [f] is passed to
    [set_refresh_rate] the stored rate satisfies
    [1 <= refresh_rate <= 60]; a fresh panel is within bounds, and
    every sequence of panel operations keeps both fields in bounds. *)
Theorem panel_scale_and_rate_bounded :
  (forall (s : float) (p : t),
      float_le f0_1 (scale_factor (set_scale s p)) = true /\
      float_le (scale_factor (set_scale s p)) f1_0 = true) /\
  (forall (f : Z) (p : t),
      1 <= refresh_rate (set_refresh_rate f p) <= 60) /\
  (forall (wid title : string) (ops : list op),
      in_bounds (run ops (init wid title)) = true).
Proof.
  split; [|split].
  - intros s p. apply clamp_scale_bounds.
  - intros f p. apply clamp_rate_bounds.
  - intros wid title ops. unfold run.
    generalize (init_in_bounds wid title).
    generalize (init wid title) as p.
    induction ops as [|o ops IH]; intros p Hp; cbn [fold_left].
    + exact Hp.
    + apply IH, step_in_bounds, Hp.
Qed.

End PreviewFrameFacts.

(* ===================================================================== *)
(** * More on the preview panel: the refresh timer *)
(* ===================================================================== *)

Section PreviewTimerFacts.
Import PreviewFrame.

(** While the timer runs, its interval is the one of the stored rate. *)
Lemma step_timer_follows_rate o p :
  (timer_active p = true -> timer_interval p = 1000 / refresh_rate p) ->
  timer_active (step o p) = true ->
  timer_interval (step o p) = 1000 / refresh_rate (step o p).
Proof.
  intros H.
  destruct o as [s|f| | |b on_title|b| ]; cbn [step]; try exact H.
  - cbn [set_refresh_rate timer_active timer_interval refresh_rate].
    intros ->. reflexivity.
  - cbn. reflexivity.
  - cbn. discriminate.
  - destruct b; [destruct on_title|..]; cbn; try exact H. discriminate.
  - destruct b; exact H.
  - cbn. discriminate.
Qed.

Lemma step_identity o p :
  window_id (step o p) = window_id p /\ window_title (step o p) = window_title p.
Proof.
  destruct o as [s|f| | |b on_title|b| ]; cbn [step]; try (split; reflexivity).
  - destruct b; [destruct on_title|..]; split; reflexivity.
  - destruct b; split; reflexivity.
Qed.

Lemma interval_bounds (r : Z) : 1 <= r <= 60 -> 16 <= 1000 / r <= 1000.
Proof.
  intros [H1 H60]. split.
  - change 16 with (1000 / 60). apply Z.div_le_compat_l; lia.
  - change 1000 with (1000 / 1) at 2. apply Z.div_le_compat_l; lia.
Qed.

(** X7. Whatever is done to a panel, it keeps the window identifier
    and the title it was created with, and while its timer runs the
    interval of the timer is [1000 // refresh_rate] for the rate
    stored at that moment -- a change of rate re-arms a running
    timer -- which is between 16 and 1000 milliseconds. *)
Theorem panel_timer_follows_rate (wid title : string) (ops : list op) :
  let p := run ops (init wid title) in
  window_id p = wid /\ window_title p = title /\
  (timer_active p = true ->
   timer_interval p = 1000 / refresh_rate p /\ 16 <= timer_interval p <= 1000).
Proof.
  cbv zeta. unfold run.
  assert (Hinv : forall ops p,
             in_bounds p = true ->
             (timer_active p = true -> timer_interval p = 1000 / refresh_rate p) ->
             let q := fold_left (fun q o => step o q) ops p in
             in_bounds q = true /\
             (timer_active q = true -> timer_interval q = 1000 / refresh_rate q) /\
             window_id q = window_id p /\ window_title q = window_title p).
  { clear. induction ops as [|o ops IH]; intros p Hb Ht; cbn [fold_left].
    - auto.
    - destruct (IH (step o p) (step_in_bounds _ _ Hb)
                   (step_timer_follows_rate _ _ Ht)) as (H1 & H2 & H3 & H4).
      destruct (step_identity o p) as [E1 E2]. cbv zeta in *.
      rewrite <- E1, <- E2. auto. }
  destruct (Hinv ops (init wid title) (init_in_bounds wid title))
    as (Hb & Ht & Hw & Htt); [intros H; discriminate H|].
  split; [exact Hw|]. split; [exact Htt|].
  intros Ha. rewrite (Ht Ha). split; [reflexivity|].
  apply interval_bounds.
  unfold in_bounds, rate_in_bounds in Hb.
  apply andb_prop in Hb as [_ Hb]. apply andb_prop in Hb as [H1 H2].
  apply Z.leb_le in H1, H2. lia.
Qed.

End PreviewTimerFacts.

(* ===================================================================== *)
(** * Properties of the window capturer *)
(* ===================================================================== *)

Section WindowCaptureFacts.
Import WindowCapture.

(** ** [int] of a float is truncation toward zero *)

(** For a finite float [(-1)^s * m * 2^e], [int] returns the integer
    [z] of the same sign whose magnitude is the integer part of
    [m * 2^e]: with [n / d] the value written as a fraction,
    [|z| * d <= n < (|z| + 1) * d]. *)
Lemma int_of_float_trunc (s : bool) (m : positive) (e z : Z) :
  int_of_float (S754_finite s m e) = Return z ->
  let n := Zpos m * 2 ^ Z.max 0 e in
  let d := 2 ^ Z.max 0 (- e) in
  z = cond_Zopp s (Z.abs z) /\ Z.abs z * d <= n < (Z.abs z + 1) * d.
Proof.
  cbn [int_of_float]. intros [= <-]. cbv zeta.
  set (q := Z.shiftl (Z.pos m) e).
  assert (Hq : 0 <= q) by (apply Z.shiftl_nonneg; lia).
  assert (Habs : Z.abs (cond_Zopp s q) = q) by (destruct s; cbn; lia).
  rewrite Habs. split; [reflexivity|].
  destruct (Z.le_ge_cases 0 e) as [He|He].
  - rewrite (Z.max_r 0 e), (Z.max_l 0 (- e)) by lia.
    subst q. rewrite Z.shiftl_mul_pow2 by lia. cbn [Z.pow]. lia.
  - rewrite (Z.max_l 0 e), (Z.max_r 0 (- e)) by lia.
    subst q. rewrite Z.shiftl_div_pow2 by lia.
    assert (Hd : 0 < 2 ^ (- e)) by (apply Z.pow_pos_nonneg; lia).
    cbn [Z.pow]. rewrite Z.mul_1_r.
    pose proof (Z.mul_div_le (Z.pos m) _ Hd).
    pose proof (Z.mul_succ_div_gt (Z.pos m) _ Hd).
    lia.
Qed.

Context {P : Platform}.

(** ** Shape of the two suites *)

Lemma scale_if_needed_size `{!PillowResize P} img scale img' :
  float_eq scale f1_0 = false ->
  scale_if_needed img scale = Return img' ->
  exists fw fh,
    int_mul_float (width img) scale = Return fw /\
    int_of_float fw = Return (width img') /\
    int_mul_float (height img) scale = Return fh /\
    int_of_float fh = Return (height img').
Proof.
  unfold scale_if_needed, new_size. intros -> . cbn [negb].
  unfold mbind, result_bind, Py.bind, mret, result_ret.
  destruct (int_mul_float (width img) scale) as [fw|]; [|discriminate].
  destruct (int_of_float fw) as [w|] eqn:Hw; [|discriminate].
  destruct (int_mul_float (height img) scale) as [fh|]; [|discriminate].
  destruct (int_of_float fh) as [h|] eqn:Hh; [|discriminate].
  intros Hr. apply resize_size in Hr. injection Hr as Hw' Hh'.
  exists fw, fh. rewrite Hw', Hh'. auto.
Qed.

Lemma import_suite_image wid scale img :
  snd (import_suite wid scale) = Return (Returned (Some img)) ->
  exists orig, decoded_by_import wid orig /\
               scale_if_needed orig scale = Return img.
Proof.
  unfold import_suite, run, lift, decoded_by_import.
  unfold mbind, proc_bind, mret, proc_ret.
  destruct (subprocess_run (import_call wid)) as [cp|]; [|discriminate].
  destruct (returncode cp =? 0) eqn:Hrc; [|discriminate].
  destruct (truthy (stdout cp)) eqn:Hout; [|discriminate].
  cbn [andb].
  destruct (Image_open (stdout cp)) as [orig|] eqn:Hopen; [|discriminate].
  destruct (scale_if_needed orig scale) as [img'|] eqn:Hsc; [|discriminate].
  cbn. intros [= ->]. exists orig. split; [|exact Hsc].
  exists cp. apply Z.eqb_eq in Hrc. auto.
Qed.

Lemma xwd_suite_image wid scale img :
  snd (xwd_suite wid scale) = Return (Returned (Some img)) ->
  exists orig, decoded_by_xwd wid orig /\
               scale_if_needed orig scale = Return img.
Proof.
  unfold xwd_suite, run, lift, decoded_by_xwd.
  unfold mbind, proc_bind, mret, proc_ret.
  destruct (subprocess_run (xwd_call wid)) as [xp|] eqn:Hx; [|discriminate].
  destruct (returncode xp =? 0) eqn:Hxrc; [|discriminate].
  cbn [negb].
  destruct (subprocess_run (convert_call (stdout xp))) as [cp|] eqn:Hc;
    [|discriminate].
  destruct (returncode cp =? 0) eqn:Hrc; [|discriminate].
  destruct (truthy (stdout cp)) eqn:Hout; [|discriminate].
  cbn [andb].
  destruct (Image_open (stdout cp)) as [orig|] eqn:Hopen; [|discriminate].
  destruct (scale_if_needed orig scale) as [img'|] eqn:Hsc; [|discriminate].
  cbn. intros [= ->]. exists orig. split; [|exact Hsc].
  exists xp, cp. apply Z.eqb_eq in Hxrc, Hrc. auto 10.
Qed.

Lemma isinstance_Exception e :
  existsb (isinstance e) [C_TimeoutExpired; C_FileNotFoundError; C_Exception] = true.
Proof. destruct e; reflexivity. Qed.

(** [_capture_window_xwd] in terms of its suite. *)
Lemma capture_xwd_unfold wid scale :
  _capture_window_xwd wid scale =
  (fst (xwd_suite wid scale),
   match snd (xwd_suite wid scale) with
   | Return (Returned v) => Return v
   | _ => Return None
   end).
Proof.
  unfold _capture_window_xwd, proc_try_except.
  destruct (xwd_suite wid scale) as [l [[v|]|e]]; cbn [fst snd].
  - cbn. rewrite app_nil_r. reflexivity.
  - cbn. rewrite app_nil_r. reflexivity.
  - rewrite isinstance_Exception. cbn. rewrite !app_nil_r. reflexivity.
Qed.

(** [capture_window] in terms of its suite and of the fallback. *)
Lemma capture_unfold wid scale :
  capture_window wid scale =
  match snd (import_suite wid scale) with
  | Return (Returned v) => (fst (import_suite wid scale), Return v)
  | _ => (fst (import_suite wid scale) ++ fst (_capture_window_xwd wid scale),
          snd (_capture_window_xwd wid scale))
  end.
Proof.
  unfold capture_window, proc_try_except.
  destruct (import_suite wid scale) as [l [[v|]|e]]; cbn [fst snd].
  - cbn. rewrite app_nil_r. reflexivity.
  - cbn. destruct (_capture_window_xwd wid scale). reflexivity.
  - rewrite isinstance_Exception. cbn. rewrite app_nil_r.
    destruct (_capture_window_xwd wid scale). reflexivity.
Qed.

Lemma import_suite_returns wid scale v :
  snd (import_suite wid scale) = Return (Returned v) -> exists img, v = Some img.
Proof.
  unfold import_suite, run, lift.
  unfold mbind, proc_bind, mret, proc_ret.
  destruct (subprocess_run (import_call wid)) as [cp|]; [|discriminate].
  destruct ((returncode cp =? 0) && truthy (stdout cp)); [|discriminate].
  destruct (Image_open (stdout cp)) as [orig|]; [|discriminate].
  destruct (scale_if_needed orig scale) as [img'|]; [|discriminate].
  cbn. intros [= <-]. eauto.
Qed.

Lemma xwd_suite_first_call wid scale :
  exists l, fst (xwd_suite wid scale) = xwd_call wid :: l.
Proof.
  unfold xwd_suite, run. unfold mbind at 1. unfold proc_bind.
  destruct (subprocess_run (xwd_call wid)) as [xp|]; [|cbn; eauto].
  match goal with |- context [let '(_, _) := ?k in _] => destruct k end.
  cbn. eauto.
Qed.

Lemma import_suite_first_call wid scale :
  exists l, fst (import_suite wid scale) = import_call wid :: l.
Proof.
  unfold import_suite, run. unfold mbind at 1. unfold proc_bind.
  destruct (subprocess_run (import_call wid)) as [xp|]; [|cbn; eauto].
  match goal with |- context [let '(_, _) := ?k in _] => destruct k end.
  cbn. eauto.
Qed.

(** C2 (amended). When a capture succeeds with [scale != 1.0], the
    returned bitmap has size [int(w * scale) x int(h * scale)], where
    [w x h] is the size of the bitmap decoded by the path that
    succeeded, [*] is the binary64 product and [int] truncates toward
    zero ([int_of_float_trunc]). *)
Theorem capture_scaled_size_truncates `{!PillowResize P}
    (wid : string) (scale : float) (img : Image) :
  float_eq scale f1_0 = false ->
  snd (capture_window wid scale) = Return (Some img) ->
  exists orig fw fh,
    (decoded_by_import wid orig \/ decoded_by_xwd wid orig) /\
    int_mul_float (width orig) scale = Return fw /\
    int_of_float fw = Return (width img) /\
    int_mul_float (height orig) scale = Return fh /\
    int_of_float fh = Return (height img).
Proof.
  intros Hne. rewrite capture_unfold.
  assert (Hfb : snd (_capture_window_xwd wid scale) = Return (Some img) ->
                exists orig, decoded_by_xwd wid orig /\
                             scale_if_needed orig scale = Return img).
  { rewrite capture_xwd_unfold. cbn [snd].
    destruct (snd (xwd_suite wid scale)) as [[v|]|e] eqn:Hs; try discriminate.
    intros [= ->]. apply xwd_suite_image, Hs. }
  intros Hres.
  assert (Hor : exists orig,
             (decoded_by_import wid orig \/ decoded_by_xwd wid orig) /\
             scale_if_needed orig scale = Return img).
  { destruct (snd (import_suite wid scale)) as [[v|]|e] eqn:Hs; cbn [snd] in Hres.
    - injection Hres as ->.
      destruct (import_suite_image _ _ _ Hs) as (orig & Hd & Hsc). eauto.
    - destruct (Hfb Hres) as (orig & Hd & Hsc). eauto.
    - destruct (Hfb Hres) as (orig & Hd & Hsc). eauto. }
  destruct Hor as (orig & Hd & Hsc).
  destruct (scale_if_needed_size _ _ _ Hne Hsc) as (fw & fh & H1 & H2 & H3 & H4).
  exists orig, fw, fh. auto.
Qed.

Lemma import_suite_calls wid scale :
  fst (import_suite wid scale) = [import_call wid].
Proof.
  unfold import_suite, run, lift. unfold mbind, proc_bind, mret, proc_ret.
  destruct (subprocess_run (import_call wid)) as [cp|]; [|reflexivity].
  destruct ((returncode cp =? 0) && truthy (stdout cp)); [|reflexivity].
  destruct (Image_open (stdout cp)) as [orig|]; [|reflexivity].
  destruct (scale_if_needed orig scale); reflexivity.
Qed.

Lemma xwd_suite_calls wid scale xp :
  subprocess_run (xwd_call wid) = Return xp -> returncode xp = 0 ->
  fst (xwd_suite wid scale) = [xwd_call wid; convert_call (stdout xp)].
Proof.
  intros Hx Hrc. unfold xwd_suite, run, lift.
  unfold mbind, proc_bind, mret, proc_ret.
  rewrite Hx, Hrc. cbn [Z.eqb negb].
  destruct (subprocess_run (convert_call (stdout xp))) as [cp|]; [|reflexivity].
  destruct ((returncode cp =? 0) && truthy (stdout cp)); [|reflexivity].
  destruct (Image_open (stdout cp)) as [orig|]; [|reflexivity].
  destruct (scale_if_needed orig scale); reflexivity.
Qed.

Lemma xwd_suite_decoded wid scale orig img :
  decoded_by_xwd wid orig -> scale_if_needed orig scale = Return img ->
  snd (xwd_suite wid scale) = Return (Returned (Some img)).
Proof.
  intros (xp & cp & Hx & Hxrc & Hc & Hrc & Ht & Ho) Hsc.
  unfold xwd_suite, run, lift.
  unfold mbind, proc_bind, mret, proc_ret.
  rewrite Hx, Hxrc. cbn [Z.eqb negb]. rewrite Hc, Hrc, Ht. cbn [Z.eqb andb].
  rewrite Ho, Hsc. reflexivity.
Qed.

(** C5. [capture_window] never raises: for every window identifier
    and every scale it returns an image or [None]. Whenever the
    [import] attempt yields no image (the tool is missing, it times
    out, its output does not decode, or anything else goes wrong) the
    fallback chain is run: [xwd] is started next and, when it exits
    with status 0, [convert] on its output. The chain then decides
    the answer: the capture returns an image exactly when [convert]
    exits with status 0 and a non-empty output that decodes -- the
    decoded bitmap, scaled -- and [None] when the chain yields no
    image either. *)
Theorem capture_window_never_raises (wid : string) (scale : float) :
  (exists r, snd (capture_window wid scale) = Return r) /\
  (forall e, subprocess_run (import_call wid) = Raise e ->
             ~ yields_image (import_suite wid scale)) /\
  (forall cp e, subprocess_run (import_call wid) = Return cp ->
                Image_open (stdout cp) = Raise e ->
                ~ yields_image (import_suite wid scale)) /\
  (~ yields_image (import_suite wid scale) ->
     (exists l, fst (capture_window wid scale)
                = import_call wid :: xwd_call wid :: l) /\
     (forall xp, subprocess_run (xwd_call wid) = Return xp -> returncode xp = 0 ->
        fst (capture_window wid scale)
        = [import_call wid; xwd_call wid; convert_call (stdout xp)]) /\
     (forall img, snd (capture_window wid scale) = Return (Some img) <->
        exists orig, decoded_by_xwd wid orig /\
                     scale_if_needed orig scale = Return img) /\
     snd (capture_window wid scale) = snd (_capture_window_xwd wid scale) /\
     (~ yields_image (xwd_suite wid scale) ->
        snd (capture_window wid scale) = Return None)).
Proof.
  split; [|split; [|split]].
  - rewrite capture_unfold, capture_xwd_unfold.
    destruct (snd (import_suite wid scale)) as [[v|]|e]; cbn [snd]; eauto;
      destruct (snd (xwd_suite wid scale)) as [[v|]|e']; eauto.
  - intros e He [img Hy]. revert Hy.
    unfold import_suite, run. unfold mbind, proc_bind. rewrite He. discriminate.
  - intros cp e Hcp He [img Hy]. revert Hy.
    unfold import_suite, run, lift. unfold mbind, proc_bind. rewrite Hcp.
    destruct ((returncode cp =? 0) && truthy (stdout cp)); [|discriminate].
    rewrite He. discriminate.
  - intros Hno.
    assert (Hcap : capture_window wid scale =
              (import_call wid :: fst (xwd_suite wid scale),
               match snd (xwd_suite wid scale) with
               | Return (Returned v) => Return v
               | _ => Return None
               end)).
    { rewrite capture_unfold, capture_xwd_unfold, import_suite_calls. cbn [fst snd].
      destruct (snd (import_suite wid scale)) as [[v|]|e] eqn:Hs; try reflexivity.
      exfalso. apply Hno.
      destruct (import_suite_returns _ _ _ Hs) as [img ->]. exists img. exact Hs. }
    rewrite Hcap. cbn [fst snd]. split; [|split; [|split; [|split]]].
    + destruct (xwd_suite_first_call wid scale) as [l ->]. eauto.
    + intros xp Hx Hrc. rewrite (xwd_suite_calls _ _ _ Hx Hrc). reflexivity.
    + intros img. split.
      * destruct (snd (xwd_suite wid scale)) as [[v|]|e] eqn:Hs; try discriminate.
        intros [= ->]. apply xwd_suite_image, Hs.
      * intros (orig & Hd & Hsc). rewrite (xwd_suite_decoded _ _ _ _ Hd Hsc).
        reflexivity.
    + rewrite capture_xwd_unfold. reflexivity.
    + intros Hno2.
      destruct (snd (xwd_suite wid scale)) as [[[img|]|]|e] eqn:Hs; try reflexivity.
      exfalso. apply Hno2. exists img. exact Hs.
Qed.

End WindowCaptureFacts.

Section WindowCaptureDemo.
Import WindowCapture.

(** [int(10 * 0.7)] is 7: the binary64 product rounds up to 7.0,
    although 0.7 itself lies below 7/10. *)
Example int_of_rounded_product :
  let f0_7 := SFdiv prec emax (binary_normalize prec emax 7 0 false)
                              (binary_normalize prec emax 10 0 false) in
  (fw ← int_mul_float 10 f0_7; int_of_float fw) = Return 7.
Proof. reflexivity. Qed.

(** A window that does not exist: both tools exit with status 1, the
    [convert] step is not reached, and the answer is [None]. *)
Example capture_unknown_window :
  capture_window (P:=demo_platform) "0xdead" f0_3
  = ([import_call "0xdead"; xwd_call "0xdead"], Return None).
Proof. reflexivity. Qed.

(** At scale 0.3 the 3 x 7 bitmap would become 0 x 2: the resize is
    refused on both paths and the answer is [None]. *)
Example capture_too_small :
  snd (capture_window (P:=demo_platform) "0x3a00007" f0_3) = Return None.
Proof. reflexivity. Qed.

#[local] Instance demo_pillow : PillowResize demo_platform.
Proof.
  constructor. intros img sz img'. cbn. unfold demo_resize.
  destruct ((1 <=? fst sz) && (1 <=? snd sz)); [|discriminate].
  intros [= <-]. destruct sz; reflexivity.
Qed.

(** At scale 0.5 the 3 x 7 window is captured as 1 x 3. *)
Lemma capture_scaled_size_truncates_witness :
  float_eq f0_5 f1_0 = false /\
  snd (capture_window (P:=demo_platform) "0x3a00007" f0_5) = Return (Some (1, 3)) /\
  exists orig fw fh,
    (decoded_by_import (P:=demo_platform) "0x3a00007" orig \/
     decoded_by_xwd (P:=demo_platform) "0x3a00007" orig) /\
    int_mul_float (width orig) f0_5 = Return fw /\
    int_of_float fw = Return 1 /\
    int_mul_float (height orig) f0_5 = Return fh /\
    int_of_float fh = Return 3.
Proof.
  split; [reflexivity|]. split; [reflexivity|].
  apply (capture_scaled_size_truncates (P:=demo_platform) "0x3a00007" f0_5 (1, 3));
    reflexivity.
Defined.

(** C2 as stated fails. The window [0x3a00007] decodes to a 3 x 7
    bitmap; captured at scale 0.5 it comes back as 1 x 3, whereas
    rounding 1.5 and 3.5 to the nearest integer gives 2 x 4. *)
Lemma capture_half_scale_not_rounded :
  let P := demo_platform in
  float_eq f0_5 f1_0 = false /\
  decoded_by_import "0x3a00007" (3, 7) /\
  snd (capture_window "0x3a00007" f0_5) = Return (Some (1, 3)) /\
  (fw ← int_mul_float 3 f0_5; round_of_float fw) = Return 2 /\
  (fh ← int_mul_float 7 f0_5; round_of_float fh) = Return 4 /\
  (1, 3) <> (2, 4).
Proof.
  cbv zeta. split; [reflexivity|]. split.
  - exists {| returncode := 0; stdout := "PNG3x7" |}. repeat split.
  - split; [reflexivity|]. split; [reflexivity|]. split; [reflexivity|].
    discriminate.
Qed.

End WindowCaptureDemo.

(* ===================================================================== *)
(** * More on the capturer: unscaled captures, calls made, enumeration *)
(* ===================================================================== *)

Section CaptureCalls.
Import WindowCapture.
Context {P : Platform}.

Lemma scale_if_needed_unit img scale :
  float_eq scale f1_0 = true -> scale_if_needed img scale = Return img.
Proof. unfold scale_if_needed. intros ->. reflexivity. Qed.

(** X1. A capture at scale 1.0 that succeeds returns the very bitmap
    one of the two paths decoded: nothing is resampled. *)
Theorem capture_unscaled_is_decoded (wid : string) (scale : float) (img : Image) :
  float_eq scale f1_0 = true ->
  snd (capture_window wid scale) = Return (Some img) ->
  decoded_by_import wid img \/ decoded_by_xwd wid img.
Proof.
  intros Hs. rewrite capture_unfold, capture_xwd_unfold. cbn [snd].
  destruct (snd (import_suite wid scale)) as [[v|]|e] eqn:Hi; cbn [snd].
  - intros [= ->]. destruct (import_suite_image _ _ _ Hi) as (orig & Hd & Hsc).
    rewrite (scale_if_needed_unit _ _ Hs) in Hsc. injection Hsc as ->. auto.
  - destruct (snd (xwd_suite wid scale)) as [[v|]|e] eqn:Hx; try discriminate.
    intros [= ->]. destruct (xwd_suite_image _ _ _ Hx) as (orig & Hd & Hsc).
    rewrite (scale_if_needed_unit _ _ Hs) in Hsc. injection Hsc as ->. auto.
  - destruct (snd (xwd_suite wid scale)) as [[v|]|e'] eqn:Hx; try discriminate.
    intros [= ->]. destruct (xwd_suite_image _ _ _ Hx) as (orig & Hd & Hsc).
    rewrite (scale_if_needed_unit _ _ Hs) in Hsc. injection Hsc as ->. auto.
Qed.

(** X2. A capture starts at most three processes, each with a timeout
    of one second: [import] first; then, only when [import] gave no
    image, [xwd]; then, only when [xwd] exited with status 0,
    [convert] fed with the output of [xwd]. *)
Theorem capture_window_call_budget (wid : string) (scale : float) :
  exists l,
    fst (capture_window wid scale) = import_call wid :: l /\
    (l = [] \/ l = [xwd_call wid] \/
     exists xp, subprocess_run (xwd_call wid) = Return xp /\ returncode xp = 0 /\
                l = [xwd_call wid; convert_call (stdout xp)]) /\
    (yields_image (import_suite wid scale) <-> l = []) /\
    Forall (fun c => timeout c = 1) (fst (capture_window wid scale)) /\
    (length (fst (capture_window wid scale)) <= 3)%nat.
Proof.
  assert (Hx : fst (xwd_suite wid scale) = [xwd_call wid] \/
               exists xp, subprocess_run (xwd_call wid) = Return xp /\
                          returncode xp = 0 /\
                          fst (xwd_suite wid scale)
                          = [xwd_call wid; convert_call (stdout xp)]).
  { unfold xwd_suite, run, lift. unfold mbind, proc_bind, mret, proc_ret.
    destruct (subprocess_run (xwd_call wid)) as [xp|]; [|left; reflexivity].
    destruct (returncode xp =? 0) eqn:Hrc; cbn [negb]; [|left; reflexivity].
    right. exists xp. apply Z.eqb_eq in Hrc. split; [reflexivity|]. split; [exact Hrc|].
    destruct (subprocess_run (convert_call (stdout xp))) as [cp|]; [|reflexivity].
    destruct ((returncode cp =? 0) && truthy (stdout cp)); [|reflexivity].
    destruct (Image_open (stdout cp)) as [orig|]; [|reflexivity].
    destruct (scale_if_needed orig scale); reflexivity. }
  rewrite capture_unfold, capture_xwd_unfold. cbn [fst].
  rewrite import_suite_calls.
  destruct (snd (import_suite wid scale)) as [[v|]|e] eqn:Hi; cbn [fst].
  - exists []. split; [reflexivity|]. split; [auto|]. split.
    + split; [reflexivity|]. intros _.
      destruct (import_suite_returns _ _ _ Hi) as [img ->]. exists img. exact Hi.
    + split; [repeat constructor|cbn; lia].
  - exists (fst (xwd_suite wid scale)). split; [reflexivity|].
    assert (Hno : ~ yields_image (import_suite wid scale))
      by (intros [img Hy]; congruence).
    destruct Hx as [->|(xp & Hxp & Hrc & ->)].
    + split; [auto|]. split; [split; [tauto|discriminate]|].
      split; [repeat constructor|cbn; lia].
    + split; [eauto 10|]. split; [split; [tauto|discriminate]|].
      split; [repeat constructor|cbn; lia].
  - exists (fst (xwd_suite wid scale)). split; [reflexivity|].
    assert (Hno : ~ yields_image (import_suite wid scale))
      by (intros [img Hy]; congruence).
    destruct Hx as [->|(xp & Hxp & Hrc & ->)].
    + split; [auto|]. split; [split; [tauto|discriminate]|].
      split; [repeat constructor|cbn; lia].
    + split; [eauto 10|]. split; [split; [tauto|discriminate]|].
      split; [repeat constructor|cbn; lia].
Qed.

End CaptureCalls.

Section WindowListFacts.
Import WindowCapture.
Context {P : Platform}.

Lemma tool_unavailable_spec (e : exn) :
  existsb (isinstance e) tool_unavailable = true <->
  e = TimeoutExpired \/ e = FileNotFoundError.
Proof. destruct e; cbn; intuition (try discriminate; auto). Qed.

(** X3. [activate_window] answers [True] exactly when [wmctrl] exits
    with status 0, or exits with another status and [xdotool] then
    exits with status 0. When [wmctrl] cannot be started or times out
    the answer is [False] and [xdotool] is not tried; any other
    exception raised by the runner reaches the caller. *)
Theorem activate_window_outcomes (wid : string) :
  (snd (activate_window wid) = Return true <->
   (exists r, subprocess_run (wmctrl_activate_call wid) = Return r /\
              returncode r = 0) \/
   (exists r r2, subprocess_run (wmctrl_activate_call wid) = Return r /\
                 returncode r <> 0 /\
                 subprocess_run (xdotool_activate_call wid) = Return r2 /\
                 returncode r2 = 0)) /\
  (forall e, subprocess_run (wmctrl_activate_call wid) = Raise e ->
             activate_window wid =
             ([wmctrl_activate_call wid],
              if existsb (isinstance e) tool_unavailable
              then Return false else Raise e)).
Proof.
  unfold activate_window, proc_try_except, run.
  unfold mbind, proc_bind, mret, proc_ret.
  split.
  - destruct (subprocess_run (wmctrl_activate_call wid)) as [r|e] eqn:Hw.
    + destruct (returncode r =? 0) eqn:Hrc.
      * apply Z.eqb_eq in Hrc. cbn. split; [eauto|reflexivity].
      * apply Z.eqb_neq in Hrc.
        destruct (subprocess_run (xdotool_activate_call wid)) as [r2|e2] eqn:Hx.
        -- cbn. split.
           ++ intros [= H2]. apply Z.eqb_eq in H2. right. eauto 10.
           ++ intros [(r' & [= <-] & H0)|(r' & r2' & [= <-] & _ & [= <-] & H2)];
                [congruence|]. apply Z.eqb_eq in H2. rewrite H2. reflexivity.
        -- cbn. split.
           ++ destruct e2; cbn; discriminate.
           ++ intros [(r' & [= <-] & H0)|(r' & r2' & _ & _ & Hd & _)]; congruence.
    + split.
      * destruct e; cbn; discriminate.
      * intros [(r' & Hd & _)|(r' & r2' & Hd & _)]; discriminate.
  - intros e He. rewrite He.
    destruct (existsb (isinstance e) tool_unavailable); cbn; reflexivity.
Qed.

(** [get_window_list] by the answer of [wmctrl]. *)
Lemma get_window_list_unfold :
  (forall r, subprocess_run wmctrl_list_call = Return r ->
             get_window_list =
             ([wmctrl_list_call],
              Return (if returncode r =? 0
                      then omap parse_wmctrl_line (output_lines (stdout r))
                      else []))) /\
  (forall e, subprocess_run wmctrl_list_call = Raise e ->
             existsb (isinstance e) tool_unavailable = true ->
             get_window_list =
             (wmctrl_list_call :: fst _get_windows_xdotool,
              snd _get_windows_xdotool)) /\
  (forall e, subprocess_run wmctrl_list_call = Raise e ->
             existsb (isinstance e) tool_unavailable = false ->
             get_window_list = ([wmctrl_list_call], Raise e)).
Proof.
  unfold get_window_list, proc_try_except, run.
  unfold mbind, proc_bind, mret, proc_ret.
  split; [|split].
  - intros r ->. destruct (returncode r =? 0); cbn; reflexivity.
  - intros e He Hi. rewrite He. cbv beta iota. rewrite Hi.
    destruct _get_windows_xdotool. reflexivity.
  - intros e He Hi. rewrite He. cbv beta iota. rewrite Hi. reflexivity.
Qed.

(** ** Lines of [wmctrl -l] *)

Lemma lstrip_visible (s : string) :
  PyStr.lstrip_by PyStr.is_space s = EmptyString \/
  PyStr.starts_visible (PyStr.lstrip_by PyStr.is_space s) = true.
Proof.
  induction s as [|c s IH]; [left; reflexivity|].
  cbn [PyStr.lstrip_by]. destruct (PyStr.is_space c) eqn:Hc; [exact IH|].
  right. cbn. rewrite Hc. reflexivity.
Qed.

Lemma break_ws_word (s w r : string) :
  PyStr.break_ws s = (w, r) ->
  PyStr.no_ws w = true /\
  (PyStr.starts_visible s = true -> w <> EmptyString).
Proof.
  revert w r. induction s as [|c s IH]; intros w r.
  - cbn. intros [= <- <-]. split; [reflexivity|discriminate].
  - cbn [PyStr.break_ws PyStr.starts_visible].
    destruct (PyStr.is_space c) eqn:Hc.
    + intros [= <- <-]. split; [reflexivity|discriminate].
    + destruct (PyStr.break_ws s) as [w' r'] eqn:Hb. intros [= <- <-].
      destruct (IH _ _ eq_refl) as [Hw _]. split; [|discriminate].
      unfold PyStr.no_ws in *. cbn [PyStr.all_chars]. rewrite Hc, Hw. reflexivity.
Qed.

(** The first word of a split, while words are still split off. *)
Lemma split_ws_head (k : nat) (s w : string) (rest : list string) :
  PyStr.split_ws (S k) s = w :: rest ->
  PyStr.no_ws w = true /\ w <> EmptyString /\
  exists r, rest = PyStr.split_ws k r.
Proof.
  cbn [PyStr.split_ws].
  destruct (lstrip_visible s) as [->|Hv]; [discriminate|].
  destruct (PyStr.lstrip_by PyStr.is_space s) as [|c s'] eqn:Hs; [discriminate|].
  destruct (PyStr.break_ws (String c s')) as [w' r'] eqn:Hb.
  intros [= <- <-]. destruct (break_ws_word _ _ _ Hb) as [Hw Hne].
  split; [exact Hw|]. split; [exact (Hne Hv)|]. eauto.
Qed.

(** The piece that takes what is left. *)
Lemma split_ws_last (s x : string) (rest : list string) :
  PyStr.split_ws 0 s = x :: rest -> PyStr.starts_visible x = true /\ rest = [].
Proof.
  cbn [PyStr.split_ws].
  destruct (lstrip_visible s) as [->|Hv]; [discriminate|].
  destruct (PyStr.lstrip_by PyStr.is_space s) as [|c s'] eqn:Hs; [discriminate|].
  intros [= <- <-]. auto.
Qed.

Lemma parse_wmctrl_line_shape (line wid title : string) :
  parse_wmctrl_line line = Some (wid, title) ->
  PyStr.no_ws wid = true /\ wid <> EmptyString /\
  PyStr.starts_visible title = true.
Proof.
  unfold parse_wmctrl_line. destruct (truthy line); [|discriminate].
  destruct (PyStr.split_ws 3 line) as [|p0 [|p1 [|p2 [|p3 rest]]]] eqn:Hsp;
    try discriminate.
  intros [= <- <-].
  destruct (split_ws_head _ _ _ _ Hsp) as (H0 & H0' & r1 & Hr1).
  symmetry in Hr1.
  destruct (split_ws_head _ _ _ _ Hr1) as (_ & _ & r2 & Hr2).
  symmetry in Hr2.
  destruct (split_ws_head _ _ _ _ Hr2) as (_ & _ & r3 & Hr3).
  symmetry in Hr3.
  destruct (split_ws_last _ _ _ Hr3) as [H3 _]. auto.
Qed.

(** X5. Every window [get_window_list] reads off the output of
    [wmctrl -l] has an identifier that is not empty and holds no
    white space, and a title that is not empty and starts with a
    visible character: a line with fewer than four fields -- a window
    without a title -- is left out. *)
Theorem wmctrl_windows_well_formed (r : CompletedProcess) (wid title : string) :
  subprocess_run wmctrl_list_call = Return r ->
  forall l, snd get_window_list = Return l ->
  (wid, title) ∈ l ->
  PyStr.no_ws wid = true /\ wid <> EmptyString /\
  PyStr.starts_visible title = true.
Proof.
  intros Hr l. destruct get_window_list_unfold as (H & _ & _).
  rewrite (H r Hr). cbn [snd]. intros [= <-].
  destruct (returncode r =? 0); [|intros Hin; inversion Hin].
  intros Hin. apply list_elem_of_omap in Hin as (line & _ & Hline).
  exact (parse_wmctrl_line_shape _ _ _ Hline).
Qed.

(** ** The fallback *)

Lemma get_window_title_returns (wid : string) :
  (forall c e, subprocess_run c = Raise e ->
               existsb (isinstance e) tool_unavailable = true) ->
  exists t, snd (_get_window_title wid) = Return t.
Proof.
  intros Hexn. unfold _get_window_title, proc_try_except, run.
  unfold mbind, proc_bind, mret, proc_ret.
  destruct (subprocess_run (xdotool_name_call wid)) as [r|e] eqn:Hrun.
  - cbn. eauto.
  - rewrite (Hexn _ _ Hrun). cbn. eauto.
Qed.

Lemma mapM_proc_returns {A B} (f : A -> proc B) (l : list A) :
  (forall a, exists b, snd (f a) = Return b) ->
  exists bs, snd (mapM f l) = Return bs /\ length bs = length l.
Proof.
  intros Hf. induction l as [|a l IH].
  - exists []. split; reflexivity.
  - cbn [mapM]. destruct (Hf a) as [b Hb]. destruct IH as (bs & Hbs & Hlen).
    unfold mbind, proc_bind, mret, proc_ret.
    destruct (f a) as [l1 ra]. cbn [snd] in Hb. subst ra.
    destruct (mapM f l) as [l2 rl]. cbn [snd] in Hbs. subst rl.
    exists (b :: bs). cbn. rewrite Hlen. split; reflexivity.
Qed.

(** X6. When the only exceptions the runner raises are
    [TimeoutExpired] and [FileNotFoundError], [get_window_list]
    always returns a list: tools that are missing or too slow give
    fewer windows, down to none, never an error. *)
Theorem get_window_list_degrades :
  (forall c e, subprocess_run c = Raise e ->
               existsb (isinstance e) tool_unavailable = true) ->
  exists l, snd get_window_list = Return l.
Proof.
  intros Hexn.
  assert (Hfb : exists l, snd _get_windows_xdotool = Return l).
  { unfold _get_windows_xdotool, proc_try_except, run.
    unfold mbind at 1, proc_bind.
    destruct (subprocess_run xdotool_search_call) as [r|e] eqn:Hrun.
    - destruct (returncode r =? 0).
      + destruct (mapM_proc_returns
                    (fun window_id =>
                       title ← _get_window_title window_id;
                       mret (window_id, title))
                    (List.filter truthy (output_lines (stdout r)))) as (bs & Hbs & _).
        { intros a. destruct (get_window_title_returns a Hexn) as [t Ht].
          unfold mbind, proc_bind, mret, proc_ret.
          destruct (_get_window_title a) as [l1 rt]. cbn [snd] in Ht. subst rt.
          cbn. eauto. }
        destruct (mapM _ _) as [l2 rl]. cbn [snd] in Hbs. subst rl. cbn. eauto.
      + cbn. eauto.
    - rewrite (Hexn _ _ Hrun). cbn. eauto. }
  destruct get_window_list_unfold as (H1 & H2 & _).
  destruct (subprocess_run wmctrl_list_call) as [r|e] eqn:Hrun.
  - rewrite (H1 r eq_refl). cbn. eauto.
  - rewrite (H2 e eq_refl (Hexn _ _ Hrun)). cbn [snd]. exact Hfb.
Qed.

End WindowListFacts.

Section WindowListDemo.
Import WindowCapture.
Local Open Scope string_scope.

Example wmctrl_lines_sample :
  omap parse_wmctrl_line
       (output_lines "0x03a00007  0 host EVE - Pilot One
0x03a00010  0 host
0x03c00021 -1 host   Terminal
")
  = [("0x03a00007", "EVE - Pilot One"); ("0x03c00021", "Terminal")].
Proof. reflexivity. Qed.

(** Without [wmctrl], the windows come from [xdotool], a window
    whose name cannot be read being listed as [Unknown]. *)
Example get_window_list_without_wmctrl :
  snd (get_window_list (P:=xdotool_only))
  = Return [("41943047", "EVE - Pilot"); ("41943052", "Unknown")].
Proof. reflexivity. Qed.

(** An exception of another class is not handled. *)
Example get_window_list_raises :
  snd (get_window_list (P:=refused)) = Raise OSError /\
  snd (activate_window (P:=refused) "0x1") = Raise OSError.
Proof. split; reflexivity. Qed.

(** Without [import] the fallback chain captures the window. *)
Example capture_through_fallback :
  capture_window (P:=without_import) "0x3a00007" f1_0
  = ([import_call "0x3a00007"; xwd_call "0x3a00007"; convert_call "XWD3x7"],
     Return (Some (3, 7))).
Proof. reflexivity. Qed.

Lemma capture_unscaled_is_decoded_witness :
  snd (capture_window (P:=demo_platform) "0x3a00007" f1_0) = Return (Some (3, 7)) /\
  (decoded_by_import (P:=demo_platform) "0x3a00007" (3, 7) \/
   decoded_by_xwd (P:=demo_platform) "0x3a00007" (3, 7)).
Proof.
  split; [reflexivity|].
  apply (capture_unscaled_is_decoded (P:=demo_platform) "0x3a00007" f1_0 (3, 7));
    reflexivity.
Defined.

Lemma wmctrl_windows_well_formed_witness :
  PyStr.no_ws "0x3a00007" = true /\ "0x3a00007" <> "" /\
  PyStr.starts_visible "EVE" = true.
Proof.
  apply (wmctrl_windows_well_formed
           (P:={| Image := Z * Z;
                  subprocess_run := fun _ =>
                    Return {| returncode := 0; stdout := "0x3a00007 0 host EVE" |};
                  Image_open := demo_open; width := fst; height := snd;
                  Image_resize := demo_resize |})
           {| returncode := 0; stdout := "0x3a00007 0 host EVE" |}
           "0x3a00007" "EVE" eq_refl [("0x3a00007", "EVE")] eq_refl).
  left.
Defined.

Lemma get_window_list_degrades_witness :
  exists l, snd (get_window_list (P:=no_tools)) = Return l.
Proof.
  apply (get_window_list_degrades (P:=no_tools)).
  intros c e [= <-]. reflexivity.
Defined.

End WindowListDemo.

(* ===================================================================== *)
(** * Properties of key-combination parsing and formatting *)
(* ===================================================================== *)

Section ComboFacts.
Import PyStr HotkeyManager.
Local Open Scope string_scope.

(** The cases of the parser test of the repository. *)
Example parse_ctrl_alt_1 : parse_key_combo "Ctrl+Alt+1" = "<ctrl>+<alt>+1".
Proof. reflexivity. Qed.
Example parse_ctrl_shift_f1 : parse_key_combo "Ctrl+Shift+F1" = "<ctrl>+<shift>+<f1>".
Proof. reflexivity. Qed.
Example parse_super_a : parse_key_combo "Super+A" = "<cmd>+a".
Proof. reflexivity. Qed.

(** ** [split] and [join] *)

Lemma split_no_plus s : no_plus s = true -> split "+" s = [s].
Proof.
  unfold no_plus.
  induction s as [|c s IH]; cbn [all_chars split]; [reflexivity|].
  intros H. apply andb_prop in H as [Hc Hs].
  apply negb_true_iff in Hc. rewrite Hc, (IH Hs). reflexivity.
Qed.

Lemma split_app_sep t r :
  no_plus t = true -> split "+" (t ++ "+" ++ r) = t :: split "+" r.
Proof.
  unfold no_plus.
  induction t as [|c t IH]; cbn [all_chars]; [reflexivity|].
  intros H. apply andb_prop in H as [Hc Ht].
  apply negb_true_iff in Hc.
  change (String c t ++ "+" ++ r) with (String c (t ++ "+" ++ r)).
  cbn [split]. rewrite Hc, (IH Ht). reflexivity.
Qed.

Lemma join_cons sep t u l : join sep (t :: u :: l) = t ++ sep ++ join sep (u :: l).
Proof. reflexivity. Qed.

Lemma split_join (l : list string) :
  l <> [] -> Forall (fun t => no_plus t = true) l -> split "+" (join "+" l) = l.
Proof.
  induction l as [|t [|u l] IH]; intros Hne Hall.
  - congruence.
  - apply split_no_plus. inversion Hall; assumption.
  - rewrite join_cons, split_app_sep by (inversion Hall; assumption).
    rewrite IH; [reflexivity|discriminate|inversion Hall; assumption].
Qed.

(** ** [lower] goes through [join] *)

Lemma lower_app a b : lower (a ++ b) = lower a ++ lower b.
Proof.
  induction a as [|c a IH]; [reflexivity|].
  change (String (lower_char c) (lower (a ++ b))
          = String (lower_char c) (lower a ++ lower b)).
  rewrite IH. reflexivity.
Qed.

Lemma lower_join (l : list string) :
  lower (join "+" l) = join "+" (map lower l).
Proof.
  induction l as [|t [|u l] IH]; [reflexivity..|].
  rewrite join_cons, !lower_app, IH. reflexivity.
Qed.

(** ** Token by token *)

Lemma tokens_lower_no_plus toks outs :
  Forall2 token_ok toks outs ->
  Forall (fun t => no_plus t = true) (map lower toks).
Proof. induction 1 as [|t out ts os (Hl & _ & _) _ IH]; constructor; auto. Qed.

Lemma tokens_parsed_no_plus toks outs :
  Forall2 token_ok toks outs ->
  Forall (fun t => no_plus t = true) (map parse_part (map lower toks)).
Proof. induction 1 as [|t out ts os (_ & Hp & _) _ IH]; constructor; auto. Qed.

Lemma tokens_formatted toks outs :
  Forall2 token_ok toks outs ->
  map format_part (map parse_part (map lower toks)) = outs.
Proof.
  induction 1 as [|t out ts os (_ & _ & Hf) _ IH]; [reflexivity|].
  cbn [map]. rewrite Hf, IH. reflexivity.
Qed.

Lemma format_parse_tokens (toks outs : list string) :
  toks <> [] ->
  Forall2 token_ok toks outs ->
  format_key_combo (parse_key_combo (join "+" toks)) = join "+" outs.
Proof.
  intros Hne Hall. unfold format_key_combo, parse_key_combo.
  assert (Hne' : forall f : string -> string, map f toks <> [])
    by (intros f; destruct toks; [congruence|discriminate]).
  rewrite lower_join.
  rewrite (split_join (map lower toks));
    [|apply Hne'|exact (tokens_lower_no_plus _ _ Hall)].
  rewrite (split_join (map parse_part (map lower toks)));
    [|rewrite map_map; apply Hne'|exact (tokens_parsed_no_plus _ _ Hall)].
  rewrite (tokens_formatted _ _ Hall). reflexivity.
Qed.

(** Every modifier alias, in any casing, comes out canonical. *)
Lemma modifier_token_ok (m n : string) :
  canonical_modifier m = Some n -> token_ok m n.
Proof.
  unfold canonical_modifier, token_ok.
  repeat match goal with
         | |- context [String.eqb (lower m) ?a] =>
             destruct (String.eqb_spec (lower m) a) as [->|_]
         end; cbn [orb]; intros [= <-]; repeat split; reflexivity.
Qed.

Ltac each_char c :=
  destruct c as [[] [] [] [] [] [] [] []].

(** A key character other than the space, ['<'], ['>'] and ['+']. *)
Lemma key_token_ok (c : ascii) :
  is_printable c = true ->
  c <> " "%char -> c <> "<"%char -> c <> ">"%char -> c <> "+"%char ->
  token_ok (String c "") (canonical_key c).
Proof.
  intros Hp H1 H2 H3 H4. unfold token_ok, canonical_key.
  each_char c;
    first [ discriminate Hp
          | exfalso; apply H1; reflexivity
          | exfalso; apply H2; reflexivity
          | exfalso; apply H3; reflexivity
          | exfalso; apply H4; reflexivity
          | repeat split; vm_compute; reflexivity ].
Qed.

(** The empty token: what a ['+'] key leaves on each side of it. *)
Lemma empty_token_ok : token_ok "" "".
Proof. repeat split. Qed.





End ComboFacts.

(* ===================================================================== *)
(** * Properties of dicts *)
(* ===================================================================== *)

Section DictFacts.
Context {V : Type}.
Implicit Types (d : PyDict.t V) (k : string) (v : V).

Lemma get_app_fresh d k v : PyDict.get k d = None -> PyDict.set k v d = d ++ [(k, v)].
Proof.
  induction d as [|[k' v'] d IH]; cbn; [reflexivity|].
  destruct (String.eqb k' k); [discriminate|].
  intros H. rewrite (IH H). reflexivity.
Qed.

Lemma get_snoc d k k' v :
  PyDict.get k (d ++ [(k', v)]) =
  match PyDict.get k d with
  | Some x => Some x
  | None => if String.eqb k' k then Some v else None
  end.
Proof.
  induction d as [|[k0 v0] d IH]; cbn; [reflexivity|].
  destruct (String.eqb k0 k); [reflexivity|exact IH].
Qed.

Lemma get_set d k k' v :
  PyDict.get k (PyDict.set k' v d) =
  if String.eqb k' k then Some v else PyDict.get k d.
Proof.
  induction d as [|[k0 v0] d IH]; cbn.
  - reflexivity.
  - destruct (String.eqb_spec k0 k') as [->|Hne]; cbn.
    + destruct (String.eqb k' k); reflexivity.
    + destruct (String.eqb_spec k0 k) as [->|Hne'].
      * apply String.eqb_neq in Hne. rewrite String.eqb_sym in Hne.
        rewrite Hne. reflexivity.
      * exact IH.
Qed.

Lemma get_del d k k' :
  PyDict.get k (PyDict.del k' d) =
  if String.eqb k' k then None else PyDict.get k d.
Proof.
  induction d as [|[k0 v0] d IH]; cbn.
  - destruct (String.eqb k' k); reflexivity.
  - destruct (String.eqb_spec k0 k') as [->|Hne]; cbn.
    + rewrite IH. destruct (String.eqb k' k); reflexivity.
    + rewrite IH.
      destruct (String.eqb_spec k0 k) as [->|Hne'];
        [|reflexivity].
      apply String.eqb_neq in Hne. rewrite String.eqb_sym in Hne.
      rewrite Hne. reflexivity.
Qed.

Lemma del_absent d k : PyDict.get k d = None -> PyDict.del k d = d.
Proof.
  induction d as [|[k' v'] d IH]; cbn; [reflexivity|].
  destruct (String.eqb k' k); [discriminate|].
  intros H. rewrite (IH H). reflexivity.
Qed.

Lemma del_snoc_fresh d k v :
  PyDict.get k d = None -> PyDict.del k (d ++ [(k, v)]) = d.
Proof.
  induction d as [|[k' v'] d IH]; cbn.
  - rewrite String.eqb_refl. reflexivity.
  - destruct (String.eqb k' k); [discriminate|].
    intros H. rewrite (IH H). reflexivity.
Qed.

Lemma del_del d k : PyDict.del k (PyDict.del k d) = PyDict.del k d.
Proof. apply del_absent. rewrite get_del, String.eqb_refl. reflexivity. Qed.

Lemma contains_del d k : PyDict.contains k (PyDict.del k d) = false.
Proof. unfold PyDict.contains. rewrite get_del, String.eqb_refl. reflexivity. Qed.

Lemma get_Some_elem_of d k v : PyDict.get k d = Some v -> (k, v) ∈ d.
Proof.
  induction d as [|[k' v'] d IH]; cbn; [discriminate|].
  destruct (String.eqb_spec k' k) as [->|_].
  - intros [= ->]. left.
  - intros H. right. auto.
Qed.

Lemma keys_set_NoDup d k v :
  NoDup (PyDict.keys d) -> NoDup (PyDict.keys (PyDict.set k v d)).
Proof.
  unfold PyDict.keys.
  assert (Hin : forall d k0, k0 ∈ map fst (PyDict.set k v d) ->
                             k0 = k \/ k0 ∈ map fst d).
  { clear d. induction d as [|[k' v'] d IH]; cbn; intros k0 H.
    - apply list_elem_of_singleton in H. auto.
    - destruct (String.eqb_spec k' k) as [->|_]; cbn in H; [auto|].
      apply elem_of_cons in H as [->|H].
      + right; left.
      + destruct (IH _ H); [auto|]. right; right; assumption. }
  induction d as [|[k' v'] d IH]; cbn; intros Hnd.
  - apply NoDup_singleton.
  - apply NoDup_cons in Hnd as [Hk Hnd].
    destruct (String.eqb_spec k' k) as [->|Hne]; cbn.
    + apply NoDup_cons; auto.
    + apply NoDup_cons. split; [|auto].
      intros H. destruct (Hin _ _ H); congruence.
Qed.

(** In a dict, a key has one value. *)
Lemma NoDup_keys_functional d k v v' :
  NoDup (PyDict.keys d) -> (k, v) ∈ d -> (k, v') ∈ d -> v = v'.
Proof.
  unfold PyDict.keys. induction d as [|[k0 v0] d IH]; cbn; intros Hnd H1 H2.
  - inversion H1.
  - apply NoDup_cons in Hnd as [Hk Hnd].
    apply elem_of_cons in H1 as [[= -> ->]|H1];
      apply elem_of_cons in H2 as [[= ->]|H2]; auto.
    + exfalso. apply Hk. apply (list_elem_of_fmap_2 fst) in H2. exact H2.
    + exfalso. apply Hk. apply (list_elem_of_fmap_2 fst) in H1. exact H1.
Qed.

End DictFacts.

(* ===================================================================== *)
(** * Properties of the hotkey registry *)
(* ===================================================================== *)

Section RegistryFacts.
Import HotkeyManager.
Context {Callback : Type}.
Variable accepts : PyDict.t (wrapper Callback) -> bool.

Abbreviation state := (HotkeyManager.t Callback).
Implicit Types (s : state) (hk : PyDict.t (binding Callback)).

(** ** Restarting the listener *)

Lemma restart_listener_hotkeys s : hotkeys (_restart_listener accepts s) = hotkeys s.
Proof.
  unfold _restart_listener.
  destruct (listener s) as [l|]; cbn [hotkeys];
    destruct (hotkeys s) as [|b hk] eqn:Hhk; cbn [hotkeys]; try assumption;
    try reflexivity; destruct (accepts _); reflexivity.
Qed.

Lemma restart_listener_spec s :
  restarted_from accepts (hotkeys s) s (_restart_listener accepts s).
Proof.
  unfold restarted_from, _restart_listener, stops, watched.
  destruct (listener s) as [l|] eqn:Hl; cbn [hotkeys listener calls];
    destruct (hotkeys s) as [|b hk] eqn:Hhk; cbn [hotkeys listener calls].
  - cbn. auto.
  - destruct (accepts _); cbn [listener calls running hotkey_map stop_listener];
      rewrite <- app_assoc; auto.
  - rewrite Hl, app_nil_r. auto.
  - destruct (accepts _); cbn [listener calls running hotkey_map]; auto.
    rewrite Hl. auto.
Qed.

(** A restart that follows an update of the mapping. *)
Lemma restart_after_update s hk :
  restarted_from accepts hk s
    (_restart_listener accepts
       {| hotkeys := hk; listener := listener s; calls := calls s |}).
Proof.
  exact (restart_listener_spec
           {| hotkeys := hk; listener := listener s; calls := calls s |}).
Qed.

(** ** What the listener map delivers *)

Lemma build_hotkey_map_snoc hk name info :
  build_hotkey_map (hk ++ [(name, info)]) =
  PyDict.set (combo info) (wrapper_of (name, info)) (build_hotkey_map hk).
Proof. unfold build_hotkey_map. rewrite fold_left_app. reflexivity. Qed.

(** The entry of a combination is the wrapper of the last binding, in
    iteration order, that carries it. *)
Lemma build_hotkey_map_get hk key_combo :
  PyDict.get key_combo (build_hotkey_map hk) =
  wrapper_of <$> last_with_combo key_combo hk.
Proof.
  unfold last_with_combo.
  induction hk as [|[name info] hk IH] using rev_ind; [reflexivity|].
  rewrite build_hotkey_map_snoc, get_set, List.filter_app.
  cbn [List.filter snd].
  destruct (String.eqb (combo info) key_combo) eqn:Heq.
  - rewrite last_snoc. reflexivity.
  - rewrite app_nil_r. exact IH.
Qed.

Lemma build_hotkey_map_NoDup hk : NoDup (PyDict.keys (build_hotkey_map hk)).
Proof.
  induction hk as [|[name info] hk IH] using rev_ind.
  - apply NoDup_nil_2.
  - rewrite build_hotkey_map_snoc. apply keys_set_NoDup, IH.
Qed.

Lemma build_hotkey_map_delivers hk : delivers hk (build_hotkey_map hk).
Proof.
  split; [apply build_hotkey_map_NoDup|].
  intros key_combo. unfold trigger. rewrite build_hotkey_map_get.
  destruct (last_with_combo key_combo hk) as [[name info]|]; reflexivity.
Qed.

Lemma restarted_from_with hk s s' :
  restarted_from accepts hk s s' -> restarted_with accepts hk s s'.
Proof.
  intros H. exists (build_hotkey_map hk).
  split; [apply build_hotkey_map_delivers|].
  unfold restarted_from in H. destruct hk; exact H.
Qed.

(** C7. Take a registry whose mapping [M] has no binding named [X].
    [register_hotkey X combo callback] answers [True] and leaves the
    mapping [M] followed by the binding of [X]; [unregister_hotkey X]
    then answers [True] and leaves exactly [M]. Each of the two
    operations stops the listener it finds and then asks pynput for a
    new listener over a map that delivers every binding of the
    mapping of that moment and nothing else -- [M] with [X] after
    the registration, [M] alone after the removal -- and starts it:
    pressing a combination on it reaches the callback of the binding
    that carries the combination. *)
Theorem register_then_unregister s (X key_combo : string) (c : Callback) :
  PyDict.get X (hotkeys s) = None ->
  let M := hotkeys s in
  let s1 := snd (register_hotkey accepts X key_combo c s) in
  let s2 := snd (unregister_hotkey accepts X s1) in
  fst (register_hotkey accepts X key_combo c s) = true /\
  hotkeys s1 = M ++ [(X, {| combo := key_combo; callback := c |})] /\
  restarted_with accepts (hotkeys s1) s s1 /\
  (forall m, delivers (hotkeys s1) m ->
             trigger key_combo m = [Called c; Emitted X]) /\
  fst (unregister_hotkey accepts X s1) = true /\
  hotkeys s2 = M /\
  PyDict.get X (hotkeys s2) = None /\
  restarted_with accepts M s1 s2.
Proof.
  intros HX. cbv zeta.
  set (b := {| combo := key_combo; callback := c |}).
  assert (H1 : hotkeys (snd (register_hotkey accepts X key_combo c s))
               = hotkeys s ++ [(X, b)]).
  { cbn [register_hotkey snd]. rewrite restart_listener_hotkeys. cbn [hotkeys].
    apply get_app_fresh, HX. }
  assert (Hin : PyDict.contains X
                  (hotkeys (snd (register_hotkey accepts X key_combo c s))) = true).
  { rewrite H1. unfold PyDict.contains. rewrite get_snoc, HX, String.eqb_refl.
    reflexivity. }
  split; [reflexivity|]. split; [exact H1|]. split.
  { apply restarted_from_with. rewrite H1. cbn [register_hotkey snd].
    fold b. rewrite (get_app_fresh _ _ b HX). apply restart_after_update. }
  split.
  { intros m [_ Hm]. rewrite Hm, H1. unfold last_with_combo.
    rewrite List.filter_app. cbn [List.filter snd combo b].
    rewrite String.eqb_refl, last_snoc. reflexivity. }
  set (s1 := snd (register_hotkey accepts X key_combo c s)) in *.
  unfold unregister_hotkey. rewrite Hin. cbn [fst snd].
  split; [reflexivity|].
  rewrite restart_listener_hotkeys. cbn [hotkeys].
  rewrite H1, (del_snoc_fresh _ _ b HX).
  split; [reflexivity|]. split; [exact HX|].
  apply restarted_from_with, restart_after_update.
Qed.

Lemma last_with_combo_Some hk key_combo name info :
  last_with_combo key_combo hk = Some (name, info) ->
  (name, info) ∈ hk /\ combo info = key_combo.
Proof.
  unfold last_with_combo. intros H.
  apply last_Some_elem_of, list_elem_of_In, List.filter_In in H as [Hin Hc].
  split; [apply list_elem_of_In, Hin|]. apply String.eqb_eq in Hc. exact Hc.
Qed.

(** The name notified by a trigger belongs to the last binding of the
    combination pressed. *)
Lemma trigger_emitted hk key_combo name :
  Emitted name ∈ trigger key_combo (build_hotkey_map hk) ->
  exists info, last_with_combo key_combo hk = Some (name, info).
Proof.
  unfold trigger. rewrite build_hotkey_map_get.
  destruct (last_with_combo key_combo hk) as [[n info]|]; cbn.
  - intros H. apply elem_of_cons in H as [H|H]; [discriminate|].
    apply list_elem_of_singleton in H. injection H as ->. eauto.
  - intros H. inversion H.
Qed.

(** With pairwise distinct combinations, each binding is the last
    one of its combination. *)
Lemma last_with_combo_distinct hk name info :
  NoDup (map (fun e => combo (snd e)) hk) ->
  (name, info) ∈ hk ->
  last_with_combo (combo info) hk = Some (name, info).
Proof.
  unfold last_with_combo.
  induction hk as [|[n0 i0] hk IH]; intros Hnd Hin; [inversion Hin|].
  cbn [map] in Hnd. apply NoDup_cons in Hnd as [Hfresh Hnd].
  cbn [snd] in Hfresh. cbn [List.filter snd].
  apply elem_of_cons in Hin as [[= <- <-]|Hin].
  - rewrite String.eqb_refl.
    destruct (List.filter _ hk) as [|[n1 i1] l] eqn:Hf; [reflexivity|].
    exfalso. apply Hfresh.
    assert (Hmem : In (n1, i1)
              (List.filter (fun e => String.eqb (combo (snd e)) (combo info)) hk))
      by (rewrite Hf; left; reflexivity).
    apply List.filter_In in Hmem as [Hmem Hc]. cbn in Hc.
    apply String.eqb_eq in Hc. rewrite <- Hc.
    apply list_elem_of_In in Hmem.
    apply (list_elem_of_fmap_2 (fun e => combo (snd e))) in Hmem. exact Hmem.
  - destruct (String.eqb_spec (combo i0) (combo info)) as [Heq|_];
      [|apply IH; assumption].
    exfalso. apply Hfresh. rewrite Heq.
    apply (list_elem_of_fmap_2 (fun e => combo (snd e))) in Hin. exact Hin.
Qed.

Lemma notifiable_last hk name info :
  NoDup (PyDict.keys hk) ->
  (name, info) ∈ hk ->
  notifiable (build_hotkey_map hk) name ->
  last_with_combo (combo info) hk = Some (name, info).
Proof.
  intros Hnd Hin [key_combo Hem].
  apply trigger_emitted in Hem as [info' Hlast].
  destruct (last_with_combo_Some _ _ _ _ Hlast) as [Hin' Hc].
  assert (info' = info) by eauto using NoDup_keys_functional.
  subst info'. rewrite Hc. exact Hlast.
Qed.

Lemma same_combo_not_both hk n1 b1 n2 b2 :
  NoDup (PyDict.keys hk) ->
  (n1, b1) ∈ hk -> (n2, b2) ∈ hk -> n1 <> n2 -> combo b1 = combo b2 ->
  ~ (notifiable (build_hotkey_map hk) n1 /\ notifiable (build_hotkey_map hk) n2).
Proof.
  intros Hnd H1 H2 Hne Hc [Hn1 Hn2].
  apply (notifiable_last _ _ _ Hnd H1) in Hn1.
  apply (notifiable_last _ _ _ Hnd H2) in Hn2.
  rewrite Hc in Hn1. congruence.
Qed.

(** C10. Let the mapping hold its bindings under pairwise distinct
    names. The map a restart hands to the listener has one entry per
    combination string, and that entry wraps the last binding, in
    iteration order, that carries the combination. Hence of two
    bindings with different names and the same combination at most
    one can ever have its name notified. When the combinations are
    pairwise distinct, pressing the combination of a binding calls
    its callback and then notifies its name; and only then can every
    registered name be notified. *)
Theorem same_combo_last_binding_wins hk :
  NoDup (PyDict.keys hk) ->
  let m := build_hotkey_map hk in
  NoDup (PyDict.keys m) /\
  (forall key_combo,
      PyDict.get key_combo m = wrapper_of <$> last_with_combo key_combo hk) /\
  (forall n1 b1 n2 b2,
      (n1, b1) ∈ hk -> (n2, b2) ∈ hk -> n1 <> n2 -> combo b1 = combo b2 ->
      (exists e, last_with_combo (combo b1) hk = Some e /\
                 trigger (combo b1) m = [Called (callback (snd e)); Emitted (fst e)]) /\
      ~ (notifiable m n1 /\ notifiable m n2)) /\
  (NoDup (map (fun e => combo (snd e)) hk) ->
   forall name info,
     (name, info) ∈ hk ->
     trigger (combo info) m = [Called (callback info); Emitted name]) /\
  ((forall name info, (name, info) ∈ hk -> notifiable m name) ->
   NoDup (map (fun e => combo (snd e)) hk)).
Proof.
  intros Hnd. cbv zeta.
  split; [apply build_hotkey_map_NoDup|].
  split; [intros; apply build_hotkey_map_get|].
  split; [|split].
  - intros n1 b1 n2 b2 H1 H2 Hne Hc. split.
    + unfold trigger. rewrite build_hotkey_map_get.
      destruct (last_with_combo (combo b1) hk) as [e|] eqn:Hlast.
      * exists e. split; reflexivity.
      * exfalso. unfold last_with_combo in Hlast. apply last_None in Hlast.
        assert (Hmem : In (n1, b1)
                  (List.filter (fun e => String.eqb (combo (snd e)) (combo b1)) hk)).
        { apply List.filter_In. split; [apply list_elem_of_In, H1|].
          apply String.eqb_refl. }
        rewrite Hlast in Hmem. destruct Hmem.
    + eauto using same_combo_not_both.
  - intros Hdist name info Hin. unfold trigger.
    rewrite build_hotkey_map_get, (last_with_combo_distinct _ _ _ Hdist Hin).
    reflexivity.
  - intros Hall. apply NoDup_alt. intros i j x Hi Hj.
    rewrite list_lookup_fmap in Hi, Hj.
    apply fmap_Some in Hi as ([n1 b1] & Ei & ->).
    apply fmap_Some in Hj as ([n2 b2] & Ej & Hc). cbn [snd] in Hc.
    assert (H1 : (n1, b1) ∈ hk) by (apply list_elem_of_lookup; eauto).
    assert (H2 : (n2, b2) ∈ hk) by (apply list_elem_of_lookup; eauto).
    destruct (string_dec n1 n2) as [->|Hne].
    + eapply (proj1 (NoDup_alt (PyDict.keys hk)) Hnd i j n2);
        unfold PyDict.keys; rewrite list_lookup_fmap.
      * rewrite Ei. reflexivity.
      * rewrite Ej. reflexivity.
    + exfalso.
      apply (same_combo_not_both hk n1 b1 n2 b2 Hnd H1 H2 Hne);
        [congruence|split; eauto].
Qed.

End RegistryFacts.

Section RegistryDemo.
Import HotkeyManager MainWindow.
Local Open Scope string_scope.

Lemma register_then_unregister_witness :
  let s1 := snd (register_hotkey accepts_all "preview_0x2" "<ctrl>+2"
                   (activate_callback "0x2") one_binding) in
  let s2 := snd (unregister_hotkey accepts_all "preview_0x2" s1) in
  PyDict.get "preview_0x2" (hotkeys one_binding) = None /\
  hotkeys s2 = hotkeys one_binding /\
  fst (unregister_hotkey accepts_all "preview_0x2" s1) = true /\
  restarted_with accepts_all (hotkeys s1) one_binding s1 /\
  restarted_with accepts_all (hotkeys one_binding) s1 s2.
Proof.
  cbv zeta.
  assert (HX : PyDict.get "preview_0x2" (hotkeys one_binding) = None)
    by reflexivity.
  pose proof (register_then_unregister accepts_all one_binding
                "preview_0x2" "<ctrl>+2" (activate_callback "0x2") HX)
    as (_ & _ & Hr1 & _ & Hret & Hhk & _ & Hr2).
  auto.
Defined.

(** What the listener is asked to watch after the registration of
    the witness: both bindings, each under its own combination. *)
Example two_bindings_map :
  watched (snd (register_hotkey accepts_all "preview_0x2" "<ctrl>+2"
                  (activate_callback "0x2") one_binding))
  = [("<ctrl>+1", {| cb := activate_callback "0x1"; hk_name := "preview_0x1" |});
     ("<ctrl>+2", {| cb := activate_callback "0x2"; hk_name := "preview_0x2" |})].
Proof. reflexivity. Qed.

Example clashing_map :
  build_hotkey_map clashing =
  [("<ctrl>+1", {| cb := activate_callback "0x2"; hk_name := "preview_0x2" |})].
Proof. reflexivity. Qed.

Lemma same_combo_last_binding_wins_witness :
  NoDup (PyDict.keys clashing) /\
  trigger "<ctrl>+1" (build_hotkey_map clashing)
  = [Called (activate_callback "0x2"); Emitted "preview_0x2"] /\
  ~ (notifiable (build_hotkey_map clashing) "preview_0x1" /\
     notifiable (build_hotkey_map clashing) "preview_0x2").
Proof.
  assert (Hnd : NoDup (PyDict.keys clashing)).
  { apply NoDup_cons. split; [|apply NoDup_singleton].
    intros H. apply list_elem_of_singleton in H. discriminate. }
  split; [exact Hnd|]. split; [reflexivity|].
  pose proof (same_combo_last_binding_wins clashing Hnd) as (_ & _ & H & _).
  apply (H "preview_0x1" {| combo := "<ctrl>+1"; callback := activate_callback "0x1" |}
           "preview_0x2" {| combo := "<ctrl>+1"; callback := activate_callback "0x2" |});
    [left | right; left | discriminate | reflexivity].
Defined.

End RegistryDemo.

(* ===================================================================== *)
(** * Sessions of the hotkey registry *)
(* ===================================================================== *)

Section DictKeys.
Context {V : Type}.
Implicit Types (d : PyDict.t V) (k : string) (v : V).

Lemma keys_del_elem_of d k k0 :
  k0 ∈ PyDict.keys (PyDict.del k d) <-> k0 <> k /\ k0 ∈ PyDict.keys d.
Proof.
  unfold PyDict.keys.
  induction d as [|[k' v'] d IH]; cbn.
  - split; [intros H; inversion H | intros [_ H]; inversion H].
  - destruct (String.eqb_spec k' k) as [->|Hne]; cbn.
    + rewrite IH, elem_of_cons. split; [tauto|]. intros [Hk [->|H]]; tauto.
    + rewrite !elem_of_cons, IH. split.
      * intros [->|[? ?]]; auto.
      * intros [Hk [->|H]]; auto.
Qed.

Lemma keys_del_NoDup d k :
  NoDup (PyDict.keys d) -> NoDup (PyDict.keys (PyDict.del k d)).
Proof.
  induction d as [|[k' v'] d IH]; cbn; [auto|].
  intros Hnd. apply NoDup_cons in Hnd as [Hk Hnd].
  destruct (String.eqb k' k); [auto|].
  cbn. apply NoDup_cons. split; [|auto].
  intros H. apply (keys_del_elem_of d k k') in H as [_ H]. auto.
Qed.

Lemma keys_set_elem_of d k v k0 :
  k0 ∈ PyDict.keys (PyDict.set k v d) <-> k0 = k \/ k0 ∈ PyDict.keys d.
Proof.
  unfold PyDict.keys.
  induction d as [|[k' v'] d IH]; cbn.
  - rewrite list_elem_of_singleton. split; [auto|].
    intros [H|H]; [auto|inversion H].
  - destruct (String.eqb_spec k' k) as [->|Hne]; cbn.
    + rewrite !elem_of_cons. tauto.
    + rewrite !elem_of_cons, IH. tauto.
Qed.

Lemma keys_set d k v :
  PyDict.keys (PyDict.set k v d) =
  if PyDict.contains k d then PyDict.keys d else PyDict.keys d ++ [k].
Proof.
  unfold PyDict.keys, PyDict.contains.
  induction d as [|[k' v'] d IH]; cbn; [reflexivity|].
  destruct (String.eqb k' k); cbn; [reflexivity|].
  rewrite IH. destruct (PyDict.get k d); reflexivity.
Qed.

Lemma contains_keys d k :
  PyDict.contains k d = true <-> k ∈ PyDict.keys d.
Proof.
  unfold PyDict.keys, PyDict.contains.
  induction d as [|[k' v'] d IH]; cbn.
  - split; [discriminate | intros H; inversion H].
  - rewrite elem_of_cons. destruct (String.eqb_spec k' k) as [->|Hne].
    + split; auto.
    + rewrite IH. split; [auto|]. intros [->|H]; [congruence|auto].
Qed.

End DictKeys.

Section SessionFacts.
Import HotkeyManager.
Context {Callback : Type}.
Variable accepts : PyDict.t (wrapper Callback) -> bool.
Implicit Types (s : HotkeyManager.t Callback) (hk : PyDict.t (binding Callback)).

Lemma get_hotkeys_get s name :
  PyDict.get name (get_hotkeys s) = combo <$> PyDict.get name (hotkeys s).
Proof.
  unfold get_hotkeys.
  induction (hotkeys s) as [|[n info] hk IH]; cbn; [reflexivity|].
  destruct (String.eqb n name); [reflexivity | exact IH].
Qed.

Lemma get_hotkeys_keys s : PyDict.keys (get_hotkeys s) = PyDict.keys (hotkeys s).
Proof.
  unfold get_hotkeys, PyDict.keys. rewrite map_map.
  apply map_ext. intros [n info]. reflexivity.
Qed.

(** What is watched after a restart depends on the bindings alone. *)
Lemma restart_listener_watched s :
  watched (_restart_listener accepts s) =
  let m := build_hotkey_map (hotkeys s) in if accepts m then m else [].
Proof.
  unfold _restart_listener, watched.
  destruct (listener s) as [l|] eqn:Hl; cbn [hotkeys listener];
    destruct (hotkeys s) as [|b hk] eqn:Hhk; cbn [hotkeys listener];
    try destruct (accepts _); cbn -[build_hotkey_map];
    rewrite ?Hl; reflexivity.
Qed.

Lemma one_at_a_time_app n (l1 l2 : list (pynput_call Callback)) :
  one_at_a_time n (l1 ++ l2) =
  one_at_a_time n l1 && one_at_a_time (listeners_after n l1) l2.
Proof.
  revert n. induction l1 as [|c l1 IH]; intros n; cbn; [reflexivity|].
  rewrite IH, andb_assoc. reflexivity.
Qed.

Lemma listeners_after_app n (l1 l2 : list (pynput_call Callback)) :
  listeners_after n (l1 ++ l2) = listeners_after (listeners_after n l1) l2.
Proof. apply fold_left_app. Qed.

(** The restart keeps the log in order whatever the bindings are. *)
Lemma restart_listener_log s :
  log_in_order s -> log_in_order (_restart_listener accepts s).
Proof.
  unfold log_in_order, _restart_listener, listening.
  intros [H1 H2].
  destruct (listener s) as [l|] eqn:Hl; [destruct (running l) eqn:Hr|];
    cbn [hotkeys listener calls];
    destruct (hotkeys s) as [|b hk]; cbn [hotkeys listener calls];
    try destruct (accepts _); cbn [listener calls running stop_listener];
    rewrite ?Hl, ?Hr, ?one_at_a_time_app, ?listeners_after_app, ?H1, ?H2;
    cbn; auto.
Qed.

Lemma stop_log s : log_in_order s -> log_in_order (stop s).
Proof.
  unfold log_in_order, stop, listening.
  intros [H1 H2].
  destruct (listener s) as [l|] eqn:Hl; [destruct (running l) eqn:Hr|];
    cbn [hotkeys listener calls];
    rewrite ?Hl, ?Hr, ?one_at_a_time_app, ?listeners_after_app, ?H1, ?H2;
    cbn; auto.
Qed.

Lemma step_hotkeys_NoDup o s :
  NoDup (PyDict.keys (hotkeys s)) -> NoDup (PyDict.keys (hotkeys (step accepts o s))).
Proof.
  intros Hnd. destruct o as [name key_combo c|name| |]; cbn.
  - rewrite restart_listener_hotkeys. cbn. apply keys_set_NoDup, Hnd.
  - unfold unregister_hotkey. destruct (PyDict.contains name (hotkeys s)); cbn; [|exact Hnd].
    rewrite restart_listener_hotkeys. cbn. apply keys_del_NoDup, Hnd.
  - unfold start. rewrite restart_listener_hotkeys. exact Hnd.
  - unfold stop. destruct (listener s); exact Hnd.
Qed.

Lemma step_log o s : log_in_order s -> log_in_order (step accepts o s).
Proof.
  intros H. destruct o as [name key_combo c|name| |]; cbn.
  - apply restart_listener_log. exact H.
  - unfold unregister_hotkey. destruct (PyDict.contains name (hotkeys s)); cbn; [|exact H].
    apply restart_listener_log. exact H.
  - apply restart_listener_log, H.
  - apply stop_log, H.
Qed.

(** A listener that runs was built from the bindings of the moment. *)
Lemma restart_listener_current s (l : Listener Callback) :
  listener (_restart_listener accepts s) = Some l -> running l = true ->
  hotkey_map l = build_hotkey_map (hotkeys s) /\ hotkeys s <> [].
Proof.
  unfold _restart_listener.
  destruct (listener s) as [l0|] eqn:Hl; cbn [hotkeys listener];
    destruct (hotkeys s) as [|b hk] eqn:Hhk; cbn [hotkeys listener];
    try destruct (accepts _); cbn [listener];
    rewrite ?Hl; intros [= <-]; cbn; intros Hr; try discriminate Hr;
    (split; [reflexivity | discriminate]).
Qed.

Lemma step_current o s :
  (forall l, listener s = Some l -> running l = true ->
             hotkey_map l = build_hotkey_map (hotkeys s) /\ hotkeys s <> []) ->
  forall l, listener (step accepts o s) = Some l -> running l = true ->
            hotkey_map l = build_hotkey_map (hotkeys (step accepts o s)) /\
            hotkeys (step accepts o s) <> [].
Proof.
  intros H. destruct o as [name key_combo c|name| |]; cbn [step].
  - unfold register_hotkey. cbn [snd]. intros l Hl Hr.
    rewrite restart_listener_hotkeys. exact (restart_listener_current _ l Hl Hr).
  - unfold unregister_hotkey.
    destruct (PyDict.contains name (hotkeys s)); cbn [snd]; [|exact H].
    intros l Hl Hr.
    rewrite restart_listener_hotkeys. exact (restart_listener_current _ l Hl Hr).
  - unfold start. intros l Hl Hr.
    rewrite restart_listener_hotkeys. exact (restart_listener_current _ l Hl Hr).
  - unfold stop. destruct (listener s) as [l0|] eqn:Hl0; [cbn; discriminate|].
    intros l Hl. rewrite Hl0 in Hl. discriminate Hl.
Qed.

(** X8. Whatever is registered, unregistered, started and stopped on
    a fresh manager, in any order and whatever pynput accepts: the
    names of the bindings stay distinct; while a listener runs there
    are bindings and the listener delivers every one of them --
    pressing a combination reaches the callback of the last binding
    that carries it -- and nothing else; while none runs nothing is
    watched; no listener is started while another one runs; and the
    manager never loses track of a running listener. *)
Theorem session_keeps_one_listener (ops : list (op Callback)) :
  let s := session accepts ops in
  NoDup (PyDict.keys (hotkeys s)) /\
  (if listening s
   then delivers (hotkeys s) (watched s) /\ hotkeys s <> []
   else watched s = []) /\
  one_at_a_time 0 (calls s) = true /\
  listeners_after 0 (calls s) = (if listening s then 1 else 0)%nat.
Proof.
  cbn zeta.
  assert (Hinv : NoDup (PyDict.keys (hotkeys (session accepts ops))) /\
                 (forall l, listener (session accepts ops) = Some l ->
                            running l = true ->
                            hotkey_map l
                            = build_hotkey_map (hotkeys (session accepts ops)) /\
                            hotkeys (session accepts ops) <> []) /\
                 log_in_order (session accepts ops)).
  { unfold session.
    induction ops as [|o ops IH] using rev_ind.
    - cbn. split; [apply NoDup_nil_2|]. split; [discriminate|]. split; reflexivity.
    - rewrite fold_left_app. cbn [fold_left].
      destruct IH as (Hnd & Hcur & Hlog).
      split; [apply step_hotkeys_NoDup, Hnd|].
      split; [apply step_current, Hcur | apply (step_log o), Hlog]. }
  destruct Hinv as (Hnd & Hcur & Hlog).
  split; [exact Hnd|]. split; [|exact Hlog].
  unfold listening, watched.
  destruct (listener (session accepts ops)) as [l|]; [|reflexivity].
  destruct (running l) eqn:Hr; [|reflexivity].
  destruct (Hcur l eq_refl Hr) as [-> Hne].
  split; [apply build_hotkey_map_delivers | exact Hne].
Qed.

(** X9. [unregister_hotkey] answers whether the name was registered.
    An unknown name changes nothing and restarts nothing. A known
    name is gone afterwards, the other names keep their
    combinations, and the listener is restarted: the one found is
    stopped and a new one is asked for over a map that delivers
    every remaining binding and nothing else. *)
Theorem unregister_hotkey_answer s (name : string) :
  let r := unregister_hotkey accepts name s in
  fst r = PyDict.contains name (hotkeys s) /\
  (PyDict.contains name (hotkeys s) = false -> snd r = s) /\
  (PyDict.contains name (hotkeys s) = true ->
     restarted_with accepts (hotkeys (snd r)) s (snd r)) /\
  PyDict.get name (get_hotkeys (snd r)) = None /\
  (forall n, n <> name ->
     PyDict.get n (get_hotkeys (snd r)) = PyDict.get n (get_hotkeys s)).
Proof.
  cbn zeta. unfold unregister_hotkey.
  destruct (PyDict.contains name (hotkeys s)) eqn:Hc; cbn [fst snd].
  - split; [reflexivity|]. split; [discriminate|].
    split.
    { intros _. rewrite restart_listener_hotkeys. cbn [hotkeys].
      apply restarted_from_with, restart_after_update. }
    rewrite !get_hotkeys_get, restart_listener_hotkeys. cbn [hotkeys].
    split.
    + rewrite get_del, String.eqb_refl. reflexivity.
    + intros n Hn. rewrite !get_hotkeys_get, restart_listener_hotkeys.
      cbn [hotkeys]. rewrite get_del.
      destruct (String.eqb_spec name n); [congruence|reflexivity].
  - split; [reflexivity|]. split; [reflexivity|]. split; [discriminate|].
    split; [|reflexivity].
    rewrite get_hotkeys_get. unfold PyDict.contains in Hc.
    destruct (PyDict.get name (hotkeys s)); [discriminate|reflexivity].
Qed.

(** X10. [register_hotkey] under a name that is already bound
    replaces the binding where it stands: the name keeps its place in
    the iteration order, [get_hotkeys] reports the new combination
    for it and the old ones for every other name, and the listener is
    restarted: the one found is stopped and a new one is asked for
    over a map that delivers every binding of the updated mapping
    and nothing else. A new name goes last. *)
Theorem register_hotkey_replaces s (name key_combo : string) (c : Callback) :
  let s1 := snd (register_hotkey accepts name key_combo c s) in
  PyDict.get name (hotkeys s1) = Some {| combo := key_combo; callback := c |} /\
  PyDict.get name (get_hotkeys s1) = Some key_combo /\
  (forall n, n <> name ->
     PyDict.get n (hotkeys s1) = PyDict.get n (hotkeys s)) /\
  PyDict.keys (get_hotkeys s1) =
    (if PyDict.contains name (hotkeys s)
     then PyDict.keys (hotkeys s)
     else PyDict.keys (hotkeys s) ++ [name]) /\
  restarted_with accepts (hotkeys s1) s s1.
Proof.
  cbn zeta. unfold register_hotkey. cbn [snd].
  rewrite get_hotkeys_keys, get_hotkeys_get, !restart_listener_hotkeys.
  cbn [hotkeys].
  rewrite get_set, String.eqb_refl.
  split; [reflexivity|]. split; [reflexivity|].
  split.
  - intros n Hn. rewrite get_set. destruct (String.eqb_spec name n); [congruence|reflexivity].
  - split; [apply keys_set|]. apply restarted_from_with, restart_after_update.
Qed.

(** X11. [stop] keeps the bindings, watches nothing, and a second
    [stop] does nothing. [start] after [stop] keeps the bindings and
    watches a map that delivers every binding and nothing else when
    pynput accepts that map, and nothing when it refuses it or when
    there is no binding. *)
Theorem stop_then_start s :
  hotkeys (stop s) = hotkeys s /\
  watched (stop s) = [] /\
  stop (stop s) = stop s /\
  hotkeys (start accepts (stop s)) = hotkeys s /\
  exists m, delivers (hotkeys s) m /\
            watched (start accepts (stop s)) = (if accepts m then m else []).
Proof.
  assert (Hh : hotkeys (stop s) = hotkeys s).
  { unfold stop. destruct (listener s); reflexivity. }
  split; [exact Hh|].
  split.
  { unfold stop, watched. destruct (listener s) as [l|] eqn:Hl; cbn; [reflexivity|].
    rewrite Hl. reflexivity. }
  split.
  { unfold stop. destruct (listener s) as [l|] eqn:Hl; cbn; [reflexivity|].
    rewrite Hl. reflexivity. }
  unfold start. rewrite restart_listener_hotkeys, restart_listener_watched, Hh.
  split; [reflexivity|].
  exists (build_hotkey_map (hotkeys s)).
  split; [apply build_hotkey_map_delivers | reflexivity].
Qed.

End SessionFacts.

(* ===================================================================== *)
(** * Laws of the two conversions of key combinations *)
(* ===================================================================== *)

Section ComboLaws.
Import PyStr HotkeyManager.
Local Open Scope string_scope.

(** ** Characters *)

Ltac by_char c := destruct c as [[] [] [] [] [] [] [] []].

Lemma lower_char_plus c : Ascii.eqb (lower_char c) "+" = Ascii.eqb c "+".
Proof. by_char c; reflexivity. Qed.

Lemma upper_char_plus c : Ascii.eqb (upper_char c) "+" = Ascii.eqb c "+".
Proof. by_char c; reflexivity. Qed.

Lemma lower_char_idem c : lower_char (lower_char c) = lower_char c.
Proof. by_char c; reflexivity. Qed.

Lemma lower_upper_char c : lower_char (upper_char c) = lower_char c.
Proof. by_char c; reflexivity. Qed.

Lemma upper_lower_char c : upper_char (lower_char c) = upper_char c.
Proof. by_char c; reflexivity. Qed.

Lemma plain_char_lower c : plain_char (lower_char c) = plain_char c.
Proof. by_char c; reflexivity. Qed.

Lemma plain_char_not_plus c : plain_char c = true -> negb (Ascii.eqb c "+") = true.
Proof. by_char c; intros H; solve [reflexivity | discriminate H]. Qed.

Lemma plain_char_not_space c : plain_char c = true -> negb (is_space c) = true.
Proof. by_char c; intros H; solve [reflexivity | discriminate H]. Qed.

Lemma plain_char_not_angle c : plain_char c = true -> negb (mem_char c "<>") = true.
Proof. by_char c; intros H; solve [reflexivity | discriminate H]. Qed.

(** ** Strings *)

Lemma all_chars_map p f s :
  (forall c, p (f c) = p c) -> all_chars p (map_chars f s) = all_chars p s.
Proof.
  intros H. induction s as [|c s IH]; cbn; [reflexivity|].
  rewrite H, IH. reflexivity.
Qed.

Lemma all_chars_impl (p q : ascii -> bool) s :
  (forall c, p c = true -> q c = true) ->
  all_chars p s = true -> all_chars q s = true.
Proof.
  intros H. induction s as [|c s IH]; cbn; [reflexivity|].
  intros Hs. apply andb_prop in Hs as [Hc Hs].
  rewrite (H _ Hc), (IH Hs). reflexivity.
Qed.

Lemma all_chars_app p a b :
  all_chars p (a ++ b) = all_chars p a && all_chars p b.
Proof.
  induction a as [|c a IH]; [reflexivity|].
  change (String c a ++ b) with (String c (a ++ b)). cbn [all_chars].
  rewrite IH, andb_assoc. reflexivity.
Qed.

Lemma all_chars_lstrip_by p drop s :
  all_chars p s = true -> all_chars p (lstrip_by drop s) = true.
Proof.
  induction s as [|c s IH]; cbn [lstrip_by]; [auto|].
  intros H. destruct (drop c); [|exact H].
  cbn in H. apply andb_prop in H as [_ H]. auto.
Qed.

Lemma all_chars_rstrip_by p drop s :
  all_chars p s = true -> all_chars p (rstrip_by drop s) = true.
Proof.
  induction s as [|c s IH]; cbn [rstrip_by]; [auto|].
  intros H. cbn in H. apply andb_prop in H as [Hc H].
  specialize (IH H).
  destruct (rstrip_by drop s) as [|d r].
  - destruct (drop c); cbn; [reflexivity|]. rewrite Hc. reflexivity.
  - cbn [all_chars] in *. rewrite Hc, IH. reflexivity.
Qed.

Lemma all_chars_strip_by p drop s :
  all_chars p s = true -> all_chars p (strip_by drop s) = true.
Proof. intros H. apply all_chars_rstrip_by, all_chars_lstrip_by, H. Qed.

Lemma rstrip_by_id drop s :
  all_chars (fun c => negb (drop c)) s = true -> rstrip_by drop s = s.
Proof.
  induction s as [|c s IH]; cbn [rstrip_by all_chars]; [reflexivity|].
  intros H. apply andb_prop in H as [Hc H]. rewrite (IH H).
  apply negb_true_iff in Hc. rewrite Hc. destruct s; reflexivity.
Qed.

Lemma lstrip_by_id drop s :
  all_chars (fun c => negb (drop c)) s = true -> lstrip_by drop s = s.
Proof.
  destruct s as [|c s]; cbn [lstrip_by all_chars]; [reflexivity|].
  intros H. apply andb_prop in H as [Hc _].
  apply negb_true_iff in Hc. rewrite Hc. reflexivity.
Qed.

Lemma strip_by_id drop s :
  all_chars (fun c => negb (drop c)) s = true -> strip_by drop s = s.
Proof.
  intros H. unfold strip_by. rewrite (lstrip_by_id _ _ H). apply rstrip_by_id, H.
Qed.

Lemma rstrip_by_app_dropped drop s c :
  all_chars (fun c => negb (drop c)) s = true -> drop c = true ->
  rstrip_by drop (s ++ String c "") = s.
Proof.
  intros H Hc. induction s as [|a s IH].
  - change ("" ++ String c "") with (String c ""). cbn [rstrip_by].
    rewrite Hc. reflexivity.
  - change (String a s ++ String c "") with (String a (s ++ String c "")).
    cbn [rstrip_by all_chars] in *. apply andb_prop in H as [Ha H].
    rewrite (IH H). apply negb_true_iff in Ha. rewrite Ha.
    destruct s; reflexivity.
Qed.

Lemma length_map_chars f s : String.length (map_chars f s) = String.length s.
Proof. induction s as [|c s IH]; cbn; [reflexivity|]. rewrite IH. reflexivity. Qed.

Lemma lower_idem s : lower (lower s) = lower s.
Proof.
  induction s as [|c s IH]; [reflexivity|].
  change (String (lower_char (lower_char c)) (lower (lower s))
          = String (lower_char c) (lower s)).
  rewrite lower_char_idem, IH. reflexivity.
Qed.

Lemma lower_upper s : lower (upper s) = lower s.
Proof.
  induction s as [|c s IH]; [reflexivity|].
  change (String (lower_char (upper_char c)) (lower (upper s))
          = String (lower_char c) (lower s)).
  rewrite lower_upper_char, IH. reflexivity.
Qed.

Lemma lower_capitalize s : lower (capitalize s) = lower s.
Proof.
  destruct s as [|c s]; [reflexivity|].
  change (String (lower_char (upper_char c)) (lower (lower s))
          = String (lower_char c) (lower s)).
  rewrite lower_upper_char, lower_idem. reflexivity.
Qed.

Lemma capitalize_lower s : capitalize (lower s) = capitalize s.
Proof.
  destruct s as [|c s]; [reflexivity|].
  change (String (upper_char (lower_char c)) (lower (lower s))
          = String (upper_char c) (lower s)).
  rewrite upper_lower_char, lower_idem. reflexivity.
Qed.

Lemma no_plus_lower s : no_plus (lower s) = no_plus s.
Proof.
  unfold no_plus, lower. apply all_chars_map.
  intros c. rewrite lower_char_plus. reflexivity.
Qed.

Lemma no_plus_capitalize s : no_plus (capitalize s) = no_plus s.
Proof.
  destruct s as [|c s]; [reflexivity|].
  unfold no_plus. cbn [capitalize all_chars].
  rewrite upper_char_plus. f_equal. apply no_plus_lower.
Qed.

(** ** Tokens *)

Lemma split_lower s : split "+" (lower s) = map lower (split "+" s).
Proof.
  induction s as [|c s IH]; [reflexivity|].
  change (lower (String c s)) with (String (lower_char c) (lower s)).
  cbn [split]. rewrite lower_char_plus, IH.
  destruct (Ascii.eqb c "+"); [reflexivity|].
  destruct (split "+" s); reflexivity.
Qed.

Lemma split_not_nil sep s : split sep s <> [].
Proof.
  induction s as [|c s IH]; cbn; [discriminate|].
  destruct (Ascii.eqb c sep); [discriminate|].
  destruct (split sep s); discriminate.
Qed.

Lemma split_tokens_no_plus s : Forall (fun t => no_plus t = true) (split "+" s).
Proof.
  induction s as [|c s IH]; cbn [split].
  - repeat constructor.
  - destruct (Ascii.eqb c "+") eqn:Hc.
    + constructor; [reflexivity | exact IH].
    + destruct (split "+" s) as [|t ts].
      * repeat constructor. unfold no_plus. cbn. rewrite Hc. reflexivity.
      * inversion IH as [|? ? Ht Hts]; subst. constructor; [|exact Hts].
        unfold no_plus in *. cbn. rewrite Hc, Ht. reflexivity.
Qed.

Lemma key_map_values_no_plus part key :
  PyDict.get part key_map = Some key -> no_plus key = true.
Proof.
  intros H. apply get_Some_elem_of in H.
  assert (Hall : Forall (fun e => no_plus (snd e) = true) key_map)
    by (repeat constructor).
  rewrite Forall_forall in Hall. exact (Hall _ H).
Qed.

Lemma no_plus_angles part : no_plus part = true -> no_plus ("<" ++ part ++ ">") = true.
Proof.
  intros H. unfold no_plus in *.
  change ("<" ++ part ++ ">") with (String "<" (part ++ ">")).
  cbn [all_chars]. rewrite all_chars_app, H. reflexivity.
Qed.

Lemma parse_part_no_plus part : no_plus part = true -> no_plus (parse_part part) = true.
Proof.
  intros H. unfold parse_part. cbn zeta.
  assert (Hs : no_plus (strip part) = true) by (apply all_chars_strip_by, H).
  destruct (PyDict.get (strip part) key_map) as [key|] eqn:Hk.
  - exact (key_map_values_no_plus _ _ Hk).
  - destruct (String.length (strip part) =? 1)%nat; [exact Hs|].
    destruct (startswith "f" (strip part) && isdigit (tail (strip part)));
      apply no_plus_angles, Hs.
Qed.

Lemma format_part_no_plus part : no_plus part = true -> no_plus (format_part part) = true.
Proof.
  intros H. unfold format_part. cbn zeta.
  destruct (String.eqb _ "Cmd"); [reflexivity|].
  rewrite no_plus_capitalize. apply all_chars_strip_by, H.
Qed.

Lemma parse_key_combo_tokens s :
  split "+" (parse_key_combo s) = map (fun t => parse_part (lower t)) (split "+" s).
Proof.
  unfold parse_key_combo. rewrite split_lower, map_map.
  apply split_join.
  - intros H. apply map_eq_nil in H. exact (split_not_nil _ _ H).
  - apply Forall_map. eapply Forall_impl; [apply split_tokens_no_plus|].
    intros t Ht. cbn. apply parse_part_no_plus. rewrite no_plus_lower. exact Ht.
Qed.

Lemma format_key_combo_tokens s :
  split "+" (format_key_combo s) = map format_part (split "+" s).
Proof.
  unfold format_key_combo. apply split_join.
  - intros H. apply map_eq_nil in H. exact (split_not_nil _ _ H).
  - apply Forall_map. eapply Forall_impl; [apply split_tokens_no_plus|].
    intros t Ht. cbn. apply format_part_no_plus, Ht.
Qed.

Lemma parse_key_combo_join s :
  parse_key_combo s = join "+" (map (fun t => parse_part (lower t)) (split "+" s)).
Proof. unfold parse_key_combo. rewrite split_lower, map_map. reflexivity. Qed.

(** X12. Both conversions work token by token: the tokens of the
    result are the conversions of the tokens of the input, in the
    same order; neither conversion adds, drops or merges a token. *)
Theorem conversions_are_tokenwise (s : string) :
  split "+" (parse_key_combo s) = map (fun t => parse_part (lower t)) (split "+" s) /\
  split "+" (format_key_combo s) = map format_part (split "+" s) /\
  length (split "+" (parse_key_combo s)) = length (split "+" s) /\
  length (split "+" (format_key_combo s)) = length (split "+" s).
Proof.
  rewrite parse_key_combo_tokens, format_key_combo_tokens, !length_map.
  repeat split.
Qed.

(** X13. On ASCII text [parse_key_combo] does not look at the case
    of what the user typed: the text, the text in lower case and
    the text in upper case parse to the same combination. *)
Theorem parse_key_combo_ignores_case (s : string) :
  isascii s = true ->
  parse_key_combo (lower s) = parse_key_combo s /\
  parse_key_combo (upper s) = parse_key_combo s.
Proof.
  intros _. unfold parse_key_combo. rewrite lower_idem, lower_upper.
  split; reflexivity.
Qed.

Lemma parse_key_combo_ignores_case_witness :
  parse_key_combo "ctrl+alt+f5" = parse_key_combo "cTRL+Alt+f5" /\
  parse_key_combo "CTRL+ALT+F5" = parse_key_combo "cTRL+Alt+f5".
Proof. apply (parse_key_combo_ignores_case "cTRL+Alt+f5"). reflexivity. Defined.

(** ** Named keys *)

Lemma get_key_map_None part :
  part <> "ctrl" -> part <> "control" -> part <> "alt" -> part <> "shift" ->
  part <> "super" -> part <> "win" -> part <> "cmd" ->
  PyDict.get part key_map = None.
Proof.
  intros. unfold key_map. cbn [PyDict.get].
  repeat match goal with
         | |- context [String.eqb ?a part] =>
             destruct (String.eqb_spec a part) as [E|_]; [congruence|]
         end.
  reflexivity.
Qed.

Lemma not_modifier_lower key :
  canonical_modifier key = None ->
  PyDict.get (lower key) key_map = None /\ lower key <> "cmd".
Proof.
  unfold canonical_modifier. cbn zeta.
  repeat match goal with
         | |- context [String.eqb (lower key) ?a] =>
             destruct (String.eqb_spec (lower key) a) as [E|?]
         end; cbn; try discriminate.
  intros _. split; [apply get_key_map_None; assumption | assumption].
Qed.

Lemma named_key_parsed key :
  named_key key = true ->
  no_plus (lower key) = true /\
  parse_part (lower key) = "<" ++ lower key ++ ">".
Proof.
  unfold named_key. intros H.
  apply andb_prop in H as [H Hm]. apply andb_prop in H as [Hlen Hp].
  destruct (canonical_modifier key) eqn:Hc; [discriminate|].
  apply not_modifier_lower in Hc as [Hget _].
  assert (Hpl : all_chars plain_char (lower key) = true).
  { unfold lower. rewrite all_chars_map; [exact Hp | apply plain_char_lower]. }
  split.
  { apply (all_chars_impl _ _ _ plain_char_not_plus Hpl). }
  unfold parse_part. cbn zeta. unfold strip.
  rewrite strip_by_id by apply (all_chars_impl _ _ _ plain_char_not_space Hpl).
  rewrite Hget.
  assert (Hl : (String.length (lower key) =? 1)%nat = false).
  { unfold lower. rewrite length_map_chars.
    apply Nat.leb_le in Hlen. apply Nat.eqb_neq. lia. }
  rewrite Hl. destruct (_ && _); reflexivity.
Qed.

Lemma format_part_angles part :
  all_chars plain_char part = true -> part <> "" ->
  strip_chars "<>" ("<" ++ part ++ ">") = part.
Proof.
  intros Hp Hne.
  assert (Hd : all_chars (fun c => negb (mem_char c "<>")) part = true)
    by apply (all_chars_impl _ _ _ plain_char_not_angle Hp).
  unfold strip_chars, strip_by.
  change ("<" ++ part ++ ">") with (String "<" (part ++ ">")).
  cbn [lstrip_by]. change (mem_char "<" "<>") with true. cbv iota.
  destruct part as [|c part]; [congruence|].
  change (String c part ++ ">") with (String c (part ++ ">")).
  cbn [lstrip_by]. cbn [all_chars] in Hd.
  pose proof Hd as Hd'. apply andb_prop in Hd' as [Hc _].
  apply negb_true_iff in Hc. rewrite Hc.
  change (String c (part ++ ">")) with (String c part ++ ">").
  apply rstrip_by_app_dropped; [exact Hd | reflexivity].
Qed.

Lemma named_key_token_ok key :
  named_key key = true -> token_ok key (capitalize key).
Proof.
  intros H. destruct (named_key_parsed key H) as [Hnp Hparse].
  unfold token_ok. rewrite Hparse.
  split; [exact Hnp|]. split; [apply no_plus_angles, Hnp|].
  unfold named_key in H.
  apply andb_prop in H as [H Hm]. apply andb_prop in H as [Hlen Hp].
  destruct (canonical_modifier key) eqn:Hc; [discriminate|].
  apply not_modifier_lower in Hc as [_ Hcmd].
  unfold format_part. cbn zeta.
  rewrite format_part_angles.
  - rewrite capitalize_lower.
    destruct (String.eqb_spec (capitalize key) "Cmd") as [E|_]; [|reflexivity].
    exfalso. apply Hcmd. rewrite <- (lower_capitalize key), E. reflexivity.
  - unfold lower. rewrite all_chars_map; [exact Hp | apply plain_char_lower].
  - apply Nat.leb_le in Hlen. destruct key; cbn in *; [lia | discriminate].
Qed.

(** X14. A combination of modifier aliases followed by a named key --
    a function key, [space], [page_down] and the like: two ASCII
    characters or more, none of them white space, ['+'], ['<'] or
    ['>'] -- goes through [parse_key_combo] and then
    [format_key_combo] to the canonical modifiers followed by the
    name, its first character upper-cased and the others lower-cased;
    parsed, the key stands between angle brackets. *)
Theorem named_key_round_trip (mods names : list string) (key : string) :
  Forall2 (fun m n => canonical_modifier m = Some n) mods names ->
  named_key key = true ->
  parse_part (lower key) = "<" ++ lower key ++ ">" /\
  format_key_combo (parse_key_combo (join "+" (mods ++ [key])))
  = join "+" (names ++ [capitalize key]).
Proof.
  intros Hmods Hkey. split; [apply named_key_parsed, Hkey|].
  apply format_parse_tokens.
  - destruct mods; discriminate.
  - apply Forall2_app.
    + eapply Forall2_impl; [exact Hmods|]. intros m n. apply modifier_token_ok.
    + constructor; [|constructor]. apply named_key_token_ok, Hkey.
Qed.

Lemma named_key_round_trip_witness :
  format_key_combo (parse_key_combo "ctrl+SHIFT+f5") = "Ctrl+Shift+F5" /\
  format_key_combo (parse_key_combo "Page_Down") = "Page_down".
Proof.
  split.
  - apply (named_key_round_trip ["ctrl"; "SHIFT"] ["Ctrl"; "Shift"] "f5");
      [repeat constructor | reflexivity].
  - apply (named_key_round_trip [] [] "Page_Down"); [constructor | reflexivity].
Defined.

(** ** Parsing what was formatted, and parsing twice *)

Lemma modifier_reparsed m n :
  canonical_modifier m = Some n ->
  no_plus m = true /\
  parse_part (lower (format_part (parse_part (lower m)))) = parse_part (lower m) /\
  parse_part (lower (parse_part (lower m))) = "<" ++ parse_part (lower m) ++ ">" /\
  parse_part (lower (parse_part (lower m))) <> parse_part (lower m).
Proof.
  unfold canonical_modifier. cbn zeta. rewrite <- (no_plus_lower m).
  repeat match goal with
         | |- context [String.eqb (lower m) ?a] =>
             destruct (String.eqb_spec (lower m) a) as [->|_]
         end; cbn [orb]; intros [= <-];
    (split; [reflexivity|]; split; [reflexivity|]; split; [reflexivity|]);
    discriminate.
Qed.

Lemma key_char_token_ok c :
  key_char c = true -> token_ok (String c "") (canonical_key c).
Proof.
  intros H. apply key_token_ok;
    try (intros ->; discriminate H).
  unfold key_char in H. apply andb_prop in H as [H _]. exact H.
Qed.

Lemma key_token_cases key :
  key_token key = true ->
  named_key key = true \/ exists c, key = String c "" /\ key_char c = true.
Proof.
  unfold key_token. intros H. apply orb_prop in H as [H|H]; [auto|].
  right. destruct key as [|c [|d key]]; try discriminate. eauto.
Qed.

Lemma key_token_reparsed key :
  key_token key = true ->
  no_plus key = true /\
  parse_part (lower (format_part (parse_part (lower key)))) = parse_part (lower key).
Proof.
  intros H. apply key_token_cases in H as [H|(c & -> & H)].
  - destruct (named_key_token_ok key H) as (Hnp & _ & Hf).
    rewrite no_plus_lower in Hnp. split; [exact Hnp|].
    rewrite Hf, lower_capitalize. reflexivity.
  - destruct (key_char_token_ok c H) as (Hnp & _ & Hf).
    rewrite no_plus_lower in Hnp. split; [exact Hnp|].
    rewrite Hf. unfold canonical_key.
    change (lower (String (upper_char c) "")) with (String (lower_char (upper_char c)) "").
    rewrite lower_upper_char. reflexivity.
Qed.

Lemma key_token_token_ok key :
  key_token key = true -> token_ok key (capitalize key).
Proof.
  intros H. apply key_token_cases in H as [H|(c & -> & H)].
  - apply named_key_token_ok, H.
  - apply (key_char_token_ok c H).
Qed.

Lemma format_parse_key_token (mods names : list string) (key : string) :
  Forall2 (fun m n => canonical_modifier m = Some n) mods names ->
  key_token key = true ->
  format_key_combo (parse_key_combo (join "+" (mods ++ [key])))
  = join "+" (names ++ [capitalize key]).
Proof.
  intros Hmods Hkey. apply format_parse_tokens.
  - destruct mods; discriminate.
  - apply Forall2_app.
    + eapply Forall2_impl; [exact Hmods|]. intros m n. apply modifier_token_ok.
    + constructor; [|constructor]. apply key_token_token_ok, Hkey.
Qed.

Lemma parse_format_parse_combo (mods names : list string) (key : string) :
  Forall2 (fun m n => canonical_modifier m = Some n) mods names ->
  key_token key = true ->
  parse_key_combo (format_key_combo (parse_key_combo (join "+" (mods ++ [key]))))
  = parse_key_combo (join "+" (mods ++ [key])).
Proof.
  intros Hmods Hkey.
  rewrite (parse_key_combo_join (format_key_combo _)).
  rewrite format_key_combo_tokens, parse_key_combo_tokens.
  rewrite (parse_key_combo_join (join _ _)).
  rewrite split_join.
  - f_equal. rewrite !map_map. rewrite !map_app. f_equal.
    + clear Hkey. induction Hmods as [|m n ms ns Hm _ IH]; [reflexivity|].
      cbn [map]. rewrite IH. f_equal.
      apply (modifier_reparsed m n Hm).
    + cbn [map]. f_equal. apply (key_token_reparsed key Hkey).
  - destruct mods; discriminate.
  - apply Forall_app. split.
    + clear Hkey. induction Hmods as [|m n ms ns Hm _ IH]; constructor; [|exact IH].
      apply (modifier_reparsed m n Hm).
    + constructor; [|constructor]. apply (key_token_reparsed key Hkey).
Qed.

(** X15. What [parse_key_combo] makes of modifier aliases followed by
    a key -- a named key of ASCII characters, or one printable ASCII
    character other than the space, ['+'], ['<'] and ['>'] -- is a
    fixed point of formatting and parsing again: shown by
    [format_key_combo] and typed back unchanged, it parses to
    itself. *)
Theorem parse_format_parse (mods names : list string) (key : string) :
  Forall2 (fun m n => canonical_modifier m = Some n) mods names ->
  key_token key = true ->
  let combo := parse_key_combo (join "+" (mods ++ [key])) in
  parse_key_combo (format_key_combo combo) = combo.
Proof. intros Hmods Hkey. apply (parse_format_parse_combo mods names key Hmods Hkey). Qed.

Lemma parse_format_parse_witness :
  parse_key_combo (format_key_combo (parse_key_combo "Control+alt+F5"))
  = parse_key_combo "Control+alt+F5".
Proof.
  apply (parse_format_parse ["Control"; "alt"] ["Ctrl"; "Alt"] "F5");
    [repeat constructor | reflexivity].
Defined.

Lemma map_eq_at {A B} (f g : A -> B) (l : list A) (a : A) :
  map f l = map g l -> a ∈ l -> f a = g a.
Proof.
  induction l as [|b l IH]; cbn; intros H Ha; [inversion Ha|].
  injection H as Hb Hl. apply elem_of_cons in Ha as [->|Ha]; auto.
Qed.

Lemma parse_twice_wraps (s m n : string) :
  m ∈ split "+" s ->
  canonical_modifier m = Some n ->
  "<" ++ parse_part (lower m) ++ ">" ∈ split "+" (parse_key_combo (parse_key_combo s)) /\
  parse_key_combo (parse_key_combo s) <> parse_key_combo s.
Proof.
  intros Hin Hm.
  destruct (modifier_reparsed m n Hm) as (_ & _ & Hw & Hne).
  assert (Hs : split "+" (parse_key_combo (parse_key_combo s)) =
               map (fun t => parse_part (lower (parse_part (lower t)))) (split "+" s)).
  { rewrite !parse_key_combo_tokens, map_map. reflexivity. }
  split.
  - rewrite Hs, <- Hw.
    apply (list_elem_of_fmap_2 (fun t => parse_part (lower (parse_part (lower t))))).
    exact Hin.
  - intros E. apply Hne.
    apply (f_equal (split "+")) in E. rewrite Hs, parse_key_combo_tokens in E.
    exact (map_eq_at _ _ _ _ E Hin).
Qed.

(** X16. [parse_key_combo] is not idempotent: parsing a combination
    that is already parsed wraps every modifier in a second pair of
    angle brackets. A combination with a modifier alias among its
    tokens therefore changes when it is parsed a second time. *)
Theorem parse_twice_wraps_modifiers (s m n : string) :
  m ∈ split "+" s ->
  canonical_modifier m = Some n ->
  "<" ++ parse_part (lower m) ++ ">" ∈ split "+" (parse_key_combo (parse_key_combo s)) /\
  parse_key_combo (parse_key_combo s) <> parse_key_combo s.
Proof. apply parse_twice_wraps. Qed.

Lemma parse_twice_wraps_modifiers_witness :
  "<<ctrl>>" ∈ split "+" (parse_key_combo (parse_key_combo "Ctrl+1")) /\
  parse_key_combo (parse_key_combo "Ctrl+1") <> parse_key_combo "Ctrl+1".
Proof.
  apply (parse_twice_wraps_modifiers "Ctrl+1" "Ctrl" "Ctrl");
    [left | reflexivity].
Defined.

Example parse_twice_ctrl_1 :
  parse_key_combo (parse_key_combo "Ctrl+1") = "<<ctrl>>+1".
Proof. reflexivity. Qed.

(** ** What is parsed is never empty *)

Lemma parse_part_nonempty part : parse_part part <> "".
Proof.
  unfold parse_part. cbn zeta.
  destruct (PyDict.get (strip part) key_map) as [key|] eqn:Hk.
  - apply get_Some_elem_of in Hk.
    assert (Hall : Forall (fun e => snd e <> "") key_map)
      by (repeat constructor; discriminate).
    rewrite Forall_forall in Hall. exact (Hall _ Hk).
  - destruct (String.length (strip part) =? 1)%nat eqn:Hl.
    + destruct (strip part); [discriminate Hl | discriminate].
    + destruct (_ && _); discriminate.
Qed.

Lemma join_nonempty (t : string) (l : list string) : t <> "" -> join "+" (t :: l) <> "".
Proof.
  intros Ht. destruct l as [|u l]; [exact Ht|].
  rewrite join_cons. destruct t; [congruence | discriminate].
Qed.

Lemma parse_key_combo_nonempty s : parse_key_combo s <> "".
Proof.
  unfold parse_key_combo.
  destruct (split "+" (lower s)) as [|t l] eqn:E;
    [exfalso; exact (split_not_nil _ _ E)|].
  cbn [map]. apply join_nonempty, parse_part_nonempty.
Qed.

(** ** The canonical text has no white space *)

Lemma plain_char_upper c : plain_char (upper_char c) = plain_char c.
Proof. by_char c; reflexivity. Qed.

Lemma all_chars_join p (l : list string) :
  p "+"%char = true -> Forall (fun t => all_chars p t = true) l ->
  all_chars p (join "+" l) = true.
Proof.
  intros Hp. induction l as [|t [|u l] IH]; intros H.
  - reflexivity.
  - inversion H; assumption.
  - rewrite join_cons. inversion H as [|? ? Ht Hl]; subst.
    rewrite all_chars_app, Ht.
    change ("+" ++ join "+" (u :: l)) with (String "+" (join "+" (u :: l))).
    cbn [all_chars]. rewrite Hp, (IH Hl). reflexivity.
Qed.

Lemma canonical_modifier_no_ws m n :
  canonical_modifier m = Some n -> no_ws n = true.
Proof.
  unfold canonical_modifier. cbn zeta.
  repeat match goal with
         | |- context [String.eqb (lower m) ?a] => destruct (String.eqb (lower m) a)
         end; cbn [orb]; intros [= <-]; reflexivity.
Qed.

Lemma key_token_plain key :
  key_token key = true -> all_chars plain_char key = true /\ key <> "".
Proof.
  intros H. apply key_token_cases in H as [H|(c & -> & H)].
  - unfold named_key in H.
    apply andb_prop in H as [H _]. apply andb_prop in H as [Hlen Hp].
    split; [exact Hp|]. apply Nat.leb_le in Hlen.
    destruct key; [cbn in Hlen; lia | discriminate].
  - unfold key_char in H. apply andb_prop in H as [_ H].
    split; [|discriminate]. cbn. rewrite H. reflexivity.
Qed.

Lemma no_ws_capitalize key :
  all_chars plain_char key = true -> no_ws (capitalize key) = true.
Proof.
  intros H. apply (all_chars_impl plain_char _ _ plain_char_not_space).
  destruct key as [|c key]; [reflexivity|].
  cbn [capitalize all_chars] in *. apply andb_prop in H as [Hc Hk].
  rewrite plain_char_upper, Hc. unfold lower.
  rewrite all_chars_map; [exact Hk | apply plain_char_lower].
Qed.

(** The text [format_key_combo] shows for a parsed combination of
    modifiers and a key is not empty and has no white space around
    it. *)
Lemma canonical_text_stripped (names : list string) (key : string) :
  Forall (fun n => no_ws n = true) names ->
  key_token key = true ->
  let shown := join "+" (names ++ [capitalize key]) in
  strip shown = shown /\ shown <> "".
Proof.
  intros Hn Hk. cbn zeta. destruct (key_token_plain key Hk) as [Hp Hne].
  split.
  - apply strip_by_id. apply all_chars_join; [reflexivity|].
    apply Forall_app. split; [exact Hn|].
    constructor; [|constructor]. apply no_ws_capitalize, Hp.
  - destruct names as [|n names]; cbn [app].
    + destruct key; [congruence | discriminate].
    + destruct (names ++ [capitalize key])%list as [|u l] eqn:E.
      * destruct names; discriminate.
      * rewrite join_cons. destruct n; discriminate.
Qed.

End ComboLaws.

(* ===================================================================== *)
(** * Properties of the panel registry *)
(* ===================================================================== *)

Section MainWindowFacts.
Import HotkeyManager MainWindow.
Variable accepts : PyDict.t (wrapper Callback) -> bool.

Lemma count_take_first_same w l :
  count_items w (take_first_item w l) = pred (count_items w l).
Proof.
  unfold count_items.
  induction l as [|item l IH]; [reflexivity|].
  cbn [take_first_item List.filter].
  destruct (String.eqb (data item) w) eqn:Heq; [reflexivity|].
  cbn [List.filter]. rewrite Heq. exact IH.
Qed.

Lemma count_take_first_other w w' l :
  w' <> w -> count_items w' (take_first_item w l) = count_items w' l.
Proof.
  unfold count_items. intros Hne.
  induction l as [|item l IH]; [reflexivity|].
  cbn [take_first_item List.filter].
  destruct (String.eqb_spec (data item) w) as [Heq|Hd].
  - destruct (String.eqb_spec (data item) w') as [Heq'|_]; [congruence|reflexivity].
  - cbn [List.filter]. destruct (String.eqb (data item) w'); cbn [length];
      rewrite IH; reflexivity.
Qed.

Lemma unregister_hotkeys name (hm : HotkeyManager.t Callback) :
  hotkeys (snd (unregister_hotkey accepts name hm)) = PyDict.del name (hotkeys hm).
Proof.
  unfold unregister_hotkey, PyDict.contains.
  destruct (PyDict.get name (hotkeys hm)) eqn:Hget; cbn [snd].
  - apply restart_listener_hotkeys.
  - symmetry. apply del_absent, Hget.
Qed.

Lemma unregister_absent name (hm : HotkeyManager.t Callback) :
  PyDict.get name (hotkeys hm) = None ->
  unregister_hotkey accepts name hm = (false, hm).
Proof. unfold unregister_hotkey, PyDict.contains. intros ->. reflexivity. Qed.

(** C9. Let [w] be the identifier of a live panel. The first run of
    the panel-closed handler for [w] removes the binding
    [preview_w] from the registry of hotkeys when there is one (and
    leaves that registry as it is when there is none), removes [w]
    from the registry of live panels, and takes one item for [w] out
    of the previews list (the only one, when each live panel has one
    item); nothing else changes. A second run for the
    same [w] changes nothing at all, and so does a second close event
    delivered to the panel. *)
Theorem panel_closed_cleanup_once (s : MainWindow.t) (w : string)
        (frame : PreviewFrame.t) :
  PyDict.get w (preview_frames s) = Some frame ->
  PreviewFrame.window_id frame = w ->
  let s1 := _on_preview_closed accepts w s in
  let hm := hotkey_manager s in
  let hm1 := hotkey_manager s1 in
  (PyDict.get (hk_name_of w) (hotkeys hm1) = None /\
   (forall name, name <> hk_name_of w ->
                 PyDict.get name (hotkeys hm1) = PyDict.get name (hotkeys hm)) /\
   (PyDict.get (hk_name_of w) (hotkeys hm) = None -> hm1 = hm)) /\
  (PyDict.contains w (preview_frames s1) = false /\
   forall w', w' <> w ->
              PyDict.get w' (preview_frames s1) = PyDict.get w' (preview_frames s)) /\
  (count_items w (previews_list s1) = pred (count_items w (previews_list s)) /\
   (count_items w (previews_list s) = 1%nat ->
    count_items w (previews_list s1) = 0%nat) /\
   forall w', w' <> w ->
              count_items w' (previews_list s1) = count_items w' (previews_list s)) /\
  _on_preview_closed accepts w s1 = s1 /\
  (let '(frame1, t1) := close_panel accepts frame s in
   let '(frame2, t2) := close_panel accepts frame1 t1 in
   t1 = s1 /\ t2 = s1).
Proof.
  intros Hget Hwid. cbv zeta.
  assert (Hin : PyDict.contains w (preview_frames s) = true)
    by (unfold PyDict.contains; rewrite Hget; reflexivity).
  assert (Hs1 : _on_preview_closed accepts w s =
                {| hotkey_manager :=
                     snd (unregister_hotkey accepts (hk_name_of w) (hotkey_manager s));
                   preview_frames := PyDict.del w (preview_frames s);
                   previews_list := take_first_item w (previews_list s) |})
    by (unfold _on_preview_closed; rewrite Hin; reflexivity).
  assert (Hidem : _on_preview_closed accepts w (_on_preview_closed accepts w s)
                  = _on_preview_closed accepts w s).
  { rewrite Hs1. unfold _on_preview_closed at 1. cbn [preview_frames].
    rewrite contains_del. reflexivity. }
  split; [|split; [|split; [|split]]].
  - rewrite Hs1. cbn [hotkey_manager]. rewrite unregister_hotkeys.
    split; [|split].
    + rewrite get_del, String.eqb_refl. reflexivity.
    + intros name Hne. rewrite get_del.
      destruct (String.eqb_spec (hk_name_of w) name); [congruence|reflexivity].
    + intros Habs. rewrite (unregister_absent _ _ Habs). reflexivity.
  - rewrite Hs1. cbn [preview_frames]. split; [apply contains_del|].
    intros w' Hne. rewrite get_del.
    destruct (String.eqb_spec w w'); [congruence|reflexivity].
  - rewrite Hs1. cbn [previews_list].
    split; [apply count_take_first_same|]. split.
    + intros Hone. rewrite count_take_first_same, Hone. reflexivity.
    + intros w' Hne. apply count_take_first_other, Hne.
  - exact Hidem.
  - unfold close_panel, PreviewFrame.closeEvent. cbn [fold_left on_signal].
    cbn [PreviewFrame.stop_preview PreviewFrame.window_id].
    rewrite Hwid. split; [reflexivity|exact Hidem].
Qed.

End MainWindowFacts.

Section MainWindowDemo.
Import HotkeyManager MainWindow.
Local Open Scope string_scope.

Lemma panel_closed_cleanup_once_witness :
  let s1 := _on_preview_closed accepts_all "0x1" one_panel in
  PyDict.get "0x1" (preview_frames one_panel) = Some pilot_frame /\
  PyDict.get "preview_0x1" (hotkeys (hotkey_manager one_panel))
  = Some {| combo := "<ctrl>+1"; callback := activate_callback "0x1" |} /\
  PyDict.get "preview_0x1" (hotkeys (hotkey_manager s1)) = None /\
  PyDict.contains "0x1" (preview_frames s1) = false /\
  _on_preview_closed accepts_all "0x1" s1 = s1.
Proof.
  cbv zeta.
  assert (Hget : PyDict.get "0x1" (preview_frames one_panel) = Some pilot_frame)
    by reflexivity.
  pose proof (panel_closed_cleanup_once accepts_all one_panel "0x1" pilot_frame
                Hget eq_refl) as ((Hhk & _) & (Hpf & _) & _ & Hidem & _).
  split; [exact Hget|]. split; [reflexivity|]. auto.
Defined.

End MainWindowDemo.

(* ===================================================================== *)
(** * Sessions of the main window *)
(* ===================================================================== *)

Section PanelStrings.
Import PyStr.
Local Open Scope string_scope.

Lemma string_app_assoc (a b c : string) : (a ++ b) ++ c = a ++ (b ++ c).
Proof.
  induction a as [|x a IH]; [reflexivity|].
  change (String x ((a ++ b) ++ c) = String x (a ++ (b ++ c))).
  rewrite IH. reflexivity.
Qed.

Lemma split_app_at sep (a b : string) :
  all_chars (fun c => negb (Ascii.eqb c sep)) a = true ->
  split sep (a ++ String sep b) = a :: split sep b.
Proof.
  induction a as [|c a IH]; cbn [all_chars].
  - intros _. change ("" ++ String sep b) with (String sep b).
    cbn [split]. rewrite Ascii.eqb_refl. reflexivity.
  - intros H. apply andb_prop in H as [Hc Ha].
    apply negb_true_iff in Hc.
    change (String c a ++ String sep b) with (String c (a ++ String sep b)).
    cbn [split]. rewrite Hc, (IH Ha). reflexivity.
Qed.

Lemma length_lstrip_by drop s :
  (String.length (lstrip_by drop s) <= String.length s)%nat.
Proof.
  induction s as [|c s IH]; cbn [lstrip_by]; [lia|].
  destruct (drop c); cbn [String.length]; lia.
Qed.

Lemma length_rstrip_by drop s :
  (String.length (rstrip_by drop s) <= String.length s)%nat.
Proof.
  induction s as [|c s IH]; cbn [rstrip_by]; [lia|].
  destruct (rstrip_by drop s); [destruct (drop c)|]; cbn [String.length] in *; lia.
Qed.

Lemma rstrip_by_app_drop drop s c :
  drop c = true -> rstrip_by drop (s ++ String c "") = rstrip_by drop s.
Proof.
  intros Hc. induction s as [|a s IH].
  - change ("" ++ String c "") with (String c ""). cbn [rstrip_by].
    rewrite Hc. reflexivity.
  - change (String a s ++ String c "") with (String a (s ++ String c "")).
    cbn [rstrip_by]. rewrite IH. reflexivity.
Qed.

(** A stripped string followed by one space strips to itself. *)
Lemma strip_app_space s : strip s = s -> strip (s ++ " ") = s.
Proof.
  unfold strip, strip_by. intros H.
  destruct s as [|c s]; [reflexivity|].
  destruct (is_space c) eqn:Hc.
  - exfalso. cbn [lstrip_by] in H. rewrite Hc in H.
    apply (f_equal String.length) in H. cbn [String.length] in H.
    pose proof (length_rstrip_by is_space (lstrip_by is_space s)).
    pose proof (length_lstrip_by is_space s). lia.
  - cbn [lstrip_by] in H. rewrite Hc in H.
    change (String c s ++ " ") with (String c (s ++ " ")).
    cbn [lstrip_by]. rewrite Hc.
    change (String c (s ++ " ")) with (String c s ++ " ").
    rewrite rstrip_by_app_drop by reflexivity. exact H.
Qed.

End PanelStrings.

Section PanelFacts.
Import HotkeyManager MainWindow.
Local Open Scope string_scope.
Variable accepts : PyDict.t (wrapper Callback) -> bool.
Implicit Types (s : MainWindow.t) (w : string).

Lemma contains_set {V} (d : PyDict.t V) k k' (v : V) :
  PyDict.contains k (PyDict.set k' v d) =
  if String.eqb k' k then true else PyDict.contains k d.
Proof.
  unfold PyDict.contains. rewrite get_set.
  destruct (String.eqb k' k); reflexivity.
Qed.

Lemma contains_del_other {V} (d : PyDict.t V) k k' :
  PyDict.contains k (PyDict.del k' d) =
  if String.eqb k' k then false else PyDict.contains k d.
Proof.
  unfold PyDict.contains. rewrite get_del.
  destruct (String.eqb k' k); reflexivity.
Qed.

Lemma count_items_snoc w l item :
  count_items w (l ++ [item]) =
  (count_items w l + if String.eqb (data item) w then 1 else 0)%nat.
Proof.
  unfold count_items. rewrite List.filter_app, length_app. cbn [List.filter].
  destruct (String.eqb (data item) w); reflexivity.
Qed.

Lemma count_items_elem_of l item :
  item ∈ l -> count_items (data item) l <> 0%nat.
Proof.
  unfold count_items. intros Hin.
  assert (H : In item (List.filter (fun i => String.eqb (data i) (data item)) l)).
  { apply List.filter_In. split; [apply list_elem_of_In, Hin|].
    apply String.eqb_refl. }
  destruct (List.filter _ l); [destruct H | discriminate].
Qed.

Lemma close_panel_handler frame s :
  snd (close_panel accepts frame s)
  = _on_preview_closed accepts (PreviewFrame.window_id frame) s.
Proof. reflexivity. Qed.

Lemma on_preview_closed_agree w s :
  registries_agree s -> registries_agree (_on_preview_closed accepts w s).
Proof.
  intros (Hnd & Hid & Hcount & Hhk). unfold _on_preview_closed.
  destruct (PyDict.contains w (preview_frames s)) eqn:Hc;
    [|exact (conj Hnd (conj Hid (conj Hcount Hhk)))].
  unfold registries_agree. cbn [preview_frames previews_list hotkey_manager].
  split; [apply keys_del_NoDup, Hnd|].
  split.
  { intros w' frame. rewrite get_del.
    destruct (String.eqb w w'); [discriminate|]. apply Hid. }
  split.
  { intros w'. rewrite contains_del_other.
    destruct (String.eqb_spec w w') as [<-|Hne].
    - rewrite count_take_first_same, Hcount, Hc. reflexivity.
    - rewrite count_take_first_other by congruence. apply Hcount. }
  intros name. rewrite unregister_hotkeys, keys_del_elem_of.
  intros [Hne Hin]. destruct (Hhk _ Hin) as (w' & -> & Hw').
  exists w'. split; [reflexivity|].
  rewrite contains_del_other.
  destruct (String.eqb_spec w w') as [<-|_]; [congruence | exact Hw'].
Qed.

Lemma create_preview_agree w title rate s :
  PyDict.contains w (preview_frames s) = false ->
  registries_agree s -> registries_agree (_create_preview w title rate s).
Proof.
  intros Hc (Hnd & Hid & Hcount & Hhk).
  unfold registries_agree, _create_preview.
  cbn [preview_frames previews_list hotkey_manager].
  split; [apply keys_set_NoDup, Hnd|].
  split.
  { intros w' frame. rewrite get_set.
    destruct (String.eqb_spec w w') as [<-|_]; [|apply Hid].
    intros [= <-]. reflexivity. }
  split.
  { intros w'. rewrite count_items_snoc, contains_set. cbn [data].
    rewrite Hcount.
    destruct (String.eqb_spec w w') as [<-|_].
    - rewrite Hc. reflexivity.
    - destruct (PyDict.contains w' (preview_frames s)); reflexivity. }
  intros name Hin. destruct (Hhk _ Hin) as (w' & -> & Hw').
  exists w'. split; [reflexivity|]. rewrite contains_set, Hw'.
  destruct (String.eqb w w'); reflexivity.
Qed.

Lemma register_preview_hotkey_agree w combo s :
  PyDict.contains w (preview_frames s) = true ->
  registries_agree s -> registries_agree (_register_preview_hotkey accepts w combo s).
Proof.
  intros Hc (Hnd & Hid & Hcount & Hhk).
  unfold registries_agree, _register_preview_hotkey.
  cbn [preview_frames previews_list hotkey_manager].
  split; [exact Hnd|]. split; [exact Hid|]. split; [exact Hcount|].
  intros name. unfold register_hotkey. cbn [snd].
  rewrite restart_listener_hotkeys. cbn [hotkeys].
  rewrite keys_set_elem_of. intros [->|Hin]; [eauto | apply Hhk, Hin].
Qed.

Lemma ui_step_agree o s :
  registries_agree s -> registries_agree (ui_step accepts o s).
Proof.
  intros H. destruct o as [item rate|row dialog|row|w]; cbn [ui_step].
  - unfold _add_selected_window.
    destruct (PyDict.contains (data item) (preview_frames s)) eqn:Hc; [exact H|].
    apply create_preview_agree; assumption.
  - unfold _edit_preview_hotkey.
    destruct (previews_list s !! row) as [item|] eqn:Hrow; [|exact H].
    destruct (dialog _) as [typed|]; [|exact H].
    destruct (String.eqb _ ""); [exact H|].
    apply register_preview_hotkey_agree; [|exact H].
    destruct H as (_ & _ & Hcount & _).
    apply list_elem_of_lookup_2, count_items_elem_of in Hrow.
    rewrite Hcount in Hrow.
    destruct (PyDict.contains (data item) (preview_frames s)); congruence.
  - unfold _remove_selected_preview.
    destruct (previews_list s !! row) as [item|]; [|exact H].
    destruct (PyDict.get (data item) (preview_frames s)); [|exact H].
    rewrite close_panel_handler. apply on_preview_closed_agree, H.
  - destruct (PyDict.get w (preview_frames s)); [|exact H].
    rewrite close_panel_handler. apply on_preview_closed_agree, H.
Qed.

(** X25. Whatever windows the user adds, whatever hotkeys they edit
    and whatever panels they remove or close, in any order: the live
    panels have distinct identifiers, each is stored under its own
    identifier and has exactly one item in the previews list, an
    identifier without live panel has no item, and every registered
    hotkey is named after a live panel -- no binding outlives its
    panel. *)
Theorem ui_session_registries_agree (ops : list ui_op) :
  registries_agree (ui_session accepts ops).
Proof.
  unfold ui_session.
  induction ops as [|o ops IH] using rev_ind.
  - cbn. unfold registries_agree. cbn.
    split; [apply NoDup_nil_2|]. split; [discriminate|].
    split; [reflexivity|]. intros name H. inversion H.
  - rewrite fold_left_app. cbn [fold_left]. apply ui_step_agree, IH.
Qed.

Lemma refresh_window_list_elem_of windows wid title :
  (wid, title) ∈ windows -> own_window title = false ->
  window_item wid title ∈ _refresh_window_list windows.
Proof.
  intros Hin Hown. induction windows as [|[wid' title'] windows IH];
    [inversion Hin|].
  cbn [_refresh_window_list].
  apply elem_of_cons in Hin as [[= <- <-]|Hin].
  - rewrite Hown. left.
  - destruct (own_window title'); [auto | right; auto].
Qed.

Lemma refresh_window_list_foreign windows item :
  item ∈ _refresh_window_list windows ->
  exists wid title, (wid, title) ∈ windows /\ own_window title = false /\
                    item = window_item wid title.
Proof.
  induction windows as [|[wid title] windows IH]; cbn [_refresh_window_list];
    [intros H; inversion H|].
  destruct (own_window title) eqn:Hown.
  - intros H. destruct (IH H) as (w & t & Hin & Ho & E).
    exists w, t. split; [right; exact Hin | auto].
  - intros H. apply elem_of_cons in H as [->|H].
    + exists wid, title. split; [left | auto].
    + destruct (IH H) as (w & t & Hin & Ho & E).
      exists w, t. split; [right; exact Hin | auto].
Qed.

Lemma title_of_window_item wid title :
  PyStr.all_chars (fun c => negb (Ascii.eqb c "[")) title = true ->
  PyStr.strip title = title ->
  title_of_item (window_item wid title) = title.
Proof.
  intros Hb Hs. unfold title_of_item, window_item. cbn [text].
  change (title ++ " [" ++ wid ++ "]") with (title ++ " " ++ String "[" (wid ++ "]")).
  rewrite <- string_app_assoc, split_app_at.
  - cbn [hd]. apply strip_app_space, Hs.
  - rewrite all_chars_app, Hb. reflexivity.
Qed.

(** X26. The window list offers the windows whose title holds
    neither [EVE Overview] nor [Preview], each as one item, and
    nothing else. Adding an offered window whose title is ASCII text
    without ['['] and without white space around it, and which has
    no live panel yet, stores a new panel last among the live
    panels, under the identifier of the window, with the very title
    of the window, at the clamped rate and with its timer started;
    it puts the item of the window last in the previews list and
    leaves the hotkeys alone. Adding a window that has a live panel
    changes nothing. *)
Theorem offered_window_adds_titled_panel (windows : list (string * string)) :
  (forall item,
     item ∈ _refresh_window_list windows <->
     exists wid title, (wid, title) ∈ windows /\ own_window title = false /\
                       item = window_item wid title) /\
  (forall (wid title : string) (refresh_rate : Z) (s : MainWindow.t),
     PyStr.isascii title = true ->
     PyStr.all_chars (fun c => negb (Ascii.eqb c "[")) title = true ->
     PyStr.strip title = title ->
     PyDict.contains wid (preview_frames s) = false ->
     let s' := _add_selected_window (Some (window_item wid title)) refresh_rate s in
     exists frame,
       preview_frames s' = (preview_frames s ++ [(wid, frame)])%list /\
       PreviewFrame.window_id frame = wid /\
       PreviewFrame.window_title frame = title /\
       PreviewFrame.refresh_rate frame = py_max int_lt 1 (py_min int_lt 60 refresh_rate) /\
       PreviewFrame.timer_active frame = true /\
       previews_list s' = (previews_list s ++ [window_item wid title])%list /\
       hotkey_manager s' = hotkey_manager s) /\
  (forall (item : QListWidgetItem) (refresh_rate : Z) (s : MainWindow.t),
     PyDict.contains (data item) (preview_frames s) = true ->
     _add_selected_window (Some item) refresh_rate s = s).
Proof.
  split; [|split].
  - intros item. split; [apply refresh_window_list_foreign|].
    intros (wid & title & Hin & Hown & ->).
    apply refresh_window_list_elem_of; assumption.
  - intros wid title rate s _ Hb Hs Hc. cbn zeta.
    unfold _add_selected_window.
    rewrite title_of_window_item by assumption.
    cbn [data window_item]. rewrite Hc.
    unfold _create_preview. cbn [preview_frames previews_list hotkey_manager].
    eexists. split.
    { apply get_app_fresh. unfold PyDict.contains in Hc.
      destruct (PyDict.get wid (preview_frames s)); [discriminate|reflexivity]. }
    repeat split.
  - intros item rate s Hc. unfold _add_selected_window. rewrite Hc. reflexivity.
Qed.

Lemma set_set_same {V} (d : PyDict.t V) k (v v' : V) :
  PyDict.set k v (PyDict.set k v' d) = PyDict.set k v d.
Proof.
  induction d as [|[k0 v0] d IH]; cbn.
  - rewrite String.eqb_refl. reflexivity.
  - destruct (String.eqb k0 k) eqn:E; cbn; rewrite E; [reflexivity|].
    rewrite IH. reflexivity.
Qed.

Lemma register_preview_hotkey_hotkeys w combo s :
  hotkeys (hotkey_manager (_register_preview_hotkey accepts w combo s)) =
  PyDict.set (hk_name_of w)
    {| combo := parse_key_combo combo; callback := activate_callback w |}
    (hotkeys (hotkey_manager s)).
Proof.
  unfold _register_preview_hotkey, register_hotkey. cbn [hotkey_manager snd].
  apply restart_listener_hotkeys.
Qed.

Lemma register_preview_hotkey_current w combo s :
  current_hotkey w (_register_preview_hotkey accepts w combo s)
  = Some (parse_key_combo combo).
Proof.
  unfold current_hotkey.
  rewrite get_hotkeys_get, register_preview_hotkey_hotkeys, get_set, String.eqb_refl.
  reflexivity.
Qed.

(** X27. After a hotkey made of modifier aliases and a key -- a
    named key of ASCII characters, or one printable ASCII character
    other than the space, ['+'], ['<'] and ['>'] -- was registered
    for a panel, the hotkey dialog opens on the canonical
    text of the combination; accepted as it stands, the text is
    parsed to the combination the registry already holds, and the
    bindings are what they were. Rejecting the dialog, or accepting
    it with nothing but white space, changes nothing at all. *)
Theorem edit_hotkey_accept_unchanged
        (s : MainWindow.t) (item : QListWidgetItem)
        (mods names : list string) (key : string)
        (dialog : string -> option string) :
  Forall2 (fun m n => canonical_modifier m = Some n) mods names ->
  key_token key = true ->
  let w := data item in
  let s1 := _register_preview_hotkey accepts w (PyStr.join "+" (mods ++ [key])) s in
  let shown := PyStr.join "+" (names ++ [PyStr.capitalize key]) in
  (dialog shown = Some shown ->
     hotkeys (hotkey_manager (_edit_preview_hotkey accepts (Some item) dialog s1))
     = hotkeys (hotkey_manager s1)) /\
  (dialog shown = None ->
     _edit_preview_hotkey accepts (Some item) dialog s1 = s1) /\
  (forall typed, dialog shown = Some typed -> PyStr.strip typed = "" ->
     _edit_preview_hotkey accepts (Some item) dialog s1 = s1).
Proof.
  intros Hmods Hkey. cbn zeta.
  unfold _edit_preview_hotkey.
  rewrite register_preview_hotkey_current.
  rewrite (format_parse_key_token mods names key Hmods Hkey).
  assert (Hnames : Forall (fun n => PyStr.no_ws n = true) names).
  { clear Hkey. induction Hmods as [|m n ms ns Hm _ IH]; constructor; [|exact IH].
    exact (canonical_modifier_no_ws m n Hm). }
  destruct (canonical_text_stripped names key Hnames Hkey) as [Hstrip Hne].
  split; [|split].
  - intros ->. unfold get_combo. rewrite Hstrip.
    destruct (String.eqb_spec (PyStr.join "+" (names ++ [PyStr.capitalize key])) "")
      as [E|_]; [congruence|].
    rewrite !register_preview_hotkey_hotkeys.
    rewrite <- (format_parse_key_token mods names key Hmods Hkey).
    rewrite (parse_format_parse_combo mods names key Hmods Hkey).
    apply set_set_same.
  - intros ->. reflexivity.
  - intros typed -> Ht. unfold get_combo. rewrite Ht. reflexivity.
Qed.

End PanelFacts.

Section PanelDemo.
Import HotkeyManager MainWindow.
Local Open Scope string_scope.

Lemma offered_window_adds_titled_panel_witness :
  _refresh_window_list
    [("0x1", "EVE - Pilot"); ("0x2", "EVE Overview"); ("0x3", "Preview: EVE - Pilot");
     ("0x4", "EVE [Tranquility] - Pilot")]
  = [window_item "0x1" "EVE - Pilot"; window_item "0x4" "EVE [Tranquility] - Pilot"] /\
  exists frame,
    preview_frames
      (_add_selected_window (Some (window_item "0x1" "EVE - Pilot")) 30 empty_window)
    = [("0x1", frame)] /\
    PreviewFrame.window_title frame = "EVE - Pilot".
Proof.
  split; [reflexivity|].
  destruct (offered_window_adds_titled_panel []) as (_ & H & _).
  destruct (H "0x1" "EVE - Pilot" 30 empty_window eq_refl eq_refl eq_refl eq_refl)
    as (frame & Hf & _ & Ht & _).
  exists frame. split; [exact Hf | exact Ht].
Defined.

Lemma edit_hotkey_accept_unchanged_witness :
  let s1 := _register_preview_hotkey accepts_all "0x1" "control+shift+f5"
              (_create_preview "0x1" "EVE - Pilot" 30 empty_window) in
  hotkeys (hotkey_manager
             (_edit_preview_hotkey accepts_all (Some (window_item "0x1" "EVE - Pilot"))
                (fun shown => Some shown) s1))
  = hotkeys (hotkey_manager s1).
Proof.
  cbn zeta.
  apply (edit_hotkey_accept_unchanged accepts_all
           (_create_preview "0x1" "EVE - Pilot" 30 empty_window)
           (window_item "0x1" "EVE - Pilot")
           ["control"; "shift"] ["Ctrl"; "Shift"] "f5" (fun shown => Some shown));
    [repeat constructor | reflexivity | reflexivity].
Defined.

(** A title with a ['['] is cut there. *)
Example title_with_bracket_is_cut :
  title_of_item (window_item "0x4" "EVE [Tranquility] - Pilot") = "EVE".
Proof. reflexivity. Qed.

End PanelDemo.

(* ===================================================================== *)
(** * Properties of profiles and of the profile store *)
(* ===================================================================== *)

Section ProfileFacts.
Import ConfigManager.
Local Open Scope string_scope.

(** The profile of the component test goes through [to_dict] and
    [from_dict] unchanged. *)
Example test_profile_round_trip : from_dict (to_dict test_profile) = Return test_profile.
Proof. reflexivity. Qed.

Lemma bind_Return {A B} (a : A) (k : A -> result B) : (Return a ≫= k) = k a.
Proof. reflexivity. Qed.

Lemma WindowConfig_of_asdict (w : WindowConfig) :
  WindowConfig_of_kwargs (asdict w) = Return w.
Proof. destruct w. reflexivity. Qed.

Lemma mapM_asdict (ws : list WindowConfig) :
  mapM WindowConfig_of_kwargs (map asdict ws) = Return ws.
Proof.
  induction ws as [|w ws IH]; [reflexivity|].
  cbn [map mapM]. rewrite WindowConfig_of_asdict, IH. reflexivity.
Qed.

Lemma from_dict_to_dict (p : Profile) : from_dict (to_dict p) = Return p.
Proof.
  destruct p as [n ws r a c]. unfold to_dict, from_dict.
  cbn [name windows refresh_rate always_on_top click_through].
  change (get_default "windows" (PList []) _) with (PList (map asdict ws)).
  cbn [py_iter]. rewrite bind_Return, mapM_asdict. reflexivity.
Qed.

(** ** The store *)

Context {content : Type}.
Variable json_dump : pyval -> content.
Variable json_load : content -> result pyval.
Variable format_value : pyval -> string.

Lemma valid_stem_kind (n : string) :
  valid_stem n = true -> path_kind_of (get_profile_path n) = FileName.
Proof.
  unfold valid_stem. destruct (path_kind_of (get_profile_path n)); congruence.
Qed.

(** For a valid stem, loading is reading the file of that name. *)
Lemma load_profile_valid (fs : gmap string content) (n : string) :
  valid_stem n = true ->
  load_profile json_load fs n =
  Return match fs !! get_profile_path n with
         | None => None
         | Some c =>
             match json_load c with
             | Return data =>
                 match from_dict data with
                 | Return p => Some p
                 | Raise _ => None
                 end
             | Raise _ => None
             end
         end.
Proof.
  intros Hn. unfold load_profile, path_exists, open_r.
  rewrite (valid_stem_kind n Hn), bind_Return.
  destruct (fs !! get_profile_path n) as [c|] eqn:Hc.
  - rewrite bool_decide_eq_true_2 by eauto. cbn [negb]. rewrite bind_Return.
    destruct (json_load c) as [data|e]; [|reflexivity].
    rewrite bind_Return.
    destruct (from_dict data) as [p|e]; reflexivity.
  - rewrite bool_decide_eq_false_2 by (intros [c Hc']; discriminate).
    reflexivity.
Qed.

(** For a valid stem, saving is writing the file of that name. *)
Lemma save_profile_valid (fs : gmap string content) (p : Profile) :
  valid_stem (format_value (name p)) = true ->
  save_profile json_dump format_value fs p =
  (true, <[get_profile_path (format_value (name p)) := json_dump (to_dict p)]> fs).
Proof.
  intros Hn. unfold save_profile, open_w.
  rewrite (valid_stem_kind _ Hn). reflexivity.
Qed.

(** [json.load] reads back the document [json.dump] wrote for a
    profile, and a string formats as itself. *)
Hypothesis json_load_dump :
  forall p : Profile, json_load (json_dump (to_dict p)) = Return (to_dict p).
Hypothesis format_value_str : forall s : string, format_value (PStr s) = s.

(** C1. [Profile.from_dict(p.to_dict())] is [p], field for field, for
    every profile [p]; and for every profile [p] whose name is a
    string [n] that is a valid file-name stem -- no ['/'], no NUL,
    and [n.json] within the length of a file name --
    [save_profile(p)] answers [True] and [load_profile(n)] then
    returns a profile equal to [p] in every field: name, windows
    (each with its nine fields), refresh_rate, always_on_top and
    click_through. *)
Theorem profile_round_trip :
  (forall p : Profile, from_dict (to_dict p) = Return p) /\
  (forall (fs : gmap string content) (p : Profile) (n : string),
      name p = PStr n ->
      valid_stem n = true ->
      fst (save_profile json_dump format_value fs p) = true /\
      load_profile json_load (snd (save_profile json_dump format_value fs p)) n
      = Return (Some p)).
Proof.
  split; [exact from_dict_to_dict|].
  intros fs p n Hn Hv.
  rewrite save_profile_valid by (rewrite Hn, format_value_str; exact Hv).
  cbn [fst snd]. split; [reflexivity|].
  rewrite (load_profile_valid _ _ Hv).
  rewrite Hn, format_value_str, lookup_insert_eq, json_load_dump, from_dict_to_dict.
  reflexivity.
Qed.

End ProfileFacts.

Section StoreFacts.
Import ConfigManager.
Local Open Scope string_scope.
Context {content : Type}.
Implicit Types (fs : gmap string content).

(** ** Names and stems *)

Lemma length_app_string (a b : string) :
  String.length (a ++ b) = (String.length a + String.length b)%nat.
Proof.
  induction a as [|c a IH]; [reflexivity|].
  change (String c a ++ b) with (String c (a ++ b)). cbn [String.length].
  rewrite IH. reflexivity.
Qed.

Lemma substring_prefix (a b : string) :
  String.substring 0 (String.length a) (a ++ b) = a.
Proof.
  induction a as [|c a IH]; [destruct b; reflexivity|].
  change (String c a ++ b) with (String c (a ++ b)).
  cbn [String.length String.substring]. rewrite IH. reflexivity.
Qed.

Lemma substring_skip (a b : string) (m : nat) :
  String.substring (String.length a) m (a ++ b) = String.substring 0 m b.
Proof.
  induction a as [|c a IH]; [reflexivity|].
  change (String c a ++ b) with (String c (a ++ b)).
  cbn [String.length String.substring]. exact IH.
Qed.

Lemma endswith_profile_path (n : string) :
  endswith ".json" (get_profile_path n) = true.
Proof.
  unfold endswith, get_profile_path. rewrite length_app_string.
  cbn [String.length]. apply andb_true_intro. split.
  - apply Nat.leb_le. lia.
  - replace (String.length n + 5 - 5)%nat with (String.length n) by lia.
    rewrite substring_skip. reflexivity.
Qed.

Lemma rfind_profile_path (n : string) :
  rfind "." (get_profile_path n) = Some (String.length n).
Proof.
  unfold get_profile_path.
  induction n as [|c n IH]; [reflexivity|].
  change (String c n ++ ".json") with (String c (n ++ ".json")).
  cbn [rfind String.length]. rewrite IH. reflexivity.
Qed.

(** A non-empty profile name is the stem of its file name. *)
Lemma stem_profile_path (n : string) : n <> "" -> stem (get_profile_path n) = n.
Proof.
  intros Hne. unfold stem. rewrite rfind_profile_path.
  assert (Hlen : (0 < String.length n)%nat)
    by (destruct n; [congruence|cbn; lia]).
  unfold get_profile_path at 1. rewrite length_app_string. cbn [String.length].
  replace ((0 <? String.length n)%nat) with true
    by (symmetry; apply Nat.ltb_lt; lia).
  replace ((String.length n <? String.length n + 5 - 1)%nat) with true
    by (symmetry; apply Nat.ltb_lt; lia).
  cbn [andb]. apply substring_prefix.
Qed.

(** ** The glob *)

Lemma glob_json_spec fs (f : string) :
  f ∈ glob_json fs <-> is_Some (fs !! f) /\ endswith ".json" f = true.
Proof.
  unfold glob_json. rewrite list_elem_of_In, List.filter_In, <- list_elem_of_In.
  rewrite list_elem_of_fmap. split.
  - intros [([f' c] & -> & Hin) He]. apply elem_of_map_to_list in Hin.
    cbn in *. eauto.
  - intros [[c Hc] He]. split; [|exact He].
    exists (f, c). split; [reflexivity|]. apply elem_of_map_to_list, Hc.
Qed.

Lemma glob_json_NoDup fs : NoDup (glob_json fs).
Proof.
  unfold glob_json.
  apply NoDup_ListNoDup, List.NoDup_filter, NoDup_ListNoDup, NoDup_fst_map_to_list.
Qed.

(** ** Deleting *)

(** C3. [delete_profile("Default")] answers [False] and leaves the
    directory as it is, whether it holds a [Default.json] or not; for
    every other name whose file exists, [delete_profile] answers
    [True], the file of that profile is gone, and every other file is
    as it was. *)
Theorem delete_profile_protects_default fs :
  delete_profile fs "Default" = (false, fs) /\
  (forall n : string,
      n <> "Default" ->
      is_Some (fs !! get_profile_path n) ->
      fst (delete_profile fs n) = true /\
      snd (delete_profile fs n) = delete (get_profile_path n) fs /\
      snd (delete_profile fs n) !! get_profile_path n = None /\
      (forall f, f <> get_profile_path n ->
                 snd (delete_profile fs n) !! f = fs !! f)).
Proof.
  split; [reflexivity|].
  intros n Hne [c Hc]. unfold delete_profile.
  destruct (String.eqb_spec n "Default") as [|_]; [congruence|].
  rewrite Hc. cbn [fst snd].
  split; [reflexivity|]. split; [reflexivity|].
  split; [apply lookup_delete_eq|].
  intros f Hf. apply lookup_delete_ne. congruence.
Qed.

(** ** Listing *)

Lemma list_profiles_Permutation fs :
  list_profiles fs ≡ₚ
  (if bool_decide ("Default" ∈ map stem (glob_json fs)) then [] else ["Default"])
  ++ map stem (glob_json fs).
Proof.
  unfold list_profiles, sorted. rewrite merge_sort_Permutation.
  destruct (bool_decide _); reflexivity.
Qed.

(** C4. Whatever the profiles directory holds, nothing included,
    [list_profiles()] contains ["Default"] and is sorted in
    lexicographic order; it has one entry per file of the directory
    whose name ends in [.json], the stem of that name, and besides
    these only ["Default"] when no file has that stem. In particular
    every profile with a non-empty name whose file exists is listed
    under its name. *)
Theorem list_profiles_sorted_with_default fs :
  "Default" ∈ list_profiles fs /\
  Sorted String.le (list_profiles fs) /\
  list_profiles fs ≡ₚ
    (if bool_decide ("Default" ∈ map stem (glob_json fs)) then [] else ["Default"])
    ++ map stem (glob_json fs) /\
  NoDup (glob_json fs) /\
  (forall f : string,
      f ∈ glob_json fs <-> is_Some (fs !! f) /\ endswith ".json" f = true) /\
  (forall n : string,
      n <> "" -> is_Some (fs !! get_profile_path n) -> n ∈ list_profiles fs).
Proof.
  split; [|split; [|split; [|split; [|split]]]].
  - rewrite list_profiles_Permutation.
    destruct (bool_decide_reflect ("Default" ∈ map stem (glob_json fs))) as [Hin|_].
    + exact Hin.
    + left.
  - apply Sorted_merge_sort. apply _.
  - apply list_profiles_Permutation.
  - apply glob_json_NoDup.
  - apply glob_json_spec.
  - intros n Hne Hex. rewrite list_profiles_Permutation.
    apply elem_of_app. right.
    rewrite <- (stem_profile_path n Hne).
    apply (list_elem_of_fmap_2 stem). apply glob_json_spec.
    split; [exact Hex|apply endswith_profile_path].
Qed.

End StoreFacts.

Section StoreDemo.
Import ConfigManager.
Local Open Scope string_scope.

Example stem_samples :
  map stem [".json"; "a.b.json"; "x..json"; "json"; "a."; "Default.json"; ".json.json"]
  = [".json"; "a.b"; "x."; "json"; "a."; "Default"; ".json"].
Proof. reflexivity. Qed.

(** Files that do not end in [.json] are not listed; a file named
    [.json] is listed under that very name. *)
Example list_profiles_sample :
  list_profiles (<["zeta.json" := PNone]>
                   (<[".json" := PNone]>
                      (<["notes.txt" := PNone]>
                         (<["Alpha.json" := PNone]> (∅ : gmap string pyval)))))
  = [".json"; "Alpha"; "Default"; "zeta"].
Proof. reflexivity. Qed.

(** Documents that are no profile: [load_profile] answers [None]. *)
Example load_profile_malformed :
  load_profile store_load (<["Bad.json" := PList []]> (∅ : gmap string pyval)) "Bad"
  = Return None /\
  load_profile store_load
    (<["Bad.json" := PDict [("windows", PList [PDict [("window_id", PInt 1)]])]]>
       (∅ : gmap string pyval)) "Bad"
  = Return None /\
  load_profile store_load (∅ : gmap string pyval) "Missing" = Return None.
Proof. repeat split. Qed.

Example empty_directory_lists_default :
  list_profiles (∅ : gmap string pyval) = ["Default"].
Proof. reflexivity. Qed.

Lemma profile_round_trip_witness :
  let fs := snd (save_profile store_dump store_format (∅ : gmap string pyval)
                   test_profile) in
  name test_profile = PStr "Test" /\
  valid_stem "Test" = true /\
  fst (save_profile store_dump store_format (∅ : gmap string pyval) test_profile)
  = true /\
  load_profile store_load fs "Test" = Return (Some test_profile).
Proof.
  cbv zeta. split; [reflexivity|]. split; [reflexivity|].
  apply (profile_round_trip store_dump store_load store_format
           (fun p => eq_refl) (fun s => eq_refl)); reflexivity.
Defined.

(** Names that are no file-name stems: a name with a NUL or with a
    ['/'] and a name of 251 bytes. Saving answers [False] and writes
    nothing; loading answers [None], and raises for the long name. *)
Example save_profile_refused :
  let named n :=
    {| name := PStr n; windows := []; refresh_rate := PInt 30;
       always_on_top := PBool true; click_through := PBool false |} in
  let long := String.concat "" (replicate 251 "x"%string) in
  save_profile store_dump store_format (∅ : gmap string pyval)
    (named (String NUL "a")) = (false, ∅) /\
  save_profile store_dump store_format (∅ : gmap string pyval) (named "a/b")
  = (false, ∅) /\
  save_profile store_dump store_format (∅ : gmap string pyval) (named long)
  = (false, ∅) /\
  load_profile store_load (∅ : gmap string pyval) (String NUL "a") = Return None /\
  load_profile store_load (∅ : gmap string pyval) long = Raise OSError /\
  valid_stem (String.concat "" (replicate 250 "x"%string)) = true.
Proof. cbv zeta. repeat split; vm_compute; reflexivity. Qed.

End StoreDemo.

(* ===================================================================== *)
(** * More on profiles and settings *)
(* ===================================================================== *)

Section ProfileDocuments.
Import ConfigManager.
Local Open Scope string_scope.

Lemma WindowConfig_of_kwargs_raises w e :
  WindowConfig_of_kwargs w = Raise e -> e = TypeError.
Proof.
  unfold WindowConfig_of_kwargs.
  destruct w as [| | | | | |kw]; try (intros [= <-]; reflexivity).
  destruct (forallb _ _); [|intros [= <-]; reflexivity].
  repeat match goal with
         | |- context [PyDict.get ?k kw] => destruct (PyDict.get k kw)
         end; try discriminate; intros [= <-]; reflexivity.
Qed.

Lemma WindowConfig_unknown_key kw k :
  k ∈ PyDict.keys kw -> k ∉ WindowConfig_fields ->
  WindowConfig_of_kwargs (PDict kw) = Raise TypeError.
Proof.
  intros Hin Hout. unfold WindowConfig_of_kwargs.
  destruct (forallb _ _) eqn:Hf; [|reflexivity].
  exfalso. rewrite forallb_forall in Hf.
  apply list_elem_of_In in Hin. specialize (Hf _ Hin).
  apply existsb_exists in Hf as (f & Hfin & Hfk).
  apply String.eqb_eq in Hfk. subst f.
  apply Hout, list_elem_of_In, Hfin.
Qed.

Lemma mapM_WindowConfig_raises ws w :
  w ∈ ws -> WindowConfig_of_kwargs w = Raise TypeError ->
  mapM WindowConfig_of_kwargs ws = Raise TypeError.
Proof.
  intros Hin Hw. induction ws as [|w0 ws IH]; [inversion Hin|].
  cbn [mapM]. apply elem_of_cons in Hin as [<-|Hin].
  - rewrite Hw. reflexivity.
  - destruct (WindowConfig_of_kwargs w0) as [c|e] eqn:E.
    + rewrite bind_Return, (IH Hin). reflexivity.
    + apply WindowConfig_of_kwargs_raises in E. subst e. reflexivity.
Qed.

(** X17. [Profile.from_dict] looks at five keys of the document and
    at nothing else: two documents that agree on them give the same
    profile, or fail alike. *)
Theorem from_dict_reads_five_keys (d d' : PyDict.t pyval) :
  (forall k, k ∈ Profile_keys -> PyDict.get k d = PyDict.get k d') ->
  from_dict (PDict d) = from_dict (PDict d').
Proof.
  intros H. unfold from_dict, get_default.
  rewrite !H by (unfold Profile_keys; set_solver).
  reflexivity.
Qed.

Lemma from_dict_reads_five_keys_witness :
  from_dict (PDict [("name", PStr "A"); ("comment", PStr "mine"); ("theme", PInt 1)])
  = from_dict (PDict [("theme", PNone); ("name", PStr "A")]).
Proof.
  apply from_dict_reads_five_keys.
  intros k Hk. unfold Profile_keys in Hk.
  repeat (apply elem_of_cons in Hk as [->|Hk]; [reflexivity|]).
  inversion Hk.
Defined.

(** X18. One window entry with a key that is no field of
    [WindowConfig] makes [Profile.from_dict] raise [TypeError],
    whatever the other entries and the other keys of the document
    are. *)
Theorem from_dict_rejects_unknown_window_key
        (d : PyDict.t pyval) (ws : list pyval) (kw : PyDict.t pyval) (k : string) :
  PyDict.get "windows" d = Some (PList ws) ->
  PDict kw ∈ ws ->
  k ∈ PyDict.keys kw ->
  k ∉ WindowConfig_fields ->
  from_dict (PDict d) = Raise TypeError.
Proof.
  intros Hw Hin Hk Hout. unfold from_dict, get_default. rewrite Hw.
  cbn [py_iter]. rewrite bind_Return.
  rewrite (mapM_WindowConfig_raises ws (PDict kw) Hin
             (WindowConfig_unknown_key kw k Hk Hout)).
  reflexivity.
Qed.

Lemma from_dict_rejects_unknown_window_key_witness :
  from_dict
    (PDict [("name", PStr "A");
            ("windows", PList [asdict test_window;
                               PDict [("window_id", PStr "0x1"); ("opacity", PInt 1)]])])
  = Raise TypeError.
Proof.
  apply (from_dict_rejects_unknown_window_key _
           [asdict test_window; PDict [("window_id", PStr "0x1"); ("opacity", PInt 1)]]
           [("window_id", PStr "0x1"); ("opacity", PInt 1)] "opacity").
  - reflexivity.
  - right. left.
  - right. left.
  - unfold WindowConfig_fields. intros H.
    repeat (apply elem_of_cons in H as [H|H]; [discriminate H|]).
    inversion H.
Defined.

End ProfileDocuments.

Section StoreMore.
Import ConfigManager.
Local Open Scope string_scope.
Context {content : Type}.
Variable json_dump : pyval -> content.
Variable json_load : content -> result pyval.
Variable format_value : pyval -> string.
Implicit Types (fs : gmap string content).

Lemma get_profile_path_inj (n n' : string) :
  get_profile_path n = get_profile_path n' -> n = n'.
Proof.
  unfold get_profile_path. revert n'.
  induction n as [|c n IH]; intros [|c' n'] H.
  - reflexivity.
  - exfalso. apply (f_equal String.length) in H.
    rewrite !length_app_string in H. cbn [String.length] in H. lia.
  - exfalso. apply (f_equal String.length) in H.
    rewrite !length_app_string in H. cbn [String.length] in H. lia.
  - change (String c n ++ ".json") with (String c (n ++ ".json")) in H.
    change (String c' n' ++ ".json") with (String c' (n' ++ ".json")) in H.
    injection H as -> H. f_equal. apply IH, H.
Qed.

(** X19. [load_profile] on a name that is a valid file-name stem
    never raises: it answers [None] when the file is missing, when
    the file is no JSON document, and when the document is no
    object; it answers the profile whenever [Profile.from_dict]
    accepts the document. On a name with a NUL it answers [None];
    on a name without NUL and ['/'] that is too long for a file name
    it raises [OSError], the test for the file standing before the
    [try]. *)
Theorem load_profile_answers fs (n : string) :
  (valid_stem n = true ->
   (exists r, load_profile json_load fs n = Return r) /\
   (fs !! get_profile_path n = None -> load_profile json_load fs n = Return None) /\
   (forall c e, fs !! get_profile_path n = Some c -> json_load c = Raise e ->
      load_profile json_load fs n = Return None) /\
   (forall c v, fs !! get_profile_path n = Some c -> json_load c = Return v ->
      (forall d, v <> PDict d) ->
      load_profile json_load fs n = Return None) /\
   (forall c v p, fs !! get_profile_path n = Some c -> json_load c = Return v ->
      from_dict v = Return p ->
      load_profile json_load fs n = Return (Some p))) /\
  (PyStr.mem_char NUL n = true -> load_profile json_load fs n = Return None) /\
  (PyStr.mem_char NUL n = false -> PyStr.mem_char "/" n = false ->
   (NAME_MAX < String.length n + 5)%nat ->
   load_profile json_load fs n = Raise OSError).
Proof.
  assert (Hmem : forall c, PyStr.mem_char c (get_profile_path n)
                           = PyStr.mem_char c n || PyStr.mem_char c ".json").
  { intros c. unfold get_profile_path. induction n as [|a n IH]; [reflexivity|].
    change (String a n ++ ".json") with (String a (n ++ ".json")).
    cbn [PyStr.mem_char]. rewrite IH, orb_assoc. reflexivity. }
  split; [|split].
  - intros Hv. rewrite (load_profile_valid json_load fs n Hv).
    split; [eauto|].
    split; [intros ->; reflexivity|].
    split; [intros c e -> ->; reflexivity|].
    split.
    + intros c v -> -> Hv'.
      destruct v as [| | | | | |d]; try reflexivity.
      exfalso. exact (Hv' d eq_refl).
    + intros c v p -> -> ->. reflexivity.
  - intros Hn. unfold load_profile, path_exists, path_kind_of.
    rewrite Hmem, Hn. reflexivity.
  - intros Hn Hs Hlen. unfold load_profile, path_exists, path_kind_of.
    rewrite !Hmem, Hn, Hs. cbn [orb PyStr.mem_char Ascii.eqb].
    change (PyStr.mem_char NUL ".json") with false.
    change (PyStr.mem_char "/" ".json") with false. cbn [orb].
    unfold get_profile_path. rewrite length_app_string. cbn [String.length].
    replace (NAME_MAX <? String.length n + 5)%nat with true
      by (symmetry; apply Nat.ltb_lt; exact Hlen).
    reflexivity.
Qed.


(** X21. For a valid file-name stem other than [Default],
    [delete_profile] answers whether the file of the profile
    existed; afterwards the profile does not load, every other valid
    stem loads as before, and deleting again answers [False] and
    changes nothing. Deleting a profile right after it was created
    gives the directory back. *)
Theorem delete_profile_effects fs (n : string) :
  n <> "Default" ->
  valid_stem n = true ->
  let r := delete_profile fs n in
  fst r = bool_decide (is_Some (fs !! get_profile_path n)) /\
  load_profile json_load (snd r) n = Return None /\
  (forall n', valid_stem n' = true -> n' <> n ->
     load_profile json_load (snd r) n' = load_profile json_load fs n') /\
  delete_profile (snd r) n = (false, snd r) /\
  (forall p, format_value (name p) = n -> fs !! get_profile_path n = None ->
     snd (delete_profile (snd (save_profile json_dump format_value fs p)) n) = fs).
Proof.
  intros Hne Hv. cbn zeta.
  assert (Hd : delete_profile fs n =
               (bool_decide (is_Some (fs !! get_profile_path n)),
                delete (get_profile_path n) fs)).
  { unfold delete_profile.
    destruct (String.eqb_spec n "Default") as [E|_]; [congruence|].
    destruct (fs !! get_profile_path n) as [c|] eqn:Hc.
    - rewrite bool_decide_eq_true_2 by eauto. reflexivity.
    - rewrite bool_decide_eq_false_2 by (intros [c Hc']; discriminate).
      rewrite delete_id by exact Hc. reflexivity. }
  rewrite Hd. cbn [fst snd].
  split; [reflexivity|].
  split.
  { rewrite (load_profile_valid json_load _ n Hv), lookup_delete_eq. reflexivity. }
  split.
  { intros n' Hv' Hn'. rewrite !(load_profile_valid json_load _ n' Hv').
    rewrite lookup_delete_ne; [reflexivity|].
    intros E. apply get_profile_path_inj in E. congruence. }
  split.
  { unfold delete_profile.
    destruct (String.eqb_spec n "Default") as [E|_]; [congruence|].
    rewrite lookup_delete_eq. reflexivity. }
  intros p Hp Hnone.
  rewrite (save_profile_valid json_dump format_value fs p)
    by (rewrite Hp; exact Hv).
  cbn [snd]. unfold delete_profile.
  destruct (String.eqb_spec n "Default") as [E|_]; [congruence|].
  rewrite Hp, lookup_insert_eq. cbn [snd].
  rewrite delete_insert_eq. apply delete_id, Hnone.
Qed.

End StoreMore.

Section SettingsFacts.
Import ConfigManager.
Local Open Scope string_scope.
Context {content : Type}.
Variable json_dump : pyval -> content.
Variable json_load : content -> result pyval.
Variable format_value : pyval -> string.
Implicit Types (m : manager content).

(** [json.load] reads back the document [json.dump] wrote, and a
    string formats as itself. *)
Hypothesis json_load_dump : forall v : pyval, json_load (json_dump v) = Return v.
Hypothesis format_value_str : forall s : string, format_value (PStr s) = s.

Lemma load_config_Return c v :
  json_load c = Return v -> _load_config json_load (Some c) = v.
Proof. intros H. unfold _load_config. rewrite H. reflexivity. Qed.

Lemma load_config_Raise c e :
  json_load c = Raise e -> _load_config json_load (Some c) = default_config.
Proof. intros H. unfold _load_config. rewrite H. reflexivity. Qed.

(** X22. On a configuration that is a JSON object, [set_setting]
    succeeds; [get_setting] then answers the value for that key and
    what it answered before for every other key; the profiles are
    untouched; and a manager started on the configuration file
    afterwards has the same settings. *)
Theorem set_setting_then_get m (d : PyDict.t pyval) (key : string) (value : pyval) :
  config m = PDict d ->
  exists m',
    set_setting json_dump key value m = Return m' /\
    (forall default, get_setting key default m' = Return value) /\
    (forall k default, k <> key ->
       get_setting k default m' = get_setting k default m) /\
    profiles_dir m' = profiles_dir m /\
    config (init json_load (profiles_dir m') (config_file m')) = config m'.
Proof.
  intros Hd. unfold set_setting, config_setitem. rewrite Hd, bind_Return.
  eexists. split; [reflexivity|].
  unfold get_setting, config_get, get_default, _save_config, init.
  cbn [config profiles_dir config_file]. rewrite Hd.
  split; [|split; [|split]].
  - intros default. rewrite get_set, String.eqb_refl. reflexivity.
  - intros k default Hk. rewrite get_set.
    destruct (String.eqb_spec key k); [congruence|reflexivity].
  - reflexivity.
  - apply load_config_Return, json_load_dump.
Qed.

(** X23. Without a configuration file, or with one that is no JSON
    document, the manager starts on the default configuration, whose
    current profile is [Default]. With a configuration file that
    holds a JSON document other than an object, the manager starts,
    but [get_setting] and [get_current_profile] raise
    [AttributeError], and [set_setting] and [set_current_profile]
    raise [TypeError]. *)
Theorem load_config_fallback (fs : gmap string content) :
  config (init json_load fs None) = default_config /\
  (forall c e, json_load c = Raise e ->
     config (init json_load fs (Some c)) = default_config) /\
  (forall default,
     get_setting "current_profile" default (init json_load fs None)
     = Return (PStr "Default")) /\
  (forall c v, json_load c = Return v -> (forall d, v <> PDict d) ->
     let m := init json_load fs (Some c) in
     (forall key default, get_setting key default m = Raise AttributeError) /\
     (forall key value, set_setting json_dump key value m = Raise TypeError) /\
     (forall n, set_current_profile json_dump n m = Raise TypeError) /\
     get_current_profile json_dump json_load format_value m = Raise AttributeError).
Proof.
  split; [reflexivity|].
  split; [intros c e H; unfold init; cbn [config]; apply (load_config_Raise _ _ H)|].
  split; [reflexivity|].
  intros c v Hc Hv m.
  assert (Hm : config m = v) by (apply load_config_Return, Hc).
  unfold get_setting, set_setting, set_current_profile, get_current_profile,
    config_get, config_setitem.
  rewrite Hm.
  destruct v as [| | | | | |d]; try (repeat split; reflexivity).
  exfalso. exact (Hv d eq_refl).
Qed.

(** X24. [get_current_profile] on a configuration that is a JSON
    object and names a profile by a valid file-name stem: when that
    profile loads, it is answered and nothing is written. When it
    does not load -- it is missing or unreadable -- the answer is a
    new, empty [Default] profile, which is written over
    [Default.json] whatever that file held, and which [load_profile]
    then finds; the configuration keeps naming the profile that did
    not load. *)
Theorem get_current_profile_heals m (d : PyDict.t pyval) :
  config m = PDict d ->
  let n := format_value (get_default "current_profile" (PStr "Default") d) in
  valid_stem n = true ->
  (forall p, load_profile json_load (profiles_dir m) n = Return (Some p) ->
     get_current_profile json_dump json_load format_value m = Return (p, m)) /\
  (load_profile json_load (profiles_dir m) n = Return None ->
   exists m',
     get_current_profile json_dump json_load format_value m
     = Return (new_default_profile, m') /\
     profiles_dir m' =
       <[get_profile_path "Default" := json_dump (to_dict new_default_profile)]>
         (profiles_dir m) /\
     config m' = config m /\
     config_file m' = config_file m /\
     load_profile json_load (profiles_dir m') "Default"
     = Return (Some new_default_profile)).
Proof.
  intros Hd. cbn zeta. intros _.
  unfold get_current_profile, config_get. rewrite Hd, bind_Return.
  split.
  - intros p Hp. rewrite Hp, bind_Return. reflexivity.
  - intros Hp. rewrite Hp, bind_Return.
    rewrite (save_profile_valid json_dump format_value)
      by (change (name new_default_profile) with (PStr "Default");
          rewrite format_value_str; reflexivity).
    change (name new_default_profile) with (PStr "Default").
    rewrite format_value_str.
    eexists. split; [reflexivity|]. cbn [profiles_dir config config_file].
    split; [reflexivity|]. split; [reflexivity|]. split; [reflexivity|].
    rewrite (load_profile_valid json_load _ "Default" eq_refl).
    rewrite lookup_insert_eq, json_load_dump.
    reflexivity.
Qed.

End SettingsFacts.

Section SettingsDemo.
Import ConfigManager.
Local Open Scope string_scope.

(** A manager started without a configuration file, on an empty
    profiles directory whose files hold the documents themselves. *)
Lemma set_setting_then_get_witness :
  exists m',
    set_setting store_dump "theme" (PStr "light")
      (init store_load (∅ : gmap string pyval) None) = Return m' /\
    get_setting "theme" PNone m' = Return (PStr "light") /\
    get_setting "last_profile" PNone m' = Return (PStr "Default").
Proof.
  destruct (set_setting_then_get store_dump store_load (fun v => eq_refl)
              (init store_load (∅ : gmap string pyval) None)
              [ ("current_profile", PStr "Default");
                ("last_profile", PStr "Default");
                ("window_geometry", PNone);
                ("theme", PStr "dark") ]
              "theme" (PStr "light") eq_refl)
    as (m' & Hset & Hget & Hother & _).
  exists m'. split; [exact Hset|]. split; [apply Hget|].
  rewrite Hother by discriminate. reflexivity.
Defined.

(** A configuration file that holds a JSON list. *)
Example config_list_disables_settings :
  config (init store_load (∅ : gmap string pyval) (Some (PList []))) = PList [] /\
  get_setting "current_profile" (PStr "Default")
    (init store_load (∅ : gmap string pyval) (Some (PList [])))
  = Raise AttributeError.
Proof. split; reflexivity. Qed.

(** The current profile is [Lost], which has no file; [Default.json]
    holds the profile of the component test. *)
Lemma get_current_profile_heals_witness :
  let m := {| profiles_dir := <["Default.json" := to_dict test_profile]> ∅;
              config_file := None;
              config := PDict [("current_profile", PStr "Lost")];
              current_profile_name := "Lost" |} in
  valid_stem "Lost" = true /\
  load_profile store_load (profiles_dir m) "Default"
  = Return (Some {| name := PStr "Test"; windows := [test_window];
                    refresh_rate := PInt 30; always_on_top := PBool true;
                    click_through := PBool false |}) /\
  exists m',
    get_current_profile store_dump store_load store_format m
    = Return (new_default_profile, m') /\
    load_profile store_load (profiles_dir m') "Default"
    = Return (Some new_default_profile).
Proof.
  cbn zeta. split; [reflexivity|]. split; [reflexivity|].
  destruct (get_current_profile_heals store_dump store_load store_format
              (fun v => eq_refl) (fun s => eq_refl)
              {| profiles_dir := <["Default.json" := to_dict test_profile]> ∅;
                 config_file := None;
                 config := PDict [("current_profile", PStr "Lost")];
                 current_profile_name := "Lost" |}
              [("current_profile", PStr "Lost")] eq_refl eq_refl)
    as [_ H].
  destruct (H eq_refl) as (m' & Hg & _ & _ & _ & Hl).
  exists m'. split; [exact Hg | exact Hl].
Defined.

Lemma delete_profile_effects_witness :
  let fs := snd (save_profile store_dump store_format (∅ : gmap string pyval)
                   test_profile) in
  valid_stem "Test" = true /\
  fst (delete_profile fs "Test") = true /\
  load_profile store_load (snd (delete_profile fs "Test")) "Test" = Return None /\
  delete_profile (snd (delete_profile fs "Test")) "Test"
  = (false, snd (delete_profile fs "Test")).
Proof.
  cbn zeta. split; [reflexivity|].
  destruct (delete_profile_effects store_dump store_load store_format
              (snd (save_profile store_dump store_format (∅ : gmap string pyval)
                      test_profile))
              "Test") as (H1 & H2 & _ & H4 & _); [discriminate | reflexivity |].
  split; [|split; [exact H2 | exact H4]].
  rewrite H1. reflexivity.
Defined.


End SettingsDemo.

(* ===================================================================== *)
(** * Saving the panels and restoring them *)
(* ===================================================================== *)

Section ScaleFacts.
Import PreviewFrame.

(** Clamping a clamped scale changes nothing. *)
Lemma clamp_scale_idem (s : float) :
  let r := py_max float_lt f0_1 (py_min float_lt f1_0 s) in
  py_max float_lt f0_1 (py_min float_lt f1_0 r) = r.
Proof.
  cbn zeta. unfold py_max, py_min.
  destruct (float_lt s f1_0) eqn:Hs1.
  - destruct (float_lt f0_1 s) eqn:Hs0.
    + rewrite Hs1, Hs0. reflexivity.
    + reflexivity.
  - change (float_lt f0_1 f1_0) with true. cbn iota. reflexivity.
Qed.

(** The scale of a panel is one that [set_scale] would store as it
    is. *)
Lemma run_scale_fixed (wid title : string) (ops : list op) :
  let p := run ops (init wid title) in
  py_max float_lt f0_1 (py_min float_lt f1_0 (scale_factor p)) = scale_factor p.
Proof.
  cbn zeta. unfold run.
  induction ops as [|o ops IH] using rev_ind; [reflexivity|].
  rewrite fold_left_app. cbn [fold_left].
  destruct o as [s|f| | |b on_title|b| ]; cbn [step]; try exact IH.
  - apply clamp_scale_idem.
  - destruct b; [destruct on_title|..]; exact IH.
  - destruct b; exact IH.
Qed.

Lemma run_identity (wid title : string) (ops : list op) :
  window_id (run ops (init wid title)) = wid /\
  window_title (run ops (init wid title)) = title.
Proof.
  unfold run. induction ops as [|o ops IH] using rev_ind; [split; reflexivity|].
  rewrite fold_left_app. cbn [fold_left].
  destruct (step_identity o (fold_left (fun q o => step o q) ops (init wid title)))
    as [-> ->].
  exact IH.
Qed.

End ScaleFacts.

Section ProfilePanels.
Import HotkeyManager MainWindow MainWindowProfile.
Local Open Scope string_scope.
Context {content : Type}.
Variable json_dump : ConfigManager.pyval -> content.
Variable json_load : content -> result ConfigManager.pyval.
Variable format_value : ConfigManager.pyval -> string.
Variable accepts : PyDict.t (wrapper Callback) -> bool.
Variable get_geometry_dict : string -> Z * Z * Z * Z.
Variable isVisible : string -> bool.

(** X28. A panel saved and created again from its saved
    configuration, in any state of the main window and with any
    profile rate: the new panel is stored under the same identifier,
    has the same title and the same scale, runs at the clamped rate
    of the profile, has its timer started, and is the last item of
    the previews list. *)
Theorem panel_restored_from_saved_config
        (s s0 : MainWindow.t) (w title : string) (ops : list PreviewFrame.op)
        (rate : Z) :
  let frame := PreviewFrame.run ops (PreviewFrame.init w title) in
  let config := saved_window get_geometry_dict isVisible s w frame in
  exists s1 frame1,
    _create_preview_from_config accepts config rate s0 = Some s1 /\
    PyDict.get w (preview_frames s1) = Some frame1 /\
    PreviewFrame.window_id frame1 = w /\
    PreviewFrame.window_title frame1 = title /\
    PreviewFrame.scale_factor frame1 = PreviewFrame.scale_factor frame /\
    PreviewFrame.refresh_rate frame1 = py_max int_lt 1 (py_min int_lt 60 rate) /\
    PreviewFrame.timer_active frame1 = true /\
    last (previews_list s1) = Some (window_item w title).
Proof.
  cbn zeta. unfold saved_window, _create_preview_from_config.
  destruct (get_geometry_dict w) as [[[gx gy] gw] gh].
  cbn [ConfigManager.window_id ConfigManager.window_title ConfigManager.x
       ConfigManager.y ConfigManager.width ConfigManager.height
       ConfigManager.scale ConfigManager.hotkey].
  destruct (run_identity w title ops) as [Hid Htitle].
  rewrite Htitle.
  eexists. eexists. split; [reflexivity|].
  cbn [preview_frames previews_list].
  rewrite get_set, String.eqb_refl.
  split; [reflexivity|].
  cbn [PreviewFrame.start_preview PreviewFrame.set_scale PreviewFrame.set_refresh_rate
       PreviewFrame.init PreviewFrame.window_id PreviewFrame.window_title
       PreviewFrame.scale_factor PreviewFrame.refresh_rate PreviewFrame.timer_active].
  split; [reflexivity|]. split; [reflexivity|].
  split; [apply run_scale_fixed|].
  split; [reflexivity|]. split; [reflexivity|].
  apply last_snoc.
Qed.

(** X29. The hotkey of a panel is saved in the form the registry
    holds, which is the parsed form, and is parsed a second time when
    the panel is created again from its saved configuration. After a
    save and a restore, a hotkey with a modifier is therefore bound
    to another combination than before. *)
Theorem saved_hotkey_is_parsed_again
        (s s0 : MainWindow.t) (w combo : string) (frame : PreviewFrame.t)
        (rate : Z) :
  let s' := _register_preview_hotkey accepts w combo s in
  let config := saved_window get_geometry_dict isVisible s' w frame in
  ConfigManager.hotkey config = ConfigManager.PStr (parse_key_combo combo) /\
  exists s1,
    _create_preview_from_config accepts config rate s0 = Some s1 /\
    current_hotkey w s1 = Some (parse_key_combo (parse_key_combo combo)) /\
    (forall m n, m ∈ PyStr.split "+" combo -> canonical_modifier m = Some n ->
       current_hotkey w s1 <> current_hotkey w s').
Proof.
  cbn zeta. unfold saved_window, _create_preview_from_config.
  destruct (get_geometry_dict w) as [[[gx gy] gw] gh].
  rewrite register_preview_hotkey_current.
  cbn [ConfigManager.window_id ConfigManager.window_title ConfigManager.x
       ConfigManager.y ConfigManager.width ConfigManager.height
       ConfigManager.scale ConfigManager.hotkey].
  split; [reflexivity|].
  destruct (String.eqb_spec (parse_key_combo combo) "") as [E|_];
    [exfalso; exact (parse_key_combo_nonempty combo E)|].
  eexists. split; [reflexivity|].
  assert (Hcur : forall frames items,
             current_hotkey w
               {| hotkey_manager :=
                    hotkey_manager
                      (_register_preview_hotkey accepts w (parse_key_combo combo) s0);
                  preview_frames := frames; previews_list := items |}
             = Some (parse_key_combo (parse_key_combo combo))).
  { intros frames items.
    exact (register_preview_hotkey_current accepts w (parse_key_combo combo) s0). }
  rewrite Hcur. split; [reflexivity|].
  intros m n Hm Hn [= E].
  exact (proj2 (parse_twice_wraps combo m n Hm Hn) E).
Qed.

(** [json.load] reads back the document [json.dump] wrote for a
    profile, and a string formats as itself. *)
Hypothesis json_load_dump :
  forall p : ConfigManager.Profile,
    json_load (json_dump (ConfigManager.to_dict p)) = Return (ConfigManager.to_dict p).
Hypothesis format_value_str : forall n : string, format_value (ConfigManager.PStr n) = n.

(** X30. Saving the current profile, named by a string that is a
    valid file-name stem, writes a profile that [load_profile] reads
    back under that name field for field; it has one window per live
    panel, in the order of the panels, each under the identifier of
    its panel; it carries the rate and the always-on-top flag of the
    main window; and every profile stored under another valid stem
    loads as before. *)
Theorem saved_profile_loads_back
        (refresh_rate : Z) (always_on_top : bool)
        (current_profile : ConfigManager.Profile) (n : string)
        (s : MainWindow.t) (fs : gmap string content) :
  ConfigManager.name current_profile = ConfigManager.PStr n ->
  ConfigManager.valid_stem n = true ->
  let r := _save_current_profile json_dump format_value get_geometry_dict isVisible
             refresh_rate always_on_top current_profile s fs in
  ConfigManager.load_profile json_load (snd r) n = Return (Some (fst r)) /\
  map ConfigManager.window_id (ConfigManager.windows (fst r))
    = map ConfigManager.PStr (PyDict.keys (preview_frames s)) /\
  ConfigManager.refresh_rate (fst r) = ConfigManager.PInt refresh_rate /\
  ConfigManager.always_on_top (fst r) = ConfigManager.PBool always_on_top /\
  (forall n', ConfigManager.valid_stem n' = true -> n' <> n ->
     ConfigManager.load_profile json_load (snd r) n'
     = ConfigManager.load_profile json_load fs n').
Proof.
  intros Hn Hv. cbn zeta. unfold _save_current_profile. cbn [fst snd].
  rewrite save_profile_valid
    by (cbn [ConfigManager.name]; rewrite Hn, format_value_str; exact Hv).
  cbn [snd ConfigManager.name]. rewrite Hn, format_value_str.
  split.
  { rewrite (load_profile_valid json_load _ n Hv).
    rewrite lookup_insert_eq, json_load_dump, from_dict_to_dict.
    reflexivity. }
  split.
  { cbn [ConfigManager.windows]. unfold PyDict.keys. rewrite !map_map.
    apply map_ext. intros [w frame]. unfold saved_window.
    destruct (get_geometry_dict w) as [[[gx gy] gw] gh]. reflexivity. }
  split; [reflexivity|]. split; [reflexivity|].
  intros n' Hv' Hn'. rewrite !(load_profile_valid json_load _ n' Hv').
  rewrite lookup_insert_ne; [reflexivity|].
  intros E. apply get_profile_path_inj in E. congruence.
Qed.

End ProfilePanels.

Section ProfilePanelsDemo.
Import HotkeyManager MainWindow MainWindowProfile.
Local Open Scope string_scope.

(** The panel of [one_panel], bound to [Ctrl+1], saved and restored
    into an empty main window. *)
Example restored_hotkey_sample :
  let config := saved_window (fun _ => (0, 0, 400, 300)) (fun _ => true)
                  one_panel "0x1" pilot_frame in
  ConfigManager.hotkey config = ConfigManager.PStr "<ctrl>+1" /\
  (current_hotkey "0x1" <$> _create_preview_from_config accepts_all config 30 empty_window)
  = Some (Some "<<ctrl>>+1").
Proof. split; reflexivity. Qed.

Lemma saved_profile_loads_back_witness :
  let r := _save_current_profile ConfigManager.store_dump ConfigManager.store_format
             (fun _ => (0, 0, 400, 300)) (fun _ => true) 30 true
             ConfigManager.test_profile one_panel ∅ in
  ConfigManager.valid_stem "Test" = true /\
  ConfigManager.load_profile ConfigManager.store_load (snd r) "Test"
  = Return (Some (fst r)) /\
  map ConfigManager.window_id (ConfigManager.windows (fst r))
  = [ConfigManager.PStr "0x1"].
Proof.
  cbn zeta. split; [reflexivity|].
  destruct (saved_profile_loads_back
              ConfigManager.store_dump ConfigManager.store_load
              ConfigManager.store_format
              (fun _ => (0, 0, 400, 300)) (fun _ => true)
              (fun p => eq_refl) (fun n => eq_refl)
              30 true ConfigManager.test_profile "Test" one_panel ∅ eq_refl eq_refl)
    as (H1 & H2 & _).
  split; [exact H1 | exact H2].
Defined.

End ProfilePanelsDemo.
